(** * replicate-video-ai: the asynchronous job lifecycle

    A shallow embedding of the Go sources of the Replicate video server
    (packages [client], [storage], [generation] and [handler]) and the
    properties of the submit / continue lifecycle that hold of them.

    Conventions of the embedding

    - A Go [interface{}] holding decoded JSON or YAML is a [Value].
    - A Go [map[string]interface{}] is a [gmap string Value].
    - A Go [(T, error)] result where exactly one side is set is a
      [result T]; where both sides may be set it is a pair of options.
    - Everything outside the repository (the provider's HTTP replies, the
      download host, the clock, the random source, the scheduler's choice
      in a [select], and a few formatting routines of the Go library) is
      read from an [Env]; what the program has done so far (requests sent,
      downloads made, the files on disk) is a [State] passed along. *)

From Stdlib Require Import ZArith QArith Strings.String Strings.Ascii List Lia Bool.
From Stdlib Require OrderedTypeEx Sorted.
From stdpp Require Import gmap strings list fin_maps pretty.

Set Warnings "-register-all".
Open Scope Z_scope.

(** ** Values and errors *)

(** A dynamically typed Go value as [encoding/json] and [yaml.v3] produce
    them.  [VFloat] carries the exact rational value of a finite float64;
    [VInt] stands for the integer types ([int], [int64]). *)
Inductive Value : Type :=
| VNil
| VBool (b : bool)
| VInt (z : Z)
| VFloat (q : Q)
| VString (s : string)
| VSlice (l : list Value)
| VMap (m : gmap string Value).

(** Go [error] values.  [fmt.Errorf] without [%w] and [errors.New] build an
    [*errors.errorString] holding only the message; [fmt.Errorf] with [%w]
    builds a [*fmt.wrapError] holding the message and the wrapped error.
    Errors made by packages outside the repository keep their type name. *)
Inductive error : Type :=
| errorString (s : string)
| wrapError (msg : string) (err : error)
| libraryError (type_name : string) (msg : string).

(** [err.Error()] *)
Definition Error_string (e : error) : string :=
  match e with
  | errorString s => s
  | wrapError msg _ => msg
  | libraryError _ msg => msg
  end.

(** The dynamic type of an error, which is all that a type switch or
    [errors.As] can observe beyond the message. *)
Definition error_type (e : error) : string :=
  match e with
  | errorString _ => "*errors.errorString"
  | wrapError _ _ => "*fmt.wrapError"
  | libraryError t _ => t
  end.

(** [errors.Unwrap] *)
Definition Unwrap (e : error) : option error :=
  match e with
  | wrapError _ inner => Some inner
  | _ => None
  end.

Inductive result (A : Type) : Type :=
| Ok (a : A)
| Err (e : error).
Arguments Ok {A} a.
Arguments Err {A} e.

(** The value side and the error side of a [(T, error)] pair. *)
Definition ok_value {A} (r : result A) : option A :=
  match r with Ok a => Some a | Err _ => None end.

Definition err_value {A} (r : result A) : option error :=
  match r with Ok _ => None | Err e => Some e end.

(** The type assertion [v.(string)]. *)
Definition as_string (v : option Value) : option string :=
  match v with Some (VString s) => Some s | _ => None end.

(** The type assertion [v.(float64)]. *)
Definition as_float64 (v : option Value) : option Q :=
  match v with Some (VFloat q) => Some q | _ => None end.

(** The type assertion [v.(map[string]interface{})]. *)
Definition as_map (v : option Value) : option (gmap string Value) :=
  match v with Some (VMap m) => Some m | _ => None end.

(** ** Package strings *)

Module strings.

(** [strings.Contains(s, substr)] *)
Definition Contains (s substr : string) : bool :=
  match String.index 0 substr s with
  | Some _ => true
  | None => false
  end.

(** [strings.ReplaceAll(s, old, "")] for a one-byte [old]. *)
Fixpoint RemoveAll (old : ascii) (s : string) : string :=
  match s with
  | EmptyString => EmptyString
  | String c s' =>
      if Ascii.eqb c old then RemoveAll old s' else String c (RemoveAll old s')
  end.

End strings.

(** ** Package fmt: a format string with no operands

    [WaitForCompletion] passes the provider's failure text to [fmt.Errorf]
    as the format, with no operands.  [Sprintf0] is [fmt.Sprintf(format)]
    for that case, following the printer loop [doPrintf] with [len(a) = 0]. *)

Module fmt.

Definition byte_of (c : ascii) : Z := Z.of_N (N_of_ascii c).

Definition chars (s : string) : list ascii := list_ascii_of_string s.

Definition is_digit (c : ascii) : bool :=
  (48 <=? byte_of c) && (byte_of c <=? 57).

Definition is_flag (c : ascii) : bool :=
  match c with
  | "#"%char | "0"%char | "+"%char | "-"%char | " "%char => true
  | _ => false
  end.

Fixpoint skip_flags (s : list ascii) : list ascii :=
  match s with
  | c :: s' => if is_flag c then skip_flags s' else s
  | [] => []
  end.

(** [tooLarge] *)
Definition tooLarge (x : Z) : bool := (x >? 1000000) || (x <? -1000000).

(** [parsenum]: the number read, whether one was read, and what is left.
    A number that grows too large abandons the whole segment. *)
Fixpoint parsenum_from (num : Z) (isnum : bool) (s : list ascii)
  : Z * bool * list ascii :=
  match s with
  | c :: s' =>
      if is_digit c then
        if tooLarge num then (0, false, [])
        else parsenum_from (num * 10 + (byte_of c - 48)) true s'
      else (num, isnum, s)
  | [] => (num, isnum, [])
  end.

Definition parsenum (s : list ascii) : Z * bool * list ascii :=
  parsenum_from 0 false s.

(** The bytes before the first "]" and the bytes after it. *)
Fixpoint split_bracket (s : list ascii) : option (list ascii * list ascii) :=
  match s with
  | [] => None
  | c :: s' =>
      if Ascii.eqb c "]" then Some ([], s')
      else match split_bracket s' with
           | Some (seg, rest) => Some (c :: seg, rest)
           | None => None
           end
  end.

(** [parseArgNumber] on the bytes that follow an opening "[": what is left
    of the format and whether a well-formed index was read. *)
Definition parseArgNumber (after_open : list ascii) : list ascii * bool :=
  if (length after_open <? 2)%nat then (after_open, false)
  else match split_bracket after_open with
       | None => (after_open, false)
       | Some (seg, rest) =>
           match parsenum seg with
           | (_, true, []) => (rest, true)
           | _ => (rest, false)
           end
       end.

(** [argNumber] with no operands: what is left, [found], and whether an
    index was met at all (no index is in range, so [goodArgNum] drops). *)
Definition argNumber (s : list ascii) : list ascii * bool * bool :=
  match s with
  | c :: s' =>
      if Ascii.eqb c "[" then
        let '(rest, ok) := parseArgNumber s' in (rest, ok, true)
      else (s, false, false)
  | [] => ([], false, false)
  end.

Definition continuation (c : ascii) : bool :=
  (128 <=? byte_of c) && (byte_of c <=? 191).

Definition in_range (lo hi : Z) (c : ascii) : bool :=
  (lo <=? byte_of c) && (byte_of c <=? hi).

(** [utf8.DecodeRuneInString]: the length of the well-formed encoding at
    the head of [s], or [0] when the head is not one (the rune is then
    [RuneError], of width 1). *)
Definition rune_len (s : list ascii) : nat :=
  match s with
  | [] => 0%nat
  | b0 :: t =>
      let x := byte_of b0 in
      if x <? 128 then 1%nat
      else if (194 <=? x) && (x <=? 223) then
        match t with
        | b1 :: _ => if continuation b1 then 2%nat else 0%nat
        | _ => 0%nat
        end
      else if (224 <=? x) && (x <=? 239) then
        match t with
        | b1 :: b2 :: _ =>
            let second :=
              if x =? 224 then in_range 160 191 b1
              else if x =? 237 then in_range 128 159 b1
              else continuation b1 in
            if second && continuation b2 then 3%nat else 0%nat
        | _ => 0%nat
        end
      else if (240 <=? x) && (x <=? 244) then
        match t with
        | b1 :: b2 :: b3 :: _ =>
            let second :=
              if x =? 240 then in_range 144 191 b1
              else if x =? 244 then in_range 128 143 b1
              else continuation b1 in
            if second && continuation b2 && continuation b3 then 4%nat else 0%nat
        | _ => 0%nat
        end
      else 0%nat
  end.

(** The bytes [writeRune] emits for the verb at the head of [s], and what
    follows the verb. *)
Definition take_verb (s : list ascii) : list ascii * list ascii :=
  match rune_len s with
  | O => (chars "�", drop 1 s)
  | n => (take n s, drop n s)
  end.

(** One directive, entered after its "%": the text it writes, and what is
    left of the format ([None] when the format ended inside it). *)
Definition directive (s : list ascii) : list ascii * option (list ascii) :=
  let s := skip_flags s in
  let '(s, afterIndex, bad1) := argNumber s in
  let '(s, afterIndex, bad2, out1) :=
    match s with
    | "*"%char :: s' => (s', false, false, chars "%!(BADWIDTH)")
    | _ => let '(_, widPresent, s') := parsenum s in
           (s', afterIndex, afterIndex && widPresent, [])
    end in
  let '(s, afterIndex, bad3, out2) :=
    match s with
    | "."%char :: s' =>
        let '(s'', afterIndex', bad) := argNumber s' in
        match s'' with
        | "*"%char :: s3 => (s3, false, afterIndex || bad, chars "%!(BADPREC)")
        | _ => let '(_, _, s3) := parsenum s'' in
               (s3, afterIndex', afterIndex || bad, [])
        end
    | _ => (s, afterIndex, false, [])
    end in
  let '(s, bad4) :=
    if afterIndex then (s, false)
    else let '(s', _, bad) := argNumber s in (s', bad) in
  let goodArgNum := negb (bad1 || bad2 || bad3 || bad4) in
  match s with
  | [] => (out1 ++ out2 ++ chars "%!(NOVERB)", None)
  | c :: _ =>
      let '(verb, rest) := take_verb s in
      let text :=
        if Ascii.eqb c "%" then chars "%"
        else if goodArgNum then chars "%!" ++ verb ++ chars "(MISSING)"
        else chars "%!" ++ verb ++ chars "(BADINDEX)" in
      (out1 ++ out2 ++ text, Some rest)
  end.

Fixpoint doPrintf (fuel : nat) (format : list ascii) : list ascii :=
  match fuel with
  | O => []
  | S fuel' =>
      match format with
      | [] => []
      | c :: rest =>
          if Ascii.eqb c "%" then
            match directive rest with
            | (out, Some rest') => out ++ doPrintf fuel' rest'
            | (out, None) => out
            end
          else c :: doPrintf fuel' rest
      end
  end.

(** [fmt.Sprintf(format)] *)
Definition Sprintf0 (format : string) : string :=
  string_of_list_ascii (doPrintf (String.length format) (chars format)).

(** [fmt.Errorf(format)]: no [%w] can bind with no operand, so the error
    is an [*errors.errorString]. *)
Definition Errorf0 (format : string) : error :=
  errorString (Sprintf0 format).

(** The name [%T] prints for the dynamic type of a value. *)
Definition TypeName (v : Value) : string :=
  match v with
  | VNil => "<nil>"
  | VBool _ => "bool"
  | VInt _ => "int"
  | VFloat _ => "float64"
  | VString _ => "string"
  | VSlice _ => "[]interface {}"
  | VMap _ => "map[string]interface {}"
  end.

End fmt.

(** ** Package types *)

Module types.

(** [ReplicatePredictionResponse] *)
Record ReplicatePredictionResponse : Type := {
  ID : string;
  Version : string;
  Status : string;
  Input : gmap string Value;
  Output : Value;
  Error : Value;
  Logs : string;
  MetricsEnd : Value;
  CreatedAt : string;
  StartedAt : string;
  CompletedAt : string;
  URLs : gmap string string
}.

Definition StatusStarting : string := "starting".
Definition StatusProcessing : string := "processing".
Definition StatusSucceeded : string := "succeeded".
Definition StatusFailed : string := "failed".
Definition StatusCanceled : string := "canceled".

(** [ProcessingResponse], [SuccessResponse] and [ErrorResponse], before
    [json.MarshalIndent] turns them into text. *)
Record ProcessingResponse : Type := {
  pr_Success : bool;
  pr_Status : string;
  pr_Operation : string;
  pr_PredictionID : string;
  pr_StorageID : string;
  pr_Message : string;
  pr_WaitTime : Z
}.

Record SuccessResponse : Type := {
  sr_Success : bool;
  sr_Operation : string;
  sr_StorageID : string;
  sr_PredictionID : string;
  sr_Status : string;
  sr_Paths : gmap string string;
  sr_Model : gmap string string;
  sr_Parameters : gmap string Value;
  sr_Metrics : gmap string Value
}.

Record ErrorResponse : Type := {
  er_Success : bool;
  er_Operation : string;
  er_Type : string;
  er_Message : string;
  er_Details : option (gmap string Value)
}.

End types.

(** ** The environment and the state *)

(** What [json.Unmarshal] makes of a response body, for the two targets
    the client decodes into. *)
Record HTTPResponse : Type := {
  StatusCode : Z;
  Body : string;
  BodyObject : result (gmap string Value);
  BodyPrediction : result types.ReplicatePredictionResponse
}.

(** How one exchange with the provider's API ends. *)
Inductive HTTPOutcome : Type :=
| RequestRefused (e : error)
| SendFailed (e : error)
| ReadFailed (e : error)
| Responded (r : HTTPResponse).

(** How one [http.Get] of an output URL ends: no reply, or a reply with
    its status, the bytes [io.Copy] delivers, and the error [io.Copy]
    stops with, if any. *)
Inductive DownloadOutcome : Type :=
| GetFailed (e : error)
| GetResponded (status : Z) (body : string) (copy_error : option error).

(** Which case of the polling [select] runs. *)
Inductive SelectCase : Type :=
| CtxDone (e : error)
| Tick.

(** A request sent to the provider's API. *)
Record Request : Type := {
  Method : string;
  URL : string;
  Payload : option Value
}.

(** A file's content: a YAML document that decodes to a record, or bytes
    that do not. *)
Inductive FileData : Type :=
| Document (m : gmap string Value)
| Bytes (b : string).

(** A child of the videos root folder. *)
Inductive Entry : Type :=
| RegularFile (data : FileData)
| Folder (files : gmap string FileData).

(** Everything the program reads from outside itself.  Durations and
    instants are in nanoseconds. *)
Record Env : Type := {
  api : nat -> HTTPOutcome;
  cdn : nat -> DownloadOutcome;
  clock : nat -> Z;
  random : nat -> Z;
  select : nat -> SelectCase;
  ReadFile : string -> result string;
  Duration_String : Z -> string;
  Format_RFC3339 : Z -> string;
  Sprint_value : Value -> string;
  int64_of_unrepresentable : Q -> Z;
  filepath_Ext : string -> string;
  ToLower : string -> string;
  DetectContentType : string -> string;
  base64_EncodeToString : string -> string
}.

(** What the program has done so far.  The n-th request to the API is
    answered by [api env n], the n-th download by [cdn env n], and so on
    for the clock, the random source and the [select]. *)
Record State : Type := {
  requests : list Request;
  downloads : list string;
  clock_reads : nat;
  selects : nat;
  uuids_drawn : nat;
  disk : gmap string Entry
}.

Definition set_disk (d : gmap string Entry) (st : State) : State :=
  {| requests := requests st; downloads := downloads st;
     clock_reads := clock_reads st; selects := selects st;
     uuids_drawn := uuids_drawn st; disk := d |}.

(** One exchange with the provider's API. *)
Definition http_Do (env : Env) (r : Request) (st : State) : HTTPOutcome * State :=
  (api env (length (requests st)),
   {| requests := requests st ++ [r]; downloads := downloads st;
      clock_reads := clock_reads st; selects := selects st;
      uuids_drawn := uuids_drawn st; disk := disk st |}).

(** [http.Get(url)] of an output file. *)
Definition http_Get (env : Env) (url : string) (st : State) : DownloadOutcome * State :=
  (cdn env (length (downloads st)),
   {| requests := requests st; downloads := downloads st ++ [url];
      clock_reads := clock_reads st; selects := selects st;
      uuids_drawn := uuids_drawn st; disk := disk st |}).

(** [time.Now()] *)
Definition time_Now (env : Env) (st : State) : Z * State :=
  (clock env (clock_reads st),
   {| requests := requests st; downloads := downloads st;
      clock_reads := S (clock_reads st); selects := selects st;
      uuids_drawn := uuids_drawn st; disk := disk st |}).

(** The polling [select]. *)
Definition select_case (env : Env) (st : State) : SelectCase * State :=
  (select env (selects st),
   {| requests := requests st; downloads := downloads st;
      clock_reads := clock_reads st; selects := S (selects st);
      uuids_drawn := uuids_drawn st; disk := disk st |}).

(** Sixteen fresh random bytes, as one 128-bit number. *)
Definition rand_Read (env : Env) (st : State) : Z * State :=
  (random env (uuids_drawn st),
   {| requests := requests st; downloads := downloads st;
      clock_reads := clock_reads st; selects := selects st;
      uuids_drawn := S (uuids_drawn st); disk := disk st |}).

(** ** Package time *)

Module time.

Definition Nanosecond : Z := 1.
Definition Second : Z := 1000000000.
Definition Minute : Z := 60 * Second.

(** An int64 result wraps around. *)
Definition wrap64 (z : Z) : Z := (z + 2 ^ 63) mod 2 ^ 64 - 2 ^ 63.

(** Multiplying two durations. *)
Definition mul (a b : Z) : Z := wrap64 (a * b).

(** The conversion [time.Duration(f)] of a float64: the fraction is
    dropped; a value no int64 can hold converts as the platform
    decides. *)
Definition Duration_of_float64 (env : Env) (f : Q) : Z :=
  let t := Z.quot (Qnum f) (Z.pos (Qden f)) in
  if (- 2 ^ 63 <=? t) && (t <? 2 ^ 63) then t
  else wrap64 (int64_of_unrepresentable env f).

(** [d.Seconds()], without the rounding to a float64. *)
Definition Seconds (d : Z) : Q := Qmake d 1000000000.

(** [int(d.Seconds())] *)
Definition whole_seconds (d : Z) : Z := Z.quot d Second.

(** A [context.Context], as far as the client looks at it: its deadline.
    Whether and when it is done shows in the [select]. *)
Record Context : Type := {
  Deadline : option Z
}.

End time.

(** ** Package client *)

Module client.

Abbreviation Prediction := types.ReplicatePredictionResponse.

Definition replicateAPIURL : string := "https://api.replicate.com/v1".

(** [ReplicateClient]; its [http.Client] is the environment's [api]. *)
Record ReplicateClient : Type := {
  apiToken : string;
  debug : bool
}.

(** The interface [Client], without [CancelPrediction], which the
    lifecycle never calls.  A call that never returns has no result. *)
Record Client : Type := {
  Client_CreatePrediction :
    time.Context -> string -> gmap string Value -> State -> result Prediction * State;
  Client_GetPrediction :
    time.Context -> string -> State -> result Prediction * State;
  Client_WaitForCompletion :
    time.Context -> string -> Z -> State ->
    option (option Prediction * option error * State)
}.

(** The request [CreatePrediction] sends: the version endpoint when the
    model carries a version hash, the model endpoint otherwise.  A
    [Value] always marshals, so the source's "failed to marshal request"
    branch is not reached. *)
Definition create_request (modelVersion : string) (input : gmap string Value) : Request :=
  if strings.Contains modelVersion ":" then
    {| Method := "POST";
       URL := replicateAPIURL +:+ "/predictions";
       Payload := Some (VMap (<["version" := VString modelVersion]>
                               (<["input" := VMap input]> ∅))) |}
  else
    {| Method := "POST";
       URL := replicateAPIURL +:+ "/models/" +:+ modelVersion +:+ "/predictions";
       Payload := Some (VMap (<["input" := VMap input]> ∅)) |}.

(** The error for a 402 reply. *)
Definition billing_error (resp : HTTPResponse) : error :=
  match BodyObject resp with
  | Ok errorResp =>
      match as_string (errorResp !! "detail") with
      | Some detail => errorString ("billing issue: " +:+ detail)
      | None => errorString ("billing issue (status 402): " +:+ Body resp)
      end
  | Err _ => errorString ("billing issue (status 402): " +:+ Body resp)
  end.

(** The error for any other reply that is not a success. *)
Definition api_error (resp : HTTPResponse) : error :=
  errorString ("API error (status " +:+ pretty (StatusCode resp) +:+ "): " +:+ Body resp).

Definition decode_prediction (resp : HTTPResponse) : result Prediction :=
  match BodyPrediction resp with
  | Err e => Err (wrapError ("failed to unmarshal response: " +:+ Error_string e) e)
  | Ok prediction => Ok prediction
  end.

(** [CreatePrediction] *)
Definition CreatePrediction (env : Env) (c : ReplicateClient) (ctx : time.Context)
    (modelVersion : string) (input : gmap string Value) (st : State)
  : result Prediction * State :=
  let '(outcome, st) := http_Do env (create_request modelVersion input) st in
  match outcome with
  | RequestRefused e =>
      (Err (wrapError ("failed to create request: " +:+ Error_string e) e), st)
  | SendFailed e =>
      (Err (wrapError ("failed to send request: " +:+ Error_string e) e), st)
  | ReadFailed e =>
      (Err (wrapError ("failed to read response: " +:+ Error_string e) e), st)
  | Responded resp =>
      if StatusCode resp =? 402 then (Err (billing_error resp), st)
      else if negb (StatusCode resp =? 201) && negb (StatusCode resp =? 200)
      then (Err (api_error resp), st)
      else (decode_prediction resp, st)
  end.

(** [GetPrediction] *)
Definition GetPrediction (env : Env) (c : ReplicateClient) (ctx : time.Context)
    (predictionID : string) (st : State) : result Prediction * State :=
  let req := {| Method := "GET";
                URL := replicateAPIURL +:+ "/predictions/" +:+ predictionID;
                Payload := None |} in
  let '(outcome, st) := http_Do env req st in
  match outcome with
  | RequestRefused e =>
      (Err (wrapError ("failed to create request: " +:+ Error_string e) e), st)
  | SendFailed e =>
      (Err (wrapError ("failed to send request: " +:+ Error_string e) e), st)
  | ReadFailed e =>
      (Err (wrapError ("failed to read response: " +:+ Error_string e) e), st)
  | Responded resp =>
      if negb (StatusCode resp =? 200) then (Err (api_error resp), st)
      else (decode_prediction resp, st)
  end.

(** [fmt.Sprintf("%v", msg)] *)
Definition Sprint_v (env : Env) (msg : Value) : string :=
  match msg with
  | VString s => s
  | VNil => "<nil>"
  | VBool true => "true"
  | VBool false => "false"
  | VInt z => pretty z
  | _ => Sprint_value env msg
  end.

(** The message [WaitForCompletion] extracts from a failed prediction. *)
Definition failure_message (env : Env) (prediction : Prediction) : string :=
  match types.Error prediction with
  | VNil => "prediction failed"
  | VString errStr => errStr
  | VMap errMap =>
      match errMap !! "message" with
      | Some msg => Sprint_v env msg
      | None => "prediction failed"
      end
  | _ => "prediction failed"
  end.

Definition timeout_error (env : Env) (timeout : Z) : error :=
  errorString ("operation timed out after " +:+ Duration_String env timeout).

(** The polling loop of [WaitForCompletion]; [fuel] bounds the number of
    rounds of the [select]. *)
Fixpoint poll (env : Env) (c : ReplicateClient) (ctx : time.Context)
    (predictionID : string) (timeout deadline : Z) (fuel : nat) (st : State)
  : option (option Prediction * option error * State) :=
  match fuel with
  | O => None
  | S fuel' =>
      let '(case, st) := select_case env st in
      match case with
      | CtxDone e => Some (None, Some e, st)
      | Tick =>
          let '(now, st) := time_Now env st in
          if now >? deadline then
            let '(r, st) := GetPrediction env c ctx predictionID st in
            Some (ok_value r, Some (timeout_error env timeout), st)
          else
            let '(r, st) := GetPrediction env c ctx predictionID st in
            match r with
            | Err e => Some (None, Some e, st)
            | Ok prediction =>
                if String.eqb (types.Status prediction) types.StatusSucceeded then
                  Some (Some prediction, None, st)
                else if String.eqb (types.Status prediction) types.StatusFailed then
                  Some (Some prediction,
                        Some (fmt.Errorf0 (failure_message env prediction)), st)
                else if String.eqb (types.Status prediction) types.StatusCanceled then
                  Some (Some prediction, Some (errorString "prediction was canceled"), st)
                else poll env c ctx predictionID timeout deadline fuel' st
            end
      end
  end.

(** The deadline [WaitForCompletion] computes before it polls. *)
Definition wait_deadline (env : Env) (ctx : time.Context) (timeout : Z) (st : State)
  : Z * State :=
  if timeout =? 0 then
    match time.Deadline ctx with
    | Some d => (d, st)
    | None => let '(now, st) := time_Now env st in (now + 10 * time.Minute, st)
    end
  else let '(now, st) := time_Now env st in (now + timeout, st).

(** [WaitForCompletion] *)
Definition WaitForCompletion (env : Env) (fuel : nat) (c : ReplicateClient)
    (ctx : time.Context) (predictionID : string) (timeout : Z) (st : State)
  : option (option Prediction * option error * State) :=
  let '(deadline, st) := wait_deadline env ctx timeout st in
  poll env c ctx predictionID timeout deadline fuel st.

(** [ReplicateClient] as a [Client]. *)
Definition as_Client (env : Env) (fuel : nat) (c : ReplicateClient) : Client :=
  {| Client_CreatePrediction := CreatePrediction env c;
     Client_GetPrediction := GetPrediction env c;
     Client_WaitForCompletion := WaitForCompletion env fuel c |}.

End client.

(** ** Package storage

    The videos root folder is the [disk] of the state: its children by
    name.  A storage ID names a direct child of the root (the IDs in use
    are eight hex digits, a directory name read back from the root, or
    the word "unknown"). *)

Module storage.

(** [Storage] *)
Record Storage : Type := {
  rootFolder : string;
  debug : bool
}.

(** [filepath.Join] of a clean directory and a clean name. *)
Definition Join (dir name : string) : string :=
  if String.eqb name "" then dir
  else if String.eqb dir "" then name
  else dir +:+ "/" +:+ name.

(** The byte at index [i] of [uuid.New()] drawn from the random number
    [r]: byte 6 carries the version, byte 8 the variant. *)
Definition uuid_byte (r : Z) (i : nat) : Z :=
  let b := Z.land (Z.shiftr r (8 * (15 - Z.of_nat i))) 255 in
  if (i =? 6)%nat then Z.lor (Z.land b 15) 64
  else if (i =? 8)%nat then Z.lor (Z.land b 63) 128
  else b.

Definition uuid_New (r : Z) : list Z := map (uuid_byte r) (seq 0 16).

Definition hexdigit (n : Z) : ascii :=
  nth (Z.to_nat n) (fmt.chars "0123456789abcdef") "0"%char.

Definition hexbyte (b : Z) (rest : string) : string :=
  String (hexdigit (b / 16)) (String (hexdigit (b mod 16)) rest).

Definition encodeHex (bs : list Z) (rest : string) : string :=
  fold_right hexbyte rest bs.

(** [UUID.String()]: the form 8-4-4-4-12. *)
Definition uuid_String (u : list Z) : string :=
  encodeHex (take 4 u)
    (String "-" (encodeHex (take 2 (drop 4 u))
      (String "-" (encodeHex (take 2 (drop 6 u))
        (String "-" (encodeHex (take 2 (drop 8 u))
          (String "-" (encodeHex (drop 10 u) ""))))))))%string.

(** [GenerateStorageID] *)
Definition GenerateStorageID (env : Env) (s : Storage) (st : State) : string * State :=
  let '(r, st) := rand_Read env st in
  let fullUUID := uuid_String (uuid_New r) in
  (substring 0 8 (strings.RemoveAll "-" fullUUID), st).

(** [os.MkdirAll] of a child of the root. *)
Definition MkdirAll (path storageID : string) (st : State) : option error * State :=
  match disk st !! storageID with
  | Some (Folder _) => (None, st)
  | Some (RegularFile _) =>
      (Some (libraryError "*fs.PathError" ("mkdir " +:+ path +:+ ": not a directory")), st)
  | None => (None, set_disk (<[storageID := Folder ∅]> (disk st)) st)
  end.

(** [os.WriteFile] and [os.Create] with [io.Copy], of a file in a child
    of the root. *)
Definition WriteFile (path storageID name : string) (data : FileData) (st : State)
  : option error * State :=
  match disk st !! storageID with
  | Some (Folder files) =>
      (None, set_disk (<[storageID := Folder (<[name := data]> files)]> (disk st)) st)
  | Some (RegularFile _) =>
      (Some (libraryError "*fs.PathError" ("open " +:+ path +:+ ": not a directory")), st)
  | None =>
      (Some (libraryError "*fs.PathError" ("open " +:+ path +:+ ": no such file or directory")), st)
  end.

(** How [os.ReadFile] of a file in a child of the root ends. *)
Inductive ReadOutcome : Type :=
| NotExist (e : error)
| ReadError (e : error)
| Content (data : FileData).

Definition os_ReadFile (path storageID name : string) (st : State) : ReadOutcome :=
  match disk st !! storageID with
  | None =>
      NotExist (libraryError "*fs.PathError" ("open " +:+ path +:+ ": no such file or directory"))
  | Some (RegularFile _) =>
      ReadError (libraryError "*fs.PathError" ("open " +:+ path +:+ ": not a directory"))
  | Some (Folder files) =>
      match files !! name with
      | None =>
          NotExist (libraryError "*fs.PathError" ("open " +:+ path +:+ ": no such file or directory"))
      | Some data => Content data
      end
  end.

(** [CreateStorageFolder] *)
Definition CreateStorageFolder (s : Storage) (storageID : string) (st : State)
  : result string * State :=
  let folderPath := Join (rootFolder s) storageID in
  let '(err, st) := MkdirAll folderPath storageID st in
  match err with
  | Some e =>
      (Err (wrapError ("failed to create storage folder: " +:+ Error_string e) e), st)
  | None => (Ok folderPath, st)
  end.

(** The extension [SaveVideoFromURL] picks for an output URL. *)
Definition video_ext (url : string) : string :=
  if strings.Contains url ".webm" then ".webm"
  else if strings.Contains url ".gif" then ".gif"
  else ".mp4".

(** The file name [SaveVideoFromURL] writes to. *)
Definition video_filename (url filename : string) : string :=
  let filename := if String.eqb filename "" then "video" else filename in
  if negb (strings.Contains filename ".") then filename +:+ video_ext url else filename.

(** [SaveVideoFromURL] *)
Definition SaveVideoFromURL (env : Env) (s : Storage) (url storageID filename : string)
    (st : State) : result (string * Z) * State :=
  let '(r, st) := CreateStorageFolder s storageID st in
  match r with
  | Err e => (Err e, st)
  | Ok folderPath =>
      let filename := video_filename url filename in
      let outputPath := Join folderPath filename in
      let '(outcome, st) := http_Get env url st in
      match outcome with
      | GetFailed e =>
          (Err (wrapError ("failed to download video: " +:+ Error_string e) e), st)
      | GetResponded status body copy_error =>
          if negb (status =? 200) then
            (Err (errorString ("failed to download video: status " +:+ pretty status)), st)
          else
            let '(err, st) := WriteFile outputPath storageID filename (Bytes body) st in
            match err with
            | Some e =>
                (Err (wrapError ("failed to create output file: " +:+ Error_string e) e), st)
            | None =>
                match copy_error with
                | Some e =>
                    (Err (wrapError ("failed to save video: " +:+ Error_string e) e), st)
                | None => (Ok (outputPath, Z.of_nat (String.length body)), st)
                end
            end
      end
  end.

(** [LoadMetadata] *)
Definition LoadMetadata (s : Storage) (storageID : string) (st : State)
  : result (gmap string Value) :=
  let folderPath := Join (rootFolder s) storageID in
  let metadataPath := Join folderPath "metadata.yaml" in
  match os_ReadFile metadataPath storageID "metadata.yaml" st with
  | NotExist _ => Ok ∅
  | ReadError e => Err (wrapError ("failed to read metadata: " +:+ Error_string e) e)
  | Content (Document metadata) => Ok metadata
  | Content (Bytes _) =>
      let e := libraryError "*yaml.TypeError" "yaml: unmarshal errors" in
      Err (wrapError ("failed to unmarshal metadata: " +:+ Error_string e) e)
  end.

(** [SaveMetadata] *)
Definition SaveMetadata (env : Env) (s : Storage) (storageID : string)
    (metadata : gmap string Value) (st : State) : option error * State :=
  let '(r, st) := CreateStorageFolder s storageID st in
  match r with
  | Err e => (Some e, st)
  | Ok folderPath =>
      let metadataPath := Join folderPath "metadata.yaml" in
      let '(now, st) := time_Now env st in
      let metadata := <["generated_at" := VString (Format_RFC3339 env now)]> metadata in
      let '(err, st) := WriteFile metadataPath storageID "metadata.yaml" (Document metadata) st in
      match err with
      | Some e => (Some (wrapError ("failed to save metadata: " +:+ Error_string e) e), st)
      | None => (None, st)
      end
  end.

(** [SaveInputImage] *)
Definition SaveInputImage (env : Env) (s : Storage) (storageID imagePath : string)
    (st : State) : result string * State :=
  let folderPath := Join (rootFolder s) storageID in
  match ReadFile env imagePath with
  | Err e => (Err (wrapError ("failed to read input image: " +:+ Error_string e) e), st)
  | Ok data =>
      let ext := filepath_Ext env imagePath in
      let ext := if String.eqb ext "" then ".jpg" else ext in
      let outputPath := Join folderPath ("input" +:+ ext) in
      let '(err, st) := WriteFile outputPath storageID ("input" +:+ ext) (Bytes data) st in
      match err with
      | Some e => (Err (wrapError ("failed to save input image: " +:+ Error_string e) e), st)
      | None => (Ok outputPath, st)
      end
  end.

(** [ImageToDataURL] *)
Definition ImageToDataURL (env : Env) (s : Storage) (imagePath : string) : result string :=
  match ReadFile env imagePath with
  | Err e => Err (wrapError ("failed to read image file: " +:+ Error_string e) e)
  | Ok data =>
      let ext := ToLower env (filepath_Ext env imagePath) in
      let mimeType :=
        if String.eqb ext ".jpg" || String.eqb ext ".jpeg" then "image/jpeg"
        else if String.eqb ext ".png" then "image/png"
        else if String.eqb ext ".webp" then "image/webp"
        else if String.eqb ext ".gif" then "image/gif"
        else
          let contentType := DetectContentType env data in
          if String.prefix "image/" contentType then contentType else "image/jpeg" in
      Ok ("data:" +:+ mimeType +:+ ";base64," +:+ base64_EncodeToString env data)
  end.

(** [GetStoragePath] *)
Definition GetStoragePath (s : Storage) (storageID : string) : string :=
  Join (rootFolder s) storageID.

(** Sorting by file name, as [os.ReadDir] does. *)
Fixpoint insert_by_name (x : string * Entry) (l : list (string * Entry))
  : list (string * Entry) :=
  match l with
  | [] => [x]
  | y :: l' => if String.leb (fst x) (fst y) then x :: l else y :: insert_by_name x l'
  end.

Definition sort_by_name (l : list (string * Entry)) : list (string * Entry) :=
  fold_right insert_by_name [] l.

(** [os.ReadDir] of the root folder: its children in name order. *)
Definition ReadDir (st : State) : list (string * Entry) :=
  sort_by_name (map_to_list (disk st)).

(** [entry.IsDir()] *)
Definition IsDir (e : Entry) : bool :=
  match e with Folder _ => true | RegularFile _ => false end.

End storage.

(** ** Package generation *)

Module generation.

(** [ModelConfig] *)
Record ModelConfig : Type := {
  cfg_ID : string;
  cfg_Name : string;
  cfg_Type : string;
  cfg_DefaultRes : string;
  cfg_MaxDuration : Z;
  cfg_Features : list string
}.

(** [ModelConfigs] *)
Definition ModelConfigs (alias : string) : option ModelConfig :=
  if String.eqb alias "wan-t2v-fast" then
    Some {| cfg_ID := "wan-video/wan-2.2-t2v-fast";
            cfg_Name := "Wan 2.2 Fast Text-to-Video";
            cfg_Type := "t2v"; cfg_DefaultRes := "480p"; cfg_MaxDuration := 0;
            cfg_Features := ["fast"; "affordable"; "go_fast"] |}
  else if String.eqb alias "wan-i2v-fast" then
    Some {| cfg_ID := "wan-video/wan-2.2-i2v-fast";
            cfg_Name := "Wan 2.2 Fast Image-to-Video";
            cfg_Type := "i2v"; cfg_DefaultRes := "480p"; cfg_MaxDuration := 0;
            cfg_Features := ["fast"; "affordable"; "go_fast"] |}
  else if String.eqb alias "veo3" then
    Some {| cfg_ID := "google/veo-3";
            cfg_Name := "Google Veo 3";
            cfg_Type := "both"; cfg_DefaultRes := "720p"; cfg_MaxDuration := 0;
            cfg_Features := ["premium"; "audio"; "style_preservation"; "negative_prompt"] |}
  else if String.eqb alias "kling-master" then
    Some {| cfg_ID := "kwaivgi/kling-v2.1-master";
            cfg_Name := "Kling 2.1 Master";
            cfg_Type := "both"; cfg_DefaultRes := "1080p"; cfg_MaxDuration := 10;
            cfg_Features := ["high_quality"; "duration_control"; "negative_prompt"] |}
  else None.

(** [GetModelConfig] *)
Definition GetModelConfig (alias : string) : option ModelConfig := ModelConfigs alias.

(** [IsTextToVideoModel] *)
Definition IsTextToVideoModel (alias : string) : bool :=
  match ModelConfigs alias with
  | Some config => String.eqb (cfg_Type config) "t2v" || String.eqb (cfg_Type config) "both"
  | None => false
  end.

(** [IsImageToVideoModel] *)
Definition IsImageToVideoModel (alias : string) : bool :=
  match ModelConfigs alias with
  | Some config => String.eqb (cfg_Type config) "i2v" || String.eqb (cfg_Type config) "both"
  | None => false
  end.

(** [VideoParams] *)
Record VideoParams : Type := {
  Prompt : string;
  Model : string;
  Resolution : string;
  AspectRatio : string;
  Filename : string;
  NegativePrompt : string;
  Duration : Z;
  ImagePath : string;
  NumFrames : Z;
  FramesPerSecond : Z;
  GoFast : bool;
  SampleShift : Q
}.

(** [VideoMetrics] *)
Record VideoMetrics : Type := {
  GenerationTime : Q;
  FileSize : Z;
  m_Duration : Q;
  m_Resolution : string;
  FrameCount : Z
}.

(** [VideoResult] *)
Record VideoResult : Type := {
  ID : string;
  FilePath : string;
  r_Model : string;
  ModelName : string;
  PredictionID : string;
  Parameters : gmap string Value;
  Metrics : VideoMetrics;
  Status : string
}.

(** [Generator] *)
Record Generator : Type := {
  client : client.Client;
  storage : storage.Storage;
  debug : bool
}.

(** A [VideoMetrics] with only the generation time and the file size set. *)
Definition metrics (generationTime : Q) (fileSize : Z) : VideoMetrics :=
  {| GenerationTime := generationTime; FileSize := fileSize;
     m_Duration := 0; m_Resolution := ""; FrameCount := 0 |}.

(** The [VideoResult] that [ContinueGeneration] returns for a prediction
    that has not succeeded. *)
Definition status_result (storageID predictionID status : string) (generationTime : Q)
  : VideoResult :=
  {| ID := storageID; FilePath := ""; r_Model := ""; ModelName := "";
     PredictionID := predictionID; Parameters := ∅;
     Metrics := metrics generationTime 0; Status := status |}.

(** [buildTextToVideoInput] *)
Definition buildTextToVideoInput (params : VideoParams) (config : ModelConfig)
  : gmap string Value :=
  let input : gmap string Value := <["prompt" := VString (Prompt params)]> ∅ in
  let input :=
    if negb (String.eqb (Resolution params) "")
    then <["resolution" := VString (Resolution params)]> input
    else <["resolution" := VString (cfg_DefaultRes config)]> input in
  let input :=
    if negb (String.eqb (AspectRatio params) "")
    then <["aspect_ratio" := VString (AspectRatio params)]> input
    else input in
  if String.eqb (Model params) "wan-t2v-fast" then
    <["optimize_prompt" := VBool false]>
      (<["sample_shift" := VInt 12]>
        (<["frames_per_second" := VInt 16]>
          (<["num_frames" := VInt 81]>
            (<["go_fast" := VBool true]> input))))
  else if String.eqb (Model params) "veo3" then
    if negb (String.eqb (NegativePrompt params) "")
    then <["negative_prompt" := VString (NegativePrompt params)]> input
    else input
  else if String.eqb (Model params) "kling-master" then
    let input :=
      if Duration params >? 0 then <["duration" := VInt (Duration params)]> input
      else <["duration" := VInt 5]> input in
    if negb (String.eqb (NegativePrompt params) "")
    then <["negative_prompt" := VString (NegativePrompt params)]> input
    else input
  else input.

(** [buildImageToVideoInput] *)
Definition buildImageToVideoInput (params : VideoParams) (config : ModelConfig)
    (dataURL : string) : gmap string Value :=
  let input : gmap string Value :=
    <["image" := VString dataURL]> (<["prompt" := VString (Prompt params)]> ∅) in
  let input :=
    if negb (String.eqb (Resolution params) "")
    then <["resolution" := VString (Resolution params)]> input
    else <["resolution" := VString (cfg_DefaultRes config)]> input in
  if String.eqb (Model params) "wan-i2v-fast" then
    <["disable_safety_checker" := VBool false]>
      (<["sample_shift" := VInt 12]>
        (<["frames_per_second" := VInt 16]>
          (<["num_frames" := VInt 81]>
            (<["go_fast" := VBool true]> input))))
  else if String.eqb (Model params) "veo3" then
    if negb (String.eqb (NegativePrompt params) "")
    then <["negative_prompt" := VString (NegativePrompt params)]> input
    else input
  else if String.eqb (Model params) "kling-master" then
    let input := <["start_image" := VString dataURL]> (delete "image" input) in
    let input :=
      if Duration params >? 0 then <["duration" := VInt (Duration params)]> input
      else <["duration" := VInt 5]> input in
    if negb (String.eqb (NegativePrompt params) "")
    then <["negative_prompt" := VString (NegativePrompt params)]> input
    else input
  else input.

(** The record [GenerateTextToVideo] saves at submission. *)
Definition submission_metadata (operation : string) (params : VideoParams)
    (config : ModelConfig) (input : gmap string Value) (prediction : client.Prediction)
  : gmap string Value :=
  <["status" := VString (types.Status prediction)]>
    (<["prediction_id" := VString (types.ID prediction)]>
      (<["parameters" := VMap input]>
        (<["prompt" := VString (Prompt params)]>
          (<["model_id" := VString (cfg_ID config)]>
            (<["model" := VString (Model params)]>
              (<["operation" := VString operation]> ∅)))))).

(** The [VideoResult] of a submission. *)
Definition submission_result (storageID : string) (params : VideoParams)
    (config : ModelConfig) (input : gmap string Value) (prediction : client.Prediction)
    (generationTime : Q) : VideoResult :=
  {| ID := storageID; FilePath := ""; r_Model := Model params;
     ModelName := cfg_Name config; PredictionID := types.ID prediction;
     Parameters := input; Metrics := metrics generationTime 0;
     Status := types.Status prediction |}.

(** [GenerateTextToVideo] *)
Definition GenerateTextToVideo (env : Env) (g : Generator) (ctx : time.Context)
    (params : VideoParams) (st : State) : result VideoResult * State :=
  let '(startTime, st) := time_Now env st in
  match GetModelConfig (Model params) with
  | None => (Err (errorString ("unknown model: " +:+ Model params)), st)
  | Some modelConfig =>
      if negb (IsTextToVideoModel (Model params)) then
        (Err (errorString ("model " +:+ Model params
                           +:+ " does not support text-to-video")), st)
      else
        let input := buildTextToVideoInput params modelConfig in
        let '(storageID, st) := storage.GenerateStorageID env (storage g) st in
        let '(r, st) :=
          client.Client_CreatePrediction (client g) ctx (cfg_ID modelConfig) input st in
        match r with
        | Err e =>
            (Err (wrapError ("failed to create prediction: " +:+ Error_string e) e), st)
        | Ok prediction =>
            let metadata :=
              submission_metadata "text_to_video" params modelConfig input prediction in
            let '(_, st) := storage.SaveMetadata env (storage g) storageID metadata st in
            let '(now, st) := time_Now env st in
            (Ok (submission_result storageID params modelConfig input prediction
                   (time.Seconds (now - startTime))), st)
        end
  end.

(** [GenerateImageToVideo] *)
Definition GenerateImageToVideo (env : Env) (g : Generator) (ctx : time.Context)
    (params : VideoParams) (st : State) : result VideoResult * State :=
  let '(startTime, st) := time_Now env st in
  match GetModelConfig (Model params) with
  | None => (Err (errorString ("unknown model: " +:+ Model params)), st)
  | Some modelConfig =>
      if negb (IsImageToVideoModel (Model params)) then
        (Err (errorString ("model " +:+ Model params
                           +:+ " does not support image-to-video")), st)
      else
        match storage.ImageToDataURL env (storage g) (ImagePath params) with
        | Err e => (Err (wrapError ("failed to convert image: " +:+ Error_string e) e), st)
        | Ok dataURL =>
            let input := buildImageToVideoInput params modelConfig dataURL in
            let '(storageID, st) := storage.GenerateStorageID env (storage g) st in
            let '(_, st) :=
              storage.SaveInputImage env (storage g) storageID (ImagePath params) st in
            let '(r, st) :=
              client.Client_CreatePrediction (client g) ctx (cfg_ID modelConfig) input st in
            match r with
            | Err e =>
                (Err (wrapError ("failed to create prediction: " +:+ Error_string e) e), st)
            | Ok prediction =>
                let metadata :=
                  <["input_image" := VString (ImagePath params)]>
                    (submission_metadata "image_to_video" params modelConfig input prediction) in
                let '(_, st) := storage.SaveMetadata env (storage g) storageID metadata st in
                let '(now, st) := time_Now env st in
                (Ok (submission_result storageID params modelConfig input prediction
                       (time.Seconds (now - startTime))), st)
            end
        end
  end.

(** The record [ContinueGeneration] saves on completion. *)
Definition completion_metadata (predictionID outputURL videoPath : string)
    (fileSize : Z) (completed_at : string) : gmap string Value :=
  <["completed_at" := VString completed_at]>
    (<["file_size" := VInt fileSize]>
      (<["output_path" := VString videoPath]>
        (<["output_url" := VString outputURL]>
          (<["status" := VString "completed"]>
            (<["prediction_id" := VString predictionID]> ∅))))).

(** What [ContinueGeneration] does once the wait has returned.  A client
    that returns neither a prediction nor an error makes the source
    dereference nil; here that call returns neither as well. *)
Definition after_wait (env : Env) (g : Generator) (predictionID storageID : string)
    (startTime : Z) (prediction : option client.Prediction) (err : option error)
    (st : State) : option VideoResult * option error * State :=
  match err with
  | Some e =>
      match prediction with
      | Some prediction =>
          let '(now, st) := time_Now env st in
          (Some (status_result storageID predictionID (types.Status prediction)
                   (time.Seconds (now - startTime))), Some e, st)
      | None => (None, Some e, st)
      end
  | None =>
      match prediction with
      | None => (None, None, st)
      | Some prediction =>
          if negb (String.eqb (types.Status prediction) types.StatusSucceeded) then
            let '(now, st) := time_Now env st in
            (Some (status_result storageID predictionID (types.Status prediction)
                     (time.Seconds (now - startTime))),
             Some (errorString ("generation failed with status: "
                                +:+ types.Status prediction)), st)
          else
            match types.Output prediction with
            | VString outputURL =>
                let '(r, st) :=
                  storage.SaveVideoFromURL env (storage g) outputURL storageID "" st in
                match r with
                | Err e =>
                    (None, Some (wrapError ("failed to save video: " +:+ Error_string e) e), st)
                | Ok (videoPath, fileSize) =>
                    let '(completed, st) := time_Now env st in
                    let metadata :=
                      completion_metadata predictionID outputURL videoPath fileSize
                        (Format_RFC3339 env completed) in
                    let '(_, st) :=
                      storage.SaveMetadata env (storage g) storageID metadata st in
                    let '(now, st) := time_Now env st in
                    (Some {| ID := storageID; FilePath := videoPath; r_Model := "";
                             ModelName := ""; PredictionID := predictionID;
                             Parameters := ∅;
                             Metrics := metrics (time.Seconds (now - startTime)) fileSize;
                             Status := "completed" |}, None, st)
                end
            | output =>
                (None, Some (errorString ("unexpected output format: "
                                          +:+ fmt.TypeName output)), st)
            end
      end
  end.

(** [ContinueGeneration] *)
Definition ContinueGeneration (env : Env) (g : Generator) (ctx : time.Context)
    (predictionID storageID : string) (waitTime : Z) (st : State)
  : option (option VideoResult * option error * State) :=
  let '(startTime, st) := time_Now env st in
  match client.Client_WaitForCompletion (client g) ctx predictionID waitTime st with
  | None => None
  | Some (prediction, err, st) =>
      Some (after_wait env g predictionID storageID startTime prediction err st)
  end.

End generation.

(** ** Package responses *)

Module responses.

(** [BuildProcessingResponse], before it is marshalled. *)
Definition BuildProcessingResponse (operation predictionID storageID : string) (waitTime : Z)
  : types.ProcessingResponse :=
  {| types.pr_Success := true;
     types.pr_Status := "processing";
     types.pr_Operation := operation;
     types.pr_PredictionID := predictionID;
     types.pr_StorageID := storageID;
     types.pr_Message := "Video generation in progress. Use continue_operation to check status.";
     types.pr_WaitTime := waitTime |}.

(** [BuildSuccessResponse], before it is marshalled. *)
Definition BuildSuccessResponse (operation storageID : string)
    (paths model : gmap string string) (parameters metrics : gmap string Value)
    (predictionID : string) : types.SuccessResponse :=
  {| types.sr_Success := true;
     types.sr_Operation := operation;
     types.sr_StorageID := storageID;
     types.sr_PredictionID := predictionID;
     types.sr_Status := "completed";
     types.sr_Paths := paths;
     types.sr_Model := model;
     types.sr_Parameters := parameters;
     types.sr_Metrics := metrics |}.

End responses.

(** ** Package handler: the continue_operation tool *)

Module handler.

(** [ReplicateVideoHandler] *)
Record ReplicateVideoHandler : Type := {
  generator : generation.Generator;
  storage : storage.Storage
}.

(** What a tool call answers.  The handler's [errorResponse] helper is not
    among the sources, so a call of it stands for itself. *)
Inductive ToolResponse : Type :=
| errorResponse (operation errorType message : string) (details : option (gmap string Value))
| ProcessingText (r : types.ProcessingResponse)
| SuccessText (r : types.SuccessResponse).

(** The operation ID of a continue_operation call: [prediction_id], or
    else [operation_id]. *)
Definition operation_id (args : gmap string Value) : option string :=
  match as_string (args !! "prediction_id") with
  | Some predID =>
      if negb (String.eqb predID "") then Some predID
      else match as_string (args !! "operation_id") with
           | Some opID => if negb (String.eqb opID "") then Some opID else None
           | None => None
           end
  | None =>
      match as_string (args !! "operation_id") with
      | Some opID => if negb (String.eqb opID "") then Some opID else None
      | None => None
      end
  end.

(** The wait budget of a continue_operation call. *)
Definition wait_time (env : Env) (args : gmap string Value) : Z :=
  match as_float64 (args !! "wait_time") with
  | Some wt =>
      let waitTime := time.mul (time.Duration_of_float64 env wt) time.Second in
      let waitTime := if waitTime <? 5 * time.Second then 5 * time.Second else waitTime in
      if waitTime >? 60 * time.Second then 60 * time.Second else waitTime
  | None => 30 * time.Second
  end.

(** [generateStorageID] *)
Definition generateStorageID (env : Env) (h : ReplicateVideoHandler) (st : State)
  : string * State :=
  storage.GenerateStorageID env (storage h) st.

(** The loop of [findStorageIDForPrediction] over the entries of the root. *)
Fixpoint scan (h : ReplicateVideoHandler) (predictionID : string)
    (entries : list (string * Entry)) (st : State) : option string :=
  match entries with
  | [] => None
  | (storageID, entry) :: rest =>
      if negb (storage.IsDir entry) then scan h predictionID rest st
      else
        match storage.LoadMetadata (storage h) storageID st with
        | Err _ => scan h predictionID rest st
        | Ok metadata =>
            match as_string (metadata !! "prediction_id") with
            | Some metaPredID =>
                if String.eqb metaPredID predictionID then Some storageID
                else scan h predictionID rest st
            | None => scan h predictionID rest st
            end
        end
  end.

(** [findStorageIDForPrediction]; the root folder itself can always be
    listed. *)
Definition findStorageIDForPrediction (h : ReplicateVideoHandler) (predictionID : string)
    (st : State) : result string :=
  match scan h predictionID (storage.ReadDir st) st with
  | Some storageID => Ok storageID
  | None => Err (errorString ("storage ID not found for prediction " +:+ predictionID))
  end.

(** The storage ID a continue_operation call works under. *)
Definition resolve_storage_id (env : Env) (h : ReplicateVideoHandler) (operationID : string)
    (st : State) : string * State :=
  match findStorageIDForPrediction h operationID st with
  | Ok storageID =>
      if String.eqb storageID "" then generateStorageID env h st else (storageID, st)
  | Err _ => generateStorageID env h st
  end.

(** The paths of a completed response. *)
Definition completed_paths (h : ReplicateVideoHandler) (storageID : string)
    (metadata : gmap string Value) (result : generation.VideoResult) : gmap string string :=
  let basePath := storage.GetStoragePath (storage h) storageID in
  match as_map (metadata !! "paths") with
  | Some metadataPaths =>
      let paths : gmap string string :=
        match as_string (metadataPaths !! "output") with
        | Some output => <["output" := storage.Join basePath output]> ∅
        | None => ∅
        end in
      match as_string (metadataPaths !! "thumbnail") with
      | Some thumbnail => <["thumbnail" := storage.Join basePath thumbnail]> paths
      | None => paths
      end
  | None => <["output" := generation.FilePath result]> ∅
  end.

(** [m[key] = v] when the type assertion [metadata[from].(string)] holds. *)
Definition copy_string (from key : string) (metadata : gmap string Value)
    (m : gmap string Value) : gmap string Value :=
  match as_string (metadata !! from) with
  | Some v => <[key := VString v]> m
  | None => m
  end.

(** The parameters of a completed response. *)
Definition completed_parameters (metadata : gmap string Value) : gmap string Value :=
  let parameters : gmap string Value :=
    match as_map (metadata !! "parameters") with
    | Some params => params
    | None => ∅
    end in
  let parameters :=
    match as_string (metadata !! "prompt") with
    | Some prompt =>
        if negb (String.eqb prompt "") then <["prompt" := VString prompt]> parameters
        else parameters
    | None => parameters
    end in
  let parameters := copy_string "resolution" "resolution" metadata parameters in
  let parameters := copy_string "aspect_ratio" "aspect_ratio" metadata parameters in
  let parameters :=
    match metadata !! "duration" with
    | Some (VInt duration) => <["duration" := VInt duration]> parameters
    | _ => parameters
    end in
  copy_string "negative_prompt" "negative_prompt" metadata parameters.

(** The model entry of a completed response. *)
Definition completed_model (metadata : gmap string Value) (result : generation.VideoResult)
  : gmap string string :=
  let modelInfo : gmap string string :=
    match as_string (metadata !! "model") with
    | Some modelID => <["id" := modelID]> ∅
    | None => ∅
    end in
  match as_string (metadata !! "model_name") with
  | Some modelName => <["name" := modelName]> modelInfo
  | None =>
      if negb (String.eqb (generation.ModelName result) "")
      then <["name" := generation.ModelName result]> modelInfo
      else modelInfo
  end.

(** The metrics of a completed response. *)
Definition completed_metrics (metadata : gmap string Value) (result : generation.VideoResult)
  : gmap string Value :=
  let metrics : gmap string Value :=
    <["file_size" := VInt (generation.FileSize (generation.Metrics result))]>
      (<["generation_time" :=
           VFloat (generation.GenerationTime (generation.Metrics result))]> ∅) in
  let metrics :=
    match as_string (metadata !! "actual_resolution") with
    | Some actualRes =>
        if negb (String.eqb actualRes "") then <["actual_resolution" := VString actualRes]> metrics
        else metrics
    | None => metrics
    end in
  let metrics :=
    match as_float64 (metadata !! "actual_duration") with
    | Some actualDur =>
        if Qlt_le_dec 0 actualDur then <["actual_duration" := VFloat actualDur]> metrics
        else metrics
    | None => metrics
    end in
  let metrics := copy_string "generation_type" "generation_type" metadata metrics in
  copy_string "format" "format" metadata metrics.

(** The answer for a result whose status is "completed". *)
Definition completed_response (h : ReplicateVideoHandler) (storageID : string)
    (result : generation.VideoResult) (st : State) : ToolResponse :=
  let metadata :=
    match storage.LoadMetadata (storage h) storageID st with
    | Ok metadata => metadata
    | Err _ => ∅
    end in
  SuccessText
    (responses.BuildSuccessResponse "continue_operation" (generation.ID result)
       (completed_paths h storageID metadata result)
       (completed_model metadata result)
       (completed_parameters metadata)
       (completed_metrics metadata result)
       (generation.PredictionID result)).

Definition prediction_details (operationID : string) : gmap string Value :=
  <["prediction_id" := VString operationID]> ∅.

(** The answer of [handleContinueOperation] to what [ContinueGeneration]
    returned. *)
Definition continue_response (h : ReplicateVideoHandler) (operationID storageID : string)
    (waitTime : Z) (result : option generation.VideoResult) (err : option error)
    (st : State) : option ToolResponse :=
  let processing (r : generation.VideoResult) :=
    ProcessingText (responses.BuildProcessingResponse "continue_operation" operationID
                      (generation.ID r) (time.whole_seconds waitTime)) in
  match err with
  | Some e =>
      match result with
      | Some r =>
          if String.eqb (generation.Status r) "processing" then Some (processing r)
          else Some (errorResponse "continue_operation" "operation_failed" (Error_string e)
                       (Some (prediction_details operationID)))
      | None =>
          Some (errorResponse "continue_operation" "operation_failed" (Error_string e)
                  (Some (prediction_details operationID)))
      end
  | None =>
      match result with
      | None => None
      | Some r =>
          if String.eqb (generation.Status r) "processing" then Some (processing r)
          else if String.eqb (generation.Status r) "completed" then
            Some (completed_response h storageID r st)
          else
            Some (errorResponse "continue_operation" "unexpected_status"
                    ("unexpected operation status: " +:+ generation.Status r)
                    (Some (<["status" := VString (generation.Status r)]>
                             (prediction_details operationID))))
      end
  end.

(** [handleContinueOperation].  No answer when the wait never returns (or
    when the generator returns neither a result nor an error, which makes
    the source dereference nil). *)
Definition handleContinueOperation (env : Env) (h : ReplicateVideoHandler)
    (ctx : time.Context) (args : gmap string Value) (st : State)
  : option (ToolResponse * State) :=
  match operation_id args with
  | None =>
      Some (errorResponse "continue_operation" "invalid_parameters"
              "prediction_id or operation_id is required" None, st)
  | Some operationID =>
      let waitTime := wait_time env args in
      let '(storageID, st) := resolve_storage_id env h operationID st in
      match generation.ContinueGeneration env (generator h) ctx operationID storageID
              waitTime st with
      | None => None
      | Some (result, err, st) =>
          match continue_response h operationID storageID waitTime result err st with
          | Some response => Some (response, st)
          | None => None
          end
      end
  end.

End handler.

(** ** Package generation: model aliases *)

Module models.

(** [ModelAliases] *)
Definition ModelAliases (alias : string) : option string :=
  if String.eqb alias "wan-t2v-fast" then Some "wan-video/wan-2.2-t2v-fast"
  else if String.eqb alias "wan-i2v-fast" then Some "wan-video/wan-2.2-i2v-fast"
  else if String.eqb alias "veo3" then Some "google/veo-3"
  else if String.eqb alias "kling-master" then Some "kwaivgi/kling-v2.1-master"
  else if String.eqb alias "wan-i2v-full" then Some "wan-video/wan-2.2-i2v-a14b"
  else if String.eqb alias "kling" then Some "kwaivgi/kling-v2.1"
  else None.

(** [GetModelID] *)
Definition GetModelID (alias : string) : string :=
  match ModelAliases alias with
  | Some id => id
  | None => alias
  end.

End models.

(** ** Package handler: the generate_video_from_text tool and the
    parameters of both generate tools *)

Module generate.

(** The zero value of [VideoParams], as [var params] declares it. *)
Definition zero : generation.VideoParams :=
  {| generation.Prompt := ""; generation.Model := "";
     generation.Resolution := ""; generation.AspectRatio := "";
     generation.Filename := ""; generation.NegativePrompt := "";
     generation.Duration := 0; generation.ImagePath := "";
     generation.NumFrames := 0; generation.FramesPerSecond := 0;
     generation.GoFast := false; generation.SampleShift := 0 |}.

(** The assignments [params.Field = v]. *)
Definition set_Prompt (v : string) (p : generation.VideoParams) : generation.VideoParams :=
  {| generation.Prompt := v; generation.Model := generation.Model p;
     generation.Resolution := generation.Resolution p;
     generation.AspectRatio := generation.AspectRatio p;
     generation.Filename := generation.Filename p;
     generation.NegativePrompt := generation.NegativePrompt p;
     generation.Duration := generation.Duration p;
     generation.ImagePath := generation.ImagePath p;
     generation.NumFrames := generation.NumFrames p;
     generation.FramesPerSecond := generation.FramesPerSecond p;
     generation.GoFast := generation.GoFast p;
     generation.SampleShift := generation.SampleShift p |}.

Definition set_Model (v : string) (p : generation.VideoParams) : generation.VideoParams :=
  {| generation.Prompt := generation.Prompt p; generation.Model := v;
     generation.Resolution := generation.Resolution p;
     generation.AspectRatio := generation.AspectRatio p;
     generation.Filename := generation.Filename p;
     generation.NegativePrompt := generation.NegativePrompt p;
     generation.Duration := generation.Duration p;
     generation.ImagePath := generation.ImagePath p;
     generation.NumFrames := generation.NumFrames p;
     generation.FramesPerSecond := generation.FramesPerSecond p;
     generation.GoFast := generation.GoFast p;
     generation.SampleShift := generation.SampleShift p |}.

Definition set_Resolution (v : string) (p : generation.VideoParams) : generation.VideoParams :=
  {| generation.Prompt := generation.Prompt p; generation.Model := generation.Model p;
     generation.Resolution := v;
     generation.AspectRatio := generation.AspectRatio p;
     generation.Filename := generation.Filename p;
     generation.NegativePrompt := generation.NegativePrompt p;
     generation.Duration := generation.Duration p;
     generation.ImagePath := generation.ImagePath p;
     generation.NumFrames := generation.NumFrames p;
     generation.FramesPerSecond := generation.FramesPerSecond p;
     generation.GoFast := generation.GoFast p;
     generation.SampleShift := generation.SampleShift p |}.

Definition set_AspectRatio (v : string) (p : generation.VideoParams) : generation.VideoParams :=
  {| generation.Prompt := generation.Prompt p; generation.Model := generation.Model p;
     generation.Resolution := generation.Resolution p;
     generation.AspectRatio := v;
     generation.Filename := generation.Filename p;
     generation.NegativePrompt := generation.NegativePrompt p;
     generation.Duration := generation.Duration p;
     generation.ImagePath := generation.ImagePath p;
     generation.NumFrames := generation.NumFrames p;
     generation.FramesPerSecond := generation.FramesPerSecond p;
     generation.GoFast := generation.GoFast p;
     generation.SampleShift := generation.SampleShift p |}.

Definition set_Filename (v : string) (p : generation.VideoParams) : generation.VideoParams :=
  {| generation.Prompt := generation.Prompt p; generation.Model := generation.Model p;
     generation.Resolution := generation.Resolution p;
     generation.AspectRatio := generation.AspectRatio p;
     generation.Filename := v;
     generation.NegativePrompt := generation.NegativePrompt p;
     generation.Duration := generation.Duration p;
     generation.ImagePath := generation.ImagePath p;
     generation.NumFrames := generation.NumFrames p;
     generation.FramesPerSecond := generation.FramesPerSecond p;
     generation.GoFast := generation.GoFast p;
     generation.SampleShift := generation.SampleShift p |}.

Definition set_NegativePrompt (v : string) (p : generation.VideoParams)
  : generation.VideoParams :=
  {| generation.Prompt := generation.Prompt p; generation.Model := generation.Model p;
     generation.Resolution := generation.Resolution p;
     generation.AspectRatio := generation.AspectRatio p;
     generation.Filename := generation.Filename p;
     generation.NegativePrompt := v;
     generation.Duration := generation.Duration p;
     generation.ImagePath := generation.ImagePath p;
     generation.NumFrames := generation.NumFrames p;
     generation.FramesPerSecond := generation.FramesPerSecond p;
     generation.GoFast := generation.GoFast p;
     generation.SampleShift := generation.SampleShift p |}.

Definition set_Duration (v : Z) (p : generation.VideoParams) : generation.VideoParams :=
  {| generation.Prompt := generation.Prompt p; generation.Model := generation.Model p;
     generation.Resolution := generation.Resolution p;
     generation.AspectRatio := generation.AspectRatio p;
     generation.Filename := generation.Filename p;
     generation.NegativePrompt := generation.NegativePrompt p;
     generation.Duration := v;
     generation.ImagePath := generation.ImagePath p;
     generation.NumFrames := generation.NumFrames p;
     generation.FramesPerSecond := generation.FramesPerSecond p;
     generation.GoFast := generation.GoFast p;
     generation.SampleShift := generation.SampleShift p |}.

Definition set_ImagePath (v : string) (p : generation.VideoParams) : generation.VideoParams :=
  {| generation.Prompt := generation.Prompt p; generation.Model := generation.Model p;
     generation.Resolution := generation.Resolution p;
     generation.AspectRatio := generation.AspectRatio p;
     generation.Filename := generation.Filename p;
     generation.NegativePrompt := generation.NegativePrompt p;
     generation.Duration := generation.Duration p;
     generation.ImagePath := v;
     generation.NumFrames := generation.NumFrames p;
     generation.FramesPerSecond := generation.FramesPerSecond p;
     generation.GoFast := generation.GoFast p;
     generation.SampleShift := generation.SampleShift p |}.

(** [params.Field = v], made when the argument is a non-empty string. *)
Definition set_nonempty (v : option string)
    (set : string -> generation.VideoParams -> generation.VideoParams)
    (p : generation.VideoParams) : generation.VideoParams :=
  match v with
  | Some s => if negb (String.eqb s "") then set s p else p
  | None => p
  end.

(** [params.Field = v], made when the argument is a string. *)
Definition set_string (v : option string)
    (set : string -> generation.VideoParams -> generation.VideoParams)
    (p : generation.VideoParams) : generation.VideoParams :=
  match v with
  | Some s => set s p
  | None => p
  end.

(** The model of a call: the one asked for, or else the default. *)
Definition model_or (v : option string) (default : string) : string :=
  match v with
  | Some model => if negb (String.eqb model "") then model else default
  | None => default
  end.

Definition prompt_required : error :=
  errorString "prompt parameter is required and must be a non-empty string".

Definition image_path_required : error :=
  errorString "image_path parameter is required and must be a non-empty string".

Definition duration_out_of_range : error :=
  errorString "duration must be between 5 and 10 seconds".

(** The end of both extractions: the duration, the negative prompt and
    the file name.  [int(durationFloat)] converts as [time.Duration(f)]
    does: both are 64-bit integers. *)
Definition extract_rest (env : Env) (args : gmap string Value)
    (params : generation.VideoParams) : generation.VideoParams * option error :=
  let finish params :=
    let params := set_string (as_string (args !! "negative_prompt")) set_NegativePrompt params in
    let params := set_string (as_string (args !! "filename")) set_Filename params in
    (params, None) in
  match as_float64 (args !! "duration") with
  | Some durationFloat =>
      let duration := time.Duration_of_float64 env durationFloat in
      if (duration <? 5) || (duration >? 10) then (params, Some duration_out_of_range)
      else finish (set_Duration duration params)
  | None => finish params
  end.

(** [extractTextToVideoParams] *)
Definition extractTextToVideoParams (env : Env) (args : gmap string Value)
  : generation.VideoParams * option error :=
  let params := zero in
  match as_string (args !! "prompt") with
  | None => (params, Some prompt_required)
  | Some prompt =>
      if String.eqb prompt "" then (params, Some prompt_required)
      else
        let params := set_Prompt prompt params in
        let params := set_Model (model_or (as_string (args !! "model")) "wan-t2v-fast") params in
        if negb (generation.IsTextToVideoModel (generation.Model params)) then
          (params, Some (errorString ("model " +:+ generation.Model params
                                      +:+ " does not support text-to-video generation")))
        else
          let params :=
            set_nonempty (as_string (args !! "resolution")) set_Resolution params in
          let params :=
            set_nonempty (as_string (args !! "aspect_ratio")) set_AspectRatio params in
          extract_rest env args params
  end.

(** [extractImageToVideoParams] *)
Definition extractImageToVideoParams (env : Env) (args : gmap string Value)
  : generation.VideoParams * option error :=
  let params := zero in
  match as_string (args !! "image_path") with
  | None => (params, Some image_path_required)
  | Some imagePath =>
      if String.eqb imagePath "" then (params, Some image_path_required)
      else
        let params := set_ImagePath imagePath params in
        match as_string (args !! "prompt") with
        | None => (params, Some prompt_required)
        | Some prompt =>
            if String.eqb prompt "" then (params, Some prompt_required)
            else
              let params := set_Prompt prompt params in
              let params :=
                set_Model (model_or (as_string (args !! "model")) "wan-i2v-fast") params in
              if negb (generation.IsImageToVideoModel (generation.Model params)) then
                (params, Some (errorString ("model " +:+ generation.Model params
                                            +:+ " does not support image-to-video generation")))
              else
                let params :=
                  set_nonempty (as_string (args !! "resolution")) set_Resolution params in
                extract_rest env args params
        end
  end.

(** What a generate tool answers.  The handler's [processingResponse]
    helper is not among the sources either, so a call of it stands for
    itself. *)
Inductive Answer : Type :=
| answered (response : handler.ToolResponse)
| processingResponse (operation predictionID storageID : string) (waitTime : Z).

(** [handleGenerateVideoFromText] *)
Definition handleGenerateVideoFromText (env : Env) (h : handler.ReplicateVideoHandler)
    (ctx : time.Context) (args : gmap string Value) (st : State) : Answer * State :=
  match extractTextToVideoParams env args with
  | (_, Some err) =>
      (answered (handler.errorResponse "generate_video_from_text" "invalid_parameters"
                   (Error_string err) None), st)
  | (params, None) =>
      let '(r, st) :=
        generation.GenerateTextToVideo env (handler.generator h) ctx params st in
      match r with
      | Err err =>
          (answered (handler.errorResponse "generate_video_from_text" "generation_failed"
                       (Error_string err) None), st)
      | Ok result =>
          (processingResponse "generate_video_from_text" (generation.PredictionID result)
             (generation.ID result) 30, st)
      end
  end.

End generate.

(** ** Auxiliary notions used in the statements *)

(** A format string without a directive. *)
Definition plain (text : string) : bool :=
  forallb (fun c => negb (Ascii.eqb c "%")) (fmt.chars text).

(** The provider reports the job as neither finished nor dead. *)
Definition still_running (prediction : client.Prediction) : bool :=
  negb (String.eqb (types.Status prediction) types.StatusSucceeded)
  && negb (String.eqb (types.Status prediction) types.StatusFailed)
  && negb (String.eqb (types.Status prediction) types.StatusCanceled).

(** One round of the polling loop that finds the deadline ahead and the
    job still running: the state after it. *)
Definition running_round (env : Env) (c : client.ReplicateClient) (ctx : time.Context)
    (predictionID : string) (deadline : Z) (st : State) : option State :=
  let '(case, st) := select_case env st in
  match case with
  | CtxDone _ => None
  | Tick =>
      let '(now, st) := time_Now env st in
      if now >? deadline then None
      else
        let '(r, st) := client.GetPrediction env c ctx predictionID st in
        match r with
        | Ok prediction => if still_running prediction then Some st else None
        | Err _ => None
        end
  end.

(** [k] such rounds in a row. *)
Fixpoint running_rounds (env : Env) (c : client.ReplicateClient) (ctx : time.Context)
    (predictionID : string) (deadline : Z) (k : nat) (st : State) : option State :=
  match k with
  | O => Some st
  | S k' =>
      match running_round env c ctx predictionID deadline st with
      | Some st' => running_rounds env c ctx predictionID deadline k' st'
      | None => None
      end
  end.

(** The folder [storageID] holds a record for the remote job
    [predictionID]. *)
Definition holds_prediction (st : State) (storageID predictionID : string) : Prop :=
  exists files metadata,
    disk st !! storageID = Some (Folder files) /\
    files !! "metadata.yaml" = Some (Document metadata) /\
    metadata !! "prediction_id" = Some (VString predictionID).

(** The four leading bytes of the random number a UUID is drawn from. *)
Definition leading_bytes (r : Z) : list Z :=
  map (fun i => Z.land (Z.shiftr r (8 * (15 - Z.of_nat i))) 255) (seq 0 4).

(** What a submission that succeeds has done. *)
Definition submitted_once (env : Env) (st : State) (r : generation.VideoResult)
    (st' : State) : Prop :=
  generation.ID r = storage.encodeHex (leading_bytes (random env (uuids_drawn st))) "" /\
  String.length (generation.ID r) = 8%nat /\
  (exists request, requests st' = requests st ++ [request] /\ Method request = "POST") /\
  selects st' = selects st /\
  downloads st' = downloads st /\
  uuids_drawn st' = S (uuids_drawn st).

(** Submission through either tool. *)
Definition Submit (image : bool) (env : Env) (g : generation.Generator)
    (ctx : time.Context) (params : generation.VideoParams) (st : State)
  : result generation.VideoResult * State :=
  if image then generation.GenerateImageToVideo env g ctx params st
  else generation.GenerateTextToVideo env g ctx params st.

(** The message of the error a wait ended with. *)
Definition wait_error (o : option (option client.Prediction * option error * State))
  : option string :=
  match o with
  | Some (_, Some e, _) => Some (Error_string e)
  | _ => None
  end.

(** ** Concrete scenarios *)

Module scenario.

Definition prediction (id status : string) (output err : Value) : client.Prediction :=
  {| types.ID := id; types.Version := ""; types.Status := status; types.Input := ∅;
     types.Output := output; types.Error := err; types.Logs := "";
     types.MetricsEnd := VNil; types.CreatedAt := ""; types.StartedAt := "";
     types.CompletedAt := ""; types.URLs := ∅ |}.

Definition reply (code : Z) (p : client.Prediction) : HTTPOutcome :=
  Responded {| StatusCode := code; Body := "{...}"; BodyObject := Ok ∅;
               BodyPrediction := Ok p |}.

Definition refusal (code : Z) (body : string) (object : gmap string Value) : HTTPOutcome :=
  Responded {| StatusCode := code; Body := body; BodyObject := Ok object;
               BodyPrediction := Err (libraryError "*json.UnmarshalTypeError" "json: cannot unmarshal") |}.

(** An environment around a script of API replies.  The clock advances by
    two seconds per reading, every [select] ticks, every download delivers
    five bytes.  The library routines are stand-ins that the scenarios do
    not depend on, except that whole seconds print as Go prints them. *)
Definition env_of (script : nat -> HTTPOutcome) (rnd : nat -> Z) : Env :=
  {| api := script;
     cdn := fun _ => GetResponded 200 "VIDEO" None;
     clock := fun n => 2 * time.Second * Z.of_nat n;
     random := rnd;
     select := fun _ => Tick;
     ReadFile := fun _ => Err (libraryError "*fs.PathError" "open: no such file or directory");
     Duration_String := fun d => pretty (d / time.Second) +:+ "s";
     Format_RFC3339 := fun t => pretty (t / time.Second);
     Sprint_value := fun _ => "?";
     int64_of_unrepresentable := fun _ => - 2 ^ 63;
     filepath_Ext := fun _ => "";
     ToLower := fun x => x;
     DetectContentType := fun _ => "application/octet-stream";
     base64_EncodeToString := fun x => x |}.

Definition st0 : State :=
  {| requests := []; downloads := []; clock_reads := 0; selects := 0;
     uuids_drawn := 0; disk := ∅ |}.

Definition c0 : client.ReplicateClient :=
  {| client.apiToken := "token"; client.debug := false |}.

Definition s0 : storage.Storage :=
  {| storage.rootFolder := "/videos"; storage.debug := false |}.

Definition ctx0 : time.Context := {| time.Deadline := None |}.

Definition g0 (env : Env) : generation.Generator :=
  {| generation.client := client.as_Client env 100 c0;
     generation.storage := s0;
     generation.debug := false |}.

Definition h0 (env : Env) : handler.ReplicateVideoHandler :=
  {| handler.generator := g0 env; handler.storage := s0 |}.

Definition cat : generation.VideoParams :=
  {| generation.Prompt := "a cat"; generation.Model := "wan-t2v-fast";
     generation.Resolution := ""; generation.AspectRatio := "";
     generation.Filename := ""; generation.NegativePrompt := "";
     generation.Duration := 0; generation.ImagePath := "";
     generation.NumFrames := 0; generation.FramesPerSecond := 0;
     generation.GoFast := false; generation.SampleShift := 0 |}.

(** A 402 reply with a detail, and a 500 reply. *)
Definition env_402 : Env :=
  env_of (fun _ => refusal 402 "{...}" (<["detail" := VString "Insufficient credit"]> ∅))
         (fun _ => 0).

Definition env_500 : Env :=
  env_of (fun _ => refusal 500 "Internal Server Error" ∅) (fun _ => 0).

(** The job is accepted, runs for three polls, then succeeds with a URL. *)
Definition lifecycle (n : nat) : HTTPOutcome :=
  match n with
  | 0%nat => reply 201 (prediction "p1" "starting" VNil VNil)
  | 1%nat | 2%nat | 3%nat => reply 200 (prediction "p1" "processing" VNil VNil)
  | _ => reply 200 (prediction "p1" "succeeded" (VString "https://cdn/out.mp4") VNil)
  end.

Definition env_lifecycle : Env := env_of lifecycle (fun n => Z.of_nat n).

(** Every poll reports a failure with the given error payload. *)
Definition env_failed (payload : Value) : Env :=
  env_of (fun _ => reply 200 (prediction "p1" "failed" VNil payload)) (fun _ => 0).

(** Two submissions whose UUIDs differ only after the fourth byte. *)
Definition env_collision : Env :=
  env_of (fun _ => reply 201 (prediction "p1" "starting" VNil VNil))
         (fun n => 2 ^ 100 + Z.of_nat n).

(** The job has succeeded, but its output is a list of URLs. *)
Definition env_array : Env :=
  env_of (fun _ => reply 200 (prediction "p1" "succeeded"
                                (VSlice [VString "https://cdn/out.mp4"]) VNil))
         (fun _ => 0).

Definition state_after {A : Type} (o : option (A * State)) : State :=
  match o with
  | Some (_, st) => st
  | None => st0
  end.

(** The lifecycle, step by step: a submission, a continue with a budget
    of four seconds, and two continues with a budget of sixty. *)
Definition submission : result generation.VideoResult * State :=
  generation.GenerateTextToVideo env_lifecycle (g0 env_lifecycle) ctx0 cat st0.

Definition submitted : State := snd submission.



Definition submitted_result : generation.VideoResult :=
  match fst submission with
  | Ok r => r
  | Err _ => generation.status_result "" "" "" 0
  end.

Definition continue (budget : Z) (st : State) :=
  generation.ContinueGeneration env_lifecycle (g0 env_lifecycle) ctx0 "p1" "00000000"
    budget st.

Definition waited : State := state_after (continue (4 * time.Second) submitted).

Definition completed : State := state_after (continue (60 * time.Second) waited).

Definition repeated : State := state_after (continue (60 * time.Second) completed).

(** The result of the continue that completed the job. *)
Definition completed_result : generation.VideoResult :=
  match continue (60 * time.Second) waited with
  | Some (Some r, _, _) => r
  | _ => generation.status_result "" "" "" 0
  end.

(** The result of the last continue. *)
Definition repeated_result : generation.VideoResult :=
  match continue (60 * time.Second) completed with
  | Some (Some r, _, _) => r
  | _ => generation.status_result "" "" "" 0
  end.

(** Inside the first continue: the state when the wait starts, its
    deadline, and the state when the tick past the deadline arrives. *)
Definition started : State := snd (time_Now env_lifecycle submitted).

Definition deadline : Z :=
  fst (client.wait_deadline env_lifecycle ctx0 (4 * time.Second) started).

Definition polling : State :=
  snd (client.wait_deadline env_lifecycle ctx0 (4 * time.Second) started).

Definition last_round : State :=
  match running_rounds env_lifecycle c0 ctx0 "p1" deadline 2 polling with
  | Some st => st
  | None => st0
  end.

Definition timed_out : State :=
  snd (client.GetPrediction env_lifecycle c0 ctx0 "p1"
         (snd (time_Now env_lifecycle (snd (select_case env_lifecycle last_round))))).

(** What a continue returned: its result's path and status, and the
    message of its error. *)
Definition outcome (o : option (option generation.VideoResult * option error * State))
  : option (option (string * string) * option string) :=
  match o with
  | Some (r, e, _) =>
      Some (option_map (fun r => (generation.FilePath r, generation.Status r)) r,
            option_map Error_string e)
  | None => None
  end.

(** A field of the record stored under the job's storage ID. *)
Definition field (key : string) (st : State) : result (option Value) :=
  match storage.LoadMetadata s0 "00000000" st with
  | Ok metadata => Ok (metadata !! key)
  | Err e => Err e
  end.

(** The keys of the record stored under a storage ID. *)
Definition record_keys (storageID : string) (st : State) : list string :=
  match storage.LoadMetadata s0 storageID st with
  | Ok metadata => map fst (map_to_list metadata)
  | Err _ => []
  end.

End scenario.

(** ** Further notions used in the statements *)

(** The file [name] of the folder [storageID], if there is one. *)
Definition file_at (st : State) (storageID name : string) : option FileData :=
  match disk st !! storageID with
  | Some (Folder files) => files !! name
  | _ => None
  end.

(** The request [GetPrediction] sends. *)
Definition poll_request (predictionID : string) : Request :=
  {| Method := "GET";
     URL := client.replicateAPIURL +:+ "/predictions/" +:+ predictionID;
     Payload := None |}.

(** A lower-case hex digit. *)
Definition is_hex (c : ascii) : bool :=
  existsb (Ascii.eqb c) (fmt.chars "0123456789abcdef").

(** A generator around the Replicate client. *)
Definition generator_of (env : Env) (fuel : nat) (c : client.ReplicateClient)
    (s : storage.Storage) (dbg : bool) : generation.Generator :=
  {| generation.client := client.as_Client env fuel c;
     generation.storage := s; generation.debug := dbg |}.

(** How the polling loop can end. *)
Definition wait_outcome (env : Env) (timeout : Z) (p : option client.Prediction)
    (err : option error) : Prop :=
  match p, err with
  | Some prediction, None => types.Status prediction = types.StatusSucceeded
  | None, None => False
  | Some prediction, Some e =>
      e = client.timeout_error env timeout \/
      (types.Status prediction = types.StatusFailed /\
       e = fmt.Errorf0 (client.failure_message env prediction)) \/
      (types.Status prediction = types.StatusCanceled /\
       e = errorString "prediction was canceled")
  | None, Some _ => True
  end.

(** ** Further scenarios *)

Module cases.

(** The download host answers 404. *)
Definition env_404 : Env :=
  {| api := api scenario.env_lifecycle;
     cdn := fun _ => GetResponded 404 "Not Found" None;
     clock := clock scenario.env_lifecycle;
     random := random scenario.env_lifecycle;
     select := select scenario.env_lifecycle;
     ReadFile := ReadFile scenario.env_lifecycle;
     Duration_String := Duration_String scenario.env_lifecycle;
     Format_RFC3339 := Format_RFC3339 scenario.env_lifecycle;
     Sprint_value := Sprint_value scenario.env_lifecycle;
     int64_of_unrepresentable := int64_of_unrepresentable scenario.env_lifecycle;
     filepath_Ext := filepath_Ext scenario.env_lifecycle;
     ToLower := ToLower scenario.env_lifecycle;
     DetectContentType := DetectContentType scenario.env_lifecycle;
     base64_EncodeToString := base64_EncodeToString scenario.env_lifecycle |}.

(** The lifecycle's download, made on an empty disk. *)
Definition downloaded : result (string * Z) * State :=
  storage.SaveVideoFromURL scenario.env_lifecycle scenario.s0 "https://cdn/out.mp4"
    "00000000" "" scenario.st0.

(** The same download against the host that answers 404. *)
Definition refused : result (string * Z) * State :=
  storage.SaveVideoFromURL env_404 scenario.s0 "https://cdn/out.mp4" "00000000" ""
    scenario.st0.

(** Every image can be read, and its extension is [.png]. *)
Definition env_image : Env :=
  {| api := api scenario.env_lifecycle;
     cdn := cdn scenario.env_lifecycle;
     clock := clock scenario.env_lifecycle;
     random := random scenario.env_lifecycle;
     select := select scenario.env_lifecycle;
     ReadFile := fun _ => Ok "PNG";
     Duration_String := Duration_String scenario.env_lifecycle;
     Format_RFC3339 := Format_RFC3339 scenario.env_lifecycle;
     Sprint_value := Sprint_value scenario.env_lifecycle;
     int64_of_unrepresentable := int64_of_unrepresentable scenario.env_lifecycle;
     filepath_Ext := fun _ => ".png";
     ToLower := ToLower scenario.env_lifecycle;
     DetectContentType := DetectContentType scenario.env_lifecycle;
     base64_EncodeToString := base64_EncodeToString scenario.env_lifecycle |}.

Definition moving_cat : generation.VideoParams :=
  generate.set_ImagePath "/tmp/cat.png"
    (generate.set_Model "wan-i2v-fast" (generate.set_Prompt "the cat walks" generate.zero)).

(** An image-to-video submission on an empty disk. *)
Definition image_submission : result generation.VideoResult * State :=
  generation.GenerateImageToVideo env_image (generator_of env_image 100 scenario.c0 scenario.s0 false)
    scenario.ctx0 moving_cat scenario.st0.

Definition image_result : generation.VideoResult :=
  match fst image_submission with
  | Ok r => r
  | Err _ => generation.status_result "" "" "" 0
  end.

(** The caller gives up before the first tick. *)
Definition env_cancelled : Env :=
  {| api := api scenario.env_lifecycle;
     cdn := cdn scenario.env_lifecycle;
     clock := clock scenario.env_lifecycle;
     random := random scenario.env_lifecycle;
     select := fun _ => CtxDone (errorString "context canceled");
     ReadFile := ReadFile scenario.env_lifecycle;
     Duration_String := Duration_String scenario.env_lifecycle;
     Format_RFC3339 := Format_RFC3339 scenario.env_lifecycle;
     Sprint_value := Sprint_value scenario.env_lifecycle;
     int64_of_unrepresentable := int64_of_unrepresentable scenario.env_lifecycle;
     filepath_Ext := filepath_Ext scenario.env_lifecycle;
     ToLower := ToLower scenario.env_lifecycle;
     DetectContentType := DetectContentType scenario.env_lifecycle;
     base64_EncodeToString := base64_EncodeToString scenario.env_lifecycle |}.

(** The result of the lifecycle's first continue, which ran out of
    budget. *)
Definition waited_result : generation.VideoResult :=
  match scenario.continue (4 * time.Second) scenario.submitted with
  | Some (Some r, _, _) => r
  | _ => generation.status_result "" "" "" 0
  end.

(** The generate_video_from_text tool, called with a prompt alone. *)
Definition text_call : generate.Answer * State :=
  generate.handleGenerateVideoFromText scenario.env_lifecycle
    (scenario.h0 scenario.env_lifecycle) scenario.ctx0
    (<["prompt" := VString "a cat"]> ∅) scenario.st0.

(** The continue_operation tool, called for the lifecycle's job right
    after the submission with a budget of five seconds. *)
Definition processing_call : option (handler.ToolResponse * State) :=
  handler.handleContinueOperation scenario.env_lifecycle
    (scenario.h0 scenario.env_lifecycle) scenario.ctx0
    (<["prediction_id" := VString "p1"]> (<["wait_time" := VFloat (5 # 1)]> ∅))
    scenario.submitted.

Definition processing_response : types.ProcessingResponse :=
  match processing_call with
  | Some (handler.ProcessingText r, _) => r
  | _ => responses.BuildProcessingResponse "" "" "" 0
  end.

(** The tool called again, after the first continue, with a budget of
    sixty seconds. *)
Definition completed_call : option (handler.ToolResponse * State) :=
  handler.handleContinueOperation scenario.env_lifecycle
    (scenario.h0 scenario.env_lifecycle) scenario.ctx0
    (<["prediction_id" := VString "p1"]> (<["wait_time" := VFloat (60 # 1)]> ∅))
    scenario.waited.

Definition completed_response : types.SuccessResponse :=
  match completed_call with
  | Some (handler.SuccessText r, _) => r
  | _ => responses.BuildSuccessResponse "" "" ∅ ∅ ∅ ∅ ""
  end.

End cases.

(** ** Proof automation *)

(** Split on what a [match] or an [if] in a hypothesis looks at. *)
Ltac break_in H :=
  match type of H with
  | context [match ?x with _ => _ end] =>
      lazymatch x with
      | context [match _ with _ => _ end] => fail
      | _ => destruct x eqn:?
      end
  end.

Ltac break_goal :=
  match goal with
  | |- context [match ?x with _ => _ end] =>
      lazymatch x with
      | context [match _ with _ => _ end] => fail
      | _ => destruct x eqn:?
      end
  end.

(** * Properties *)

(** ** Formatting *)

Example Sprintf0_text : fmt.Sprintf0 "out of memory" = "out of memory".
Proof. reflexivity. Qed.

Example Sprintf0_trailing_percent : fmt.Sprintf0 "GPU at 100%" = "GPU at 100%!(NOVERB)".
Proof. reflexivity. Qed.

Example Sprintf0_verbs :
  fmt.Sprintf0 "50%% done, %d left" = "50% done, %!d(MISSING) left".
Proof. reflexivity. Qed.

Lemma length_chars (s : string) : length (fmt.chars s) = String.length s.
Proof. induction s as [|c s IH]; simpl; [reflexivity | now rewrite IH]. Qed.

Lemma doPrintf_plain (l : list ascii) :
  forall fuel, (length l <= fuel)%nat ->
  forallb (fun c => negb (Ascii.eqb c "%")) l = true ->
  fmt.doPrintf fuel l = l.
Proof.
  induction l as [|c l IH]; intros [|fuel] Hlen Hp; simpl in *; try lia; auto.
  apply andb_true_iff in Hp as [Hc Hl].
  destruct (Ascii.eqb c "%"); [discriminate |].
  f_equal. apply IH; [lia | assumption].
Qed.

(** A failure text without a percent sign is its own rendering. *)
Lemma Sprintf0_plain (text : string) : plain text = true -> fmt.Sprintf0 text = text.
Proof.
  intros Hp. unfold fmt.Sprintf0.
  rewrite doPrintf_plain; [apply string_of_list_ascii_of_string | | exact Hp].
  now rewrite length_chars.
Qed.

(** ** The remote job client: submission errors *)

Lemma CreatePrediction_402 env c ctx modelVersion input st resp :
  api env (length (requests st)) = Responded resp ->
  StatusCode resp = 402 ->
  fst (client.CreatePrediction env c ctx modelVersion input st)
  = Err (client.billing_error resp).
Proof.
  intros Hapi Hcode. unfold client.CreatePrediction, http_Do. simpl.
  rewrite Hapi, Hcode. reflexivity.
Qed.

Lemma CreatePrediction_rejected env c ctx modelVersion input st resp :
  api env (length (requests st)) = Responded resp ->
  StatusCode resp <> 402 -> StatusCode resp <> 201 -> StatusCode resp <> 200 ->
  fst (client.CreatePrediction env c ctx modelVersion input st)
  = Err (client.api_error resp).
Proof.
  intros Hapi H402 H201 H200. unfold client.CreatePrediction, http_Do. simpl.
  rewrite Hapi.
  destruct (Z.eqb_spec (StatusCode resp) 402); [contradiction |].
  destruct (Z.eqb_spec (StatusCode resp) 201); [contradiction |].
  destruct (Z.eqb_spec (StatusCode resp) 200); [contradiction |].
  reflexivity.
Qed.

(** C4, as the claim states it, fails: the error for a 402 reply and the
    error for a 500 reply have the same dynamic type and wrap nothing, so
    only their messages tell them apart. *)
Lemma billing_error_has_no_type_of_its_own :
  exists e402 e500,
    fst (client.CreatePrediction scenario.env_402 scenario.c0 scenario.ctx0
           "google/veo-3" ∅ scenario.st0) = Err e402 /\
    fst (client.CreatePrediction scenario.env_500 scenario.c0 scenario.ctx0
           "google/veo-3" ∅ scenario.st0) = Err e500 /\
    error_type e402 = error_type e500 /\
    Unwrap e402 = None /\ Unwrap e500 = None.
Proof.
  exists (errorString "billing issue: Insufficient credit").
  exists (errorString "API error (status 500): Internal Server Error").
  repeat split; vm_compute; reflexivity.
Qed.

(** C4, amended: every 402 reply makes [CreatePrediction] fail with a
    billing error.  When the body is a JSON object with a string
    [detail], the message is "billing issue: " followed by that detail,
    unchanged; for every other 402 reply (a body that is no JSON object,
    an object without [detail], a [detail] that is no string) it is
    "billing issue (status 402): " followed by the raw body.  Either way
    the error is a plain [*errors.errorString] that wraps nothing, of the
    same type as the error for any other rejected submission; the two
    differ by their message alone. *)
Theorem billing_error_message env c ctx modelVersion input st resp :
  api env (length (requests st)) = Responded resp ->
  StatusCode resp = 402 ->
  exists e,
    fst (client.CreatePrediction env c ctx modelVersion input st) = Err e /\
    (forall object detail,
       BodyObject resp = Ok object ->
       object !! "detail" = Some (VString detail) ->
       e = errorString ("billing issue: " +:+ detail)) /\
    ((forall object detail,
        BodyObject resp = Ok object ->
        object !! "detail" <> Some (VString detail)) ->
     e = errorString ("billing issue (status 402): " +:+ Body resp)) /\
    error_type e = "*errors.errorString" /\
    Unwrap e = None /\
    forall resp', error_type (client.api_error resp') = error_type e /\
                  Error_string (client.api_error resp') <> Error_string e.
Proof.
  intros Hapi Hcode. exists (client.billing_error resp).
  split; [exact (CreatePrediction_402 _ _ _ _ _ _ _ Hapi Hcode) |].
  unfold client.billing_error.
  destruct (BodyObject resp) as [object | err] eqn:Hobj.
  - destruct (object !! "detail") as [v |] eqn:Hdetail;
      [destruct v as [| b | z | q | detail | l | m] |]; cbn [as_string];
      (split; [intros object' detail' Hobj' Hdetail'; inversion Hobj'; subst object';
               congruence |]);
      (split; [intros Hother;
               try (exfalso; apply (Hother object detail eq_refl Hdetail));
               try reflexivity |]);
      (split; [reflexivity |]); (split; [reflexivity |]);
      intros resp'; (split; [reflexivity |]);
      unfold client.api_error; simpl; discriminate.
  - split; [intros object detail Hobj'; discriminate |].
    split; [reflexivity |]. split; [reflexivity |]. split; [reflexivity |].
    intros resp'. split; [reflexivity |].
    unfold client.api_error. simpl. discriminate.
Qed.

Lemma billing_error_message_witness :
  fst (client.CreatePrediction scenario.env_402 scenario.c0 scenario.ctx0
         "google/veo-3" ∅ scenario.st0)
  = Err (errorString "billing issue: Insufficient credit").
Proof.
  destruct (billing_error_message scenario.env_402 scenario.c0 scenario.ctx0
              "google/veo-3" ∅ scenario.st0
              {| StatusCode := 402; Body := "{...}";
                 BodyObject := Ok (<["detail" := VString "Insufficient credit"]> ∅);
                 BodyPrediction :=
                   Err (libraryError "*json.UnmarshalTypeError" "json: cannot unmarshal") |}
              eq_refl eq_refl) as (e & He & Hdetail & _).
  rewrite He. f_equal.
  apply (Hdetail (<["detail" := VString "Insufficient credit"]> ∅) "Insufficient credit");
    reflexivity.
Defined.

(** ** The artifact store: reading a record *)

(** C7: for a storage ID without a folder, or with a folder that holds no
    metadata file, [LoadMetadata] returns the empty record and no error.
    It reads the state and never changes it. *)
Theorem LoadMetadata_missing s storageID st :
  (disk st !! storageID = None \/
   exists files, disk st !! storageID = Some (Folder files) /\
                 files !! "metadata.yaml" = None) ->
  storage.LoadMetadata s storageID st = Ok ∅.
Proof.
  intros [Hnone | (files & Hdir & Hfile)];
    unfold storage.LoadMetadata, storage.os_ReadFile.
  - rewrite Hnone. reflexivity.
  - rewrite Hdir, Hfile. reflexivity.
Qed.

Lemma LoadMetadata_missing_witness :
  storage.LoadMetadata scenario.s0 "deadbeef" scenario.st0 = Ok ∅.
Proof.
  apply (LoadMetadata_missing scenario.s0 "deadbeef" scenario.st0).
  left. reflexivity.
Defined.

(** ** The continue_operation tool: the wait budget *)

Lemma wrap64_small (z : Z) : - 2 ^ 63 <= z < 2 ^ 63 -> time.wrap64 z = z.
Proof. intros H. unfold time.wrap64. rewrite Z.mod_small; lia. Qed.

Lemma wrap64_range (z : Z) : - 2 ^ 63 <= time.wrap64 z < 2 ^ 63.
Proof.
  unfold time.wrap64.
  pose proof (Z.mod_pos_bound (z + 2 ^ 63) (2 ^ 64) ltac:(lia)). lia.
Qed.

(** Whatever was asked for, the budget lies between 5 and 60 seconds. *)
Lemma wait_time_range env args :
  5 * time.Second <= handler.wait_time env args <= 60 * time.Second.
Proof.
  unfold handler.wait_time.
  destruct (as_float64 (args !! "wait_time")) as [wt |];
    [| vm_compute; split; discriminate].
  set (w := time.mul _ _).
  rewrite !Z.gtb_ltb.
  destruct (Z.ltb_spec w (5 * time.Second)).
  - vm_compute; split; discriminate.
  - destruct (Z.ltb_spec (60 * time.Second) w); unfold time.Second in *; lia.
Qed.

(** No [wait_time], or one that is not a number, gives 30 seconds. *)
Lemma wait_time_default env args :
  as_float64 (args !! "wait_time") = None ->
  handler.wait_time env args = 30 * time.Second.
Proof. intros H. unfold handler.wait_time. now rewrite H. Qed.

Lemma Duration_of_float64_small env (wt : Q) :
  - 2 ^ 63 <= Z.quot (Qnum wt) (Z.pos (Qden wt)) < 2 ^ 63 ->
  time.Duration_of_float64 env wt = Z.quot (Qnum wt) (Z.pos (Qden wt)).
Proof.
  intros [Hlo Hhi]. unfold time.Duration_of_float64.
  destruct (Z.leb_spec (- 2 ^ 63) (Qnum wt ÷ Z.pos (Qden wt))); [| lia].
  destruct (Z.ltb_spec (Qnum wt ÷ Z.pos (Qden wt)) (2 ^ 63)); [| lia].
  reflexivity.
Qed.

(** A request below 5 seconds is raised to 5, as long as the request in
    nanoseconds fits an int64. *)
Lemma wait_time_low env args (wt : Q) :
  args !! "wait_time" = Some (VFloat wt) ->
  (wt < 5)%Q ->
  - 9223372036 <= Z.quot (Qnum wt) (Z.pos (Qden wt)) ->
  handler.wait_time env args = 5 * time.Second.
Proof.
  intros Harg Hlt Hlo. unfold handler.wait_time. rewrite Harg. cbn [as_float64]. cbv beta iota.
  set (t := Qnum wt ÷ Z.pos (Qden wt)) in *.
  assert (Ht : t < 5).
  { unfold Qlt in Hlt. simpl in Hlt. subst t.
    destruct (Z.le_gt_cases 0 (Qnum wt)) as [Hn | Hn].
    - rewrite Z.quot_div_nonneg by lia. apply Z.div_lt_upper_bound; lia.
    - pose proof (Z.quot_opp_l (Qnum wt) (Z.pos (Qden wt)) ltac:(lia)) as Ho.
      pose proof (Z.quot_pos (- Qnum wt) (Z.pos (Qden wt)) ltac:(lia) ltac:(lia)).
      lia. }
  rewrite Duration_of_float64_small by lia.
  fold t. unfold time.mul. rewrite wrap64_small by (unfold time.Second; lia).
  destruct (Z.ltb_spec (t * time.Second) (5 * time.Second));
    [| unfold time.Second in *; lia].
  vm_compute. reflexivity.
Qed.

(** A request above 60 seconds is lowered to 60, as long as the request in
    nanoseconds fits an int64. *)
Lemma wait_time_high env args (wt : Q) :
  args !! "wait_time" = Some (VFloat wt) ->
  (60 < wt)%Q ->
  Z.quot (Qnum wt) (Z.pos (Qden wt)) <= 9223372036 ->
  handler.wait_time env args = 60 * time.Second.
Proof.
  intros Harg Hlt Hhi. unfold handler.wait_time. rewrite Harg. cbn [as_float64]. cbv beta iota.
  set (t := Qnum wt ÷ Z.pos (Qden wt)) in *.
  assert (Ht : 60 <= t).
  { unfold Qlt in Hlt. simpl in Hlt. subst t.
    rewrite Z.quot_div_nonneg by lia. apply Z.div_le_lower_bound; lia. }
  rewrite Duration_of_float64_small by lia.
  fold t. unfold time.mul. rewrite wrap64_small by (unfold time.Second; lia).
  destruct (Z.ltb_spec (t * time.Second) (5 * time.Second));
    [unfold time.Second in *; lia |].
  rewrite Z.gtb_ltb.
  destruct (Z.ltb_spec (60 * time.Second) (t * time.Second)); [reflexivity |].
  unfold time.Second in *; lia.
Qed.

(** C10 at a request that does not fit: ten billion seconds is above 60,
    yet the budget is 5 seconds, not 60.  The product of the request and
    [time.Second] overflows the int64 and wraps to a negative duration,
    which the lower clamp then raises to 5 seconds. *)
Theorem wait_time_overflow :
  forall env,
    handler.wait_time env (<["wait_time" := VFloat (10000000000 # 1)]> ∅)
    = 5 * time.Second.
Proof. intros env. vm_compute. reflexivity. Qed.

(** ** The remote job client: the failure message *)

Lemma failure_message_string env prediction text :
  types.Error prediction = VString text ->
  client.failure_message env prediction = text.
Proof. intros H. unfold client.failure_message. now rewrite H. Qed.

Lemma failure_message_object env prediction errMap text :
  types.Error prediction = VMap errMap ->
  errMap !! "message" = Some (VString text) ->
  client.failure_message env prediction = text.
Proof. intros H Hm. unfold client.failure_message. now rewrite H, Hm. Qed.

(** Both shapes of the error payload give the same message, and when the
    text carries no percent sign the error says exactly that text. *)
Lemma failure_error_plain env prediction text :
  (types.Error prediction = VString text \/
   exists errMap, types.Error prediction = VMap errMap /\
                  errMap !! "message" = Some (VString text)) ->
  plain text = true ->
  Error_string (fmt.Errorf0 (client.failure_message env prediction)) = text.
Proof.
  intros [H | (errMap & H & Hm)] Hp; simpl.
  - rewrite (failure_message_string _ _ _ H). now apply Sprintf0_plain.
  - rewrite (failure_message_object _ _ _ _ H Hm). now apply Sprintf0_plain.
Qed.

(** C5 at a failure text with a percent sign: both shapes of the payload
    give the same error, but its message is not the provider's text.
    [WaitForCompletion] passes the text to [fmt.Errorf] as the format, so
    the trailing percent sign is read as a directive without a verb. *)
Theorem failure_text_with_percent :
  let wait payload :=
    client.WaitForCompletion (scenario.env_failed payload) 1 scenario.c0
      scenario.ctx0 "p1" (30 * time.Second) scenario.st0 in
  wait_error (wait (VString "GPU at 100%")) = Some "GPU at 100%!(NOVERB)" /\
  wait_error (wait (VMap (<["message" := VString "GPU at 100%"]> ∅)))
  = Some "GPU at 100%!(NOVERB)".
Proof. split; vm_compute; reflexivity. Qed.

(** ** The remote job client: the bounded wait *)

Lemma GetPrediction_frame env c ctx predictionID st :
  let st' := snd (client.GetPrediction env c ctx predictionID st) in
  disk st' = disk st /\ downloads st' = downloads st /\
  uuids_drawn st' = uuids_drawn st /\
  requests st' = requests st ++
    [{| Method := "GET";
        URL := client.replicateAPIURL +:+ "/predictions/" +:+ predictionID;
        Payload := None |}].
Proof.
  unfold client.GetPrediction, http_Do. simpl.
  destruct (api env (length (requests st))) as [e | e | e | resp]; simpl; auto.
  destruct (negb (StatusCode resp =? 200)); simpl; auto.
Qed.

(** Polling reads the clock and talks to the provider; it neither
    downloads nor touches the disk. *)
Lemma poll_frame env c ctx predictionID timeout deadline fuel :
  forall st prediction err st',
    client.poll env c ctx predictionID timeout deadline fuel st
    = Some (prediction, err, st') ->
    disk st' = disk st /\ downloads st' = downloads st /\
    uuids_drawn st' = uuids_drawn st.
Proof.
  induction fuel as [| fuel IH]; intros st prediction err st' H; [discriminate |].
  simpl in H. unfold select_case in H.
  destruct (select env (selects st)) as [e |].
  { inversion H; subst; simpl; auto. }
  unfold time_Now in H; simpl in H.
  match type of H with
  | context [client.GetPrediction env c ctx predictionID ?s] =>
      pose proof (GetPrediction_frame env c ctx predictionID s) as (Hd & Hdl & Hu & _);
      destruct (client.GetPrediction env c ctx predictionID s) as [r stg]
  end.
  simpl in Hd, Hdl, Hu.
  destruct (clock env (clock_reads st) >? deadline).
  { inversion H; subst; auto. }
  destruct r as [p | e]; [| inversion H; subst; auto].
  destruct (String.eqb (types.Status p) types.StatusSucceeded);
    [inversion H; subst; auto |].
  destruct (String.eqb (types.Status p) types.StatusFailed);
    [inversion H; subst; auto |].
  destruct (String.eqb (types.Status p) types.StatusCanceled);
    [inversion H; subst; auto |].
  apply IH in H as (H1 & H2 & H3). rewrite H1, H2, H3. auto.
Qed.

Lemma wait_deadline_frame env ctx timeout st :
  let st' := snd (client.wait_deadline env ctx timeout st) in
  disk st' = disk st /\ downloads st' = downloads st /\
  uuids_drawn st' = uuids_drawn st /\ requests st' = requests st.
Proof.
  unfold client.wait_deadline.
  destruct (timeout =? 0); [destruct (time.Deadline ctx) |]; simpl; auto.
Qed.

Lemma WaitForCompletion_frame env fuel c ctx predictionID timeout st prediction err st' :
  client.WaitForCompletion env fuel c ctx predictionID timeout st
  = Some (prediction, err, st') ->
  disk st' = disk st /\ downloads st' = downloads st /\
  uuids_drawn st' = uuids_drawn st.
Proof.
  unfold client.WaitForCompletion. intros H.
  pose proof (wait_deadline_frame env ctx timeout st) as (Hd & Hdl & Hu & _).
  destruct (client.wait_deadline env ctx timeout st) as [deadline st0].
  simpl in Hd, Hdl, Hu.
  apply poll_frame in H as (H1 & H2 & H3). rewrite H1, H2, H3. auto.
Qed.

(** A wait that returns a prediction and no error has seen it succeed. *)
Lemma poll_succeeded env c ctx predictionID timeout deadline fuel :
  forall st prediction st',
    client.poll env c ctx predictionID timeout deadline fuel st
    = Some (Some prediction, None, st') ->
    types.Status prediction = types.StatusSucceeded.
Proof.
  induction fuel as [| fuel IH]; intros st prediction st' H; [discriminate |].
  simpl in H. unfold select_case in H.
  destruct (select env (selects st)) as [e |]; [discriminate |].
  unfold time_Now in H; simpl in H.
  match type of H with
  | context [client.GetPrediction env c ctx predictionID ?s] =>
      destruct (client.GetPrediction env c ctx predictionID s) as [r stg]
  end.
  destruct (clock env (clock_reads st) >? deadline); [discriminate |].
  destruct r as [p | e]; [| discriminate].
  destruct (String.eqb_spec (types.Status p) types.StatusSucceeded) as [Hs |].
  { inversion H; subst. exact Hs. }
  destruct (String.eqb (types.Status p) types.StatusFailed); [discriminate |].
  destruct (String.eqb (types.Status p) types.StatusCanceled); [discriminate |].
  eapply IH; eauto.
Qed.

Lemma WaitForCompletion_succeeded env fuel c ctx predictionID timeout st prediction st' :
  client.WaitForCompletion env fuel c ctx predictionID timeout st
  = Some (Some prediction, None, st') ->
  types.Status prediction = types.StatusSucceeded.
Proof.
  unfold client.WaitForCompletion.
  destruct (client.wait_deadline env ctx timeout st) as [deadline st0].
  apply poll_succeeded.
Qed.

(** A round that leaves the job running is a round the loop goes
    through. *)
Lemma poll_running_round env c ctx predictionID timeout deadline fuel st st1 :
  running_round env c ctx predictionID deadline st = Some st1 ->
  client.poll env c ctx predictionID timeout deadline (S fuel) st
  = client.poll env c ctx predictionID timeout deadline fuel st1.
Proof.
  unfold running_round. simpl. unfold select_case.
  destruct (select env (selects st)) as [e |]; [discriminate |].
  unfold time_Now; simpl.
  match goal with
  | |- context [client.GetPrediction env c ctx predictionID ?s] =>
      destruct (client.GetPrediction env c ctx predictionID s) as [r stg]
  end.
  destruct (clock env (clock_reads st) >? deadline); [discriminate |].
  destruct r as [p | e]; [| discriminate].
  unfold still_running.
  destruct (String.eqb (types.Status p) types.StatusSucceeded); [discriminate |].
  destruct (String.eqb (types.Status p) types.StatusFailed); [discriminate |].
  destruct (String.eqb (types.Status p) types.StatusCanceled); [discriminate |].
  simpl. intros H; inversion H; subst. reflexivity.
Qed.

(** The loop ends at the first tick past the deadline, with whatever the
    provider says then and the timeout error. *)
Lemma poll_timeout env c ctx predictionID timeout deadline k :
  forall fuel st st1,
    running_rounds env c ctx predictionID deadline k st = Some st1 ->
    select env (selects st1) = Tick ->
    clock env (clock_reads st1) > deadline ->
    (k < fuel)%nat ->
    let polled :=
      client.GetPrediction env c ctx predictionID
        (snd (time_Now env (snd (select_case env st1)))) in
    client.poll env c ctx predictionID timeout deadline fuel st
    = Some (ok_value (fst polled), Some (client.timeout_error env timeout), snd polled).
Proof.
  induction k as [| k IH]; intros fuel st st1 Hrun Hsel Hclock Hfuel.
  - simpl in Hrun. inversion Hrun; subst st1.
    destruct fuel as [| fuel]; [lia |].
    simpl. unfold select_case. rewrite Hsel. unfold time_Now; simpl.
    destruct (Z.gtb_spec (clock env (clock_reads st)) deadline); [| lia].
    match goal with
    | |- context [client.GetPrediction env c ctx predictionID ?s] =>
        destruct (client.GetPrediction env c ctx predictionID s) as [r stg]
    end.
    reflexivity.
  - simpl in Hrun.
    destruct (running_round env c ctx predictionID deadline st) as [st' |] eqn:Hround;
      [| discriminate].
    destruct fuel as [| fuel]; [lia |].
    rewrite (poll_running_round _ _ _ _ _ _ _ _ _ Hround).
    apply (IH fuel st' st1); auto. lia.
Qed.

(** ** The orchestrator: continuing a job *)



Lemma video_filename_default url :
  storage.video_filename url "" = "video" +:+ storage.video_ext url.
Proof. reflexivity. Qed.

(** A download that succeeds is one more [http.Get], of the given URL,
    into the file the URL's extension decides. *)
Lemma SaveVideoFromURL_ok env s url storageID st path size st' :
  storage.SaveVideoFromURL env s url storageID "" st = (Ok (path, size), st') ->
  downloads st' = downloads st ++ [url] /\
  requests st' = requests st /\
  path = storage.Join (storage.Join (storage.rootFolder s) storageID)
           ("video" +:+ storage.video_ext url).
Proof.
  unfold storage.SaveVideoFromURL, storage.CreateStorageFolder, storage.MkdirAll,
    storage.WriteFile, http_Get, set_disk.
  rewrite video_filename_default.
  intros H. repeat (break_in H; simpl in *; try discriminate);
    inversion H; subst; simpl; auto.
Qed.

(** Saving a record reads the clock and writes the disk. *)
Lemma SaveMetadata_frame env s storageID metadata st :
  let st' := snd (storage.SaveMetadata env s storageID metadata st) in
  downloads st' = downloads st /\ requests st' = requests st /\
  uuids_drawn st' = uuids_drawn st /\ selects st' = selects st.
Proof.
  unfold storage.SaveMetadata, storage.CreateStorageFolder, storage.MkdirAll,
    storage.WriteFile, time_Now, set_disk.
  repeat (break_goal; simpl in *; try discriminate); auto.
Qed.

(** C8: when the provider reports success but the output is not a string,
    [ContinueGeneration] returns no result and the error "unexpected
    output format" with the type it met.  It returns in the state the
    wait ended in: nothing was downloaded and the disk is as it was.  A
    job the provider reports as failed is told apart by its result, which
    is present and carries the provider's status and error. *)
Theorem malformed_output env fuel c s dbg ctx predictionID storageID waitTime
    st prediction st1 :
  let g := {| generation.client := client.as_Client env fuel c;
              generation.storage := s; generation.debug := dbg |} in
  client.WaitForCompletion env fuel c ctx predictionID waitTime (snd (time_Now env st))
  = Some (Some prediction, None, st1) ->
  (forall url, types.Output prediction <> VString url) ->
  generation.ContinueGeneration env g ctx predictionID storageID waitTime st
  = Some (None,
          Some (errorString ("unexpected output format: "
                             +:+ fmt.TypeName (types.Output prediction))),
          st1) /\
  downloads st1 = downloads st /\ disk st1 = disk st /\
  forall st_f p_f e_f st_f1,
    client.WaitForCompletion env fuel c ctx predictionID waitTime (snd (time_Now env st_f))
    = Some (Some p_f, Some e_f, st_f1) ->
    exists r st',
      generation.ContinueGeneration env g ctx predictionID storageID waitTime st_f
      = Some (Some r, Some e_f, st') /\
      generation.Status r = types.Status p_f.
Proof.
  intros g Hwait Hshape.
  pose proof (WaitForCompletion_succeeded _ _ _ _ _ _ _ _ _ Hwait) as Hstatus.
  pose proof (WaitForCompletion_frame _ _ _ _ _ _ _ _ _ _ Hwait) as (Hd & Hdl & _).
  split; [| split; [exact Hdl | split; [exact Hd |]]].
  - unfold generation.ContinueGeneration. unfold time_Now at 1.
    cbn [client.Client_WaitForCompletion client.as_Client generation.client g].
    change (client.WaitForCompletion env fuel c ctx predictionID waitTime _)
      with (client.WaitForCompletion env fuel c ctx predictionID waitTime
              (snd (time_Now env st))).
    rewrite Hwait. cbn [generation.after_wait]. rewrite Hstatus. simpl negb.
    cbv iota.
    destruct (types.Output prediction) eqn:Hout; try reflexivity.
    exfalso. eapply Hshape. reflexivity.
  - intros st_f p_f e_f st_f1 Hfail.
    unfold generation.ContinueGeneration. unfold time_Now at 1.
    cbn [client.Client_WaitForCompletion client.as_Client generation.client g].
    change (client.WaitForCompletion env fuel c ctx predictionID waitTime _)
      with (client.WaitForCompletion env fuel c ctx predictionID waitTime
              (snd (time_Now env st_f))).
    rewrite Hfail. cbn [generation.after_wait]. unfold time_Now.
    eexists _, _. split; reflexivity.
Qed.

Lemma malformed_output_witness :
  scenario.outcome
    (generation.ContinueGeneration scenario.env_array (scenario.g0 scenario.env_array)
       scenario.ctx0 "p1" "00000000" (30 * time.Second) scenario.st0)
  = Some (None, Some "unexpected output format: []interface {}").
Proof.
  pose proof (malformed_output scenario.env_array 100 scenario.c0 scenario.s0 false
                scenario.ctx0 "p1" "00000000" (30 * time.Second) scenario.st0
                (scenario.prediction "p1" "succeeded"
                   (VSlice [VString "https://cdn/out.mp4"]) VNil)
                (scenario.state_after
                   (client.WaitForCompletion scenario.env_array 100 scenario.c0
                      scenario.ctx0 "p1" (30 * time.Second)
                      (snd (time_Now scenario.env_array scenario.st0))))
                ltac:(vm_compute; reflexivity)
                ltac:(intros url; simpl; discriminate)) as [H _].
  unfold scenario.g0. rewrite H. reflexivity.
Defined.

(** C1, as the claim states it, fails.  In the lifecycle scenario the
    second continue completes the job and records the status "completed";
    the third continue, made after that, polls the provider again and
    downloads the output a second time. *)
Lemma continue_after_success_downloads_again :
  scenario.outcome (scenario.continue (60 * time.Second) scenario.waited)
  = Some (Some ("/videos/00000000/video.mp4", "completed"), None) /\
  scenario.field "status" scenario.completed = Ok (Some (VString "completed")) /\
  downloads scenario.completed = ["https://cdn/out.mp4"] /\
  scenario.outcome (scenario.continue (60 * time.Second) scenario.completed)
  = Some (Some ("/videos/00000000/video.mp4", "completed"), None) /\
  downloads scenario.repeated = ["https://cdn/out.mp4"; "https://cdn/out.mp4"] /\
  length (requests scenario.repeated) = S (length (requests scenario.completed)).
Proof. repeat split; vm_compute; reflexivity. Qed.

(** Every continue that returns a completed result has called the
    client's wait, got from it a succeeded prediction whose output is a
    URL string, and downloaded that URL once more, whatever the record
    already held.  The path it returns is fixed by the storage ID and the
    URL's extension. *)
Lemma continue_completed env g ctx predictionID storageID waitTime st r st' :
  generation.ContinueGeneration env g ctx predictionID storageID waitTime st
  = Some (Some r, None, st') ->
  exists prediction url st1,
    client.Client_WaitForCompletion (generation.client g) ctx predictionID waitTime
      (snd (time_Now env st)) = Some (Some prediction, None, st1) /\
    types.Status prediction = types.StatusSucceeded /\
    types.Output prediction = VString url /\
    downloads st' = downloads st1 ++ [url] /\
    generation.Status r = "completed" /\
    generation.FilePath r
    = storage.Join (storage.Join (storage.rootFolder (generation.storage g)) storageID)
        ("video" +:+ storage.video_ext url).
Proof.
  unfold generation.ContinueGeneration. unfold time_Now at 1.
  change {| requests := requests st; downloads := downloads st;
            clock_reads := S (clock_reads st); selects := selects st;
            uuids_drawn := uuids_drawn st; disk := disk st |}
    with (snd (time_Now env st)).
  destruct (client.Client_WaitForCompletion (generation.client g) ctx predictionID
              waitTime (snd (time_Now env st))) as [[[prediction err] st1] |];
    [| discriminate].
  unfold generation.after_wait.
  destruct err as [e |].
  { destruct prediction; unfold time_Now; intros H; inversion H. }
  destruct prediction as [prediction |]; [| intros H; inversion H].
  destruct (String.eqb_spec (types.Status prediction) types.StatusSucceeded)
    as [Hstatus | Hstatus]; simpl negb; cbv iota.
  2: { unfold time_Now. intros H; inversion H. }
  destruct (types.Output prediction) as [| | | | url | |] eqn:Hout;
    try (intros H; inversion H; fail).
  destruct (storage.SaveVideoFromURL env (generation.storage g) url storageID "" st1)
    as [[[videoPath fileSize] | e] st2] eqn:Hsave;
    [| intros H; inversion H].
  apply SaveVideoFromURL_ok in Hsave as (Hdl & _ & Hpath).
  unfold time_Now at 1.
  match goal with
  | |- context [storage.SaveMetadata env ?s ?i ?m ?x] =>
      pose proof (SaveMetadata_frame env s i m x) as (Hdl2 & _);
      destruct (storage.SaveMetadata env s i m x) as [err2 st3]
  end.
  simpl in Hdl2. unfold time_Now. intros H. inversion H; subst r st'; clear H.
  exists prediction, url, st1. simpl.
  repeat split; auto. now rewrite Hdl2.
Qed.

(** A wait that ends in success has asked the provider at least once. *)
Lemma poll_succeeded_requests env c ctx predictionID timeout deadline fuel :
  forall st prediction st',
    client.poll env c ctx predictionID timeout deadline fuel st
    = Some (Some prediction, None, st') ->
    (length (requests st) < length (requests st'))%nat.
Proof.
  induction fuel as [| fuel IH]; intros st prediction st' H; [discriminate |].
  simpl in H. unfold select_case in H.
  destruct (select env (selects st)) as [e |]; [discriminate |].
  unfold time_Now in H; simpl in H.
  match type of H with
  | context [client.GetPrediction env c ctx predictionID ?s] =>
      pose proof (GetPrediction_frame env c ctx predictionID s) as (_ & _ & _ & Hreq);
      destruct (client.GetPrediction env c ctx predictionID s) as [r stg]
  end.
  simpl in Hreq.
  assert (Hlen : length (requests stg) = S (length (requests st))).
  { rewrite Hreq, length_app. simpl. lia. }
  destruct (clock env (clock_reads st) >? deadline); [discriminate |].
  destruct r as [p | e]; [| discriminate].
  destruct (String.eqb (types.Status p) types.StatusSucceeded).
  { inversion H; subst. lia. }
  destruct (String.eqb (types.Status p) types.StatusFailed); [discriminate |].
  destruct (String.eqb (types.Status p) types.StatusCanceled); [discriminate |].
  apply IH in H. lia.
Qed.

Lemma WaitForCompletion_succeeded_requests env fuel c ctx predictionID timeout st
    prediction st' :
  client.WaitForCompletion env fuel c ctx predictionID timeout st
  = Some (Some prediction, None, st') ->
  (length (requests st) < length (requests st'))%nat.
Proof.
  unfold client.WaitForCompletion. intros H.
  pose proof (wait_deadline_frame env ctx timeout st) as (_ & _ & _ & Hreq).
  destruct (client.wait_deadline env ctx timeout st) as [deadline st0].
  simpl in Hreq. apply poll_succeeded_requests in H. now rewrite <- Hreq.
Qed.

(** What one completed continue of the Replicate client adds to the
    state: one download and at least one request. *)
Lemma continue_completed_effects env fuel c s dbg ctx predictionID storageID waitTime
    st r st' :
  generation.ContinueGeneration env
    {| generation.client := client.as_Client env fuel c;
       generation.storage := s; generation.debug := dbg |}
    ctx predictionID storageID waitTime st = Some (Some r, None, st') ->
  exists url,
    downloads st' = downloads st ++ [url] /\
    (length (requests st) < length (requests st'))%nat /\
    generation.FilePath r
    = storage.Join (storage.Join (storage.rootFolder s) storageID)
        ("video" +:+ storage.video_ext url).
Proof.
  intros H.
  pose proof H as Hc.
  apply continue_completed in Hc as (prediction & url & st1 & Hwait & _ & Hout & Hdl & _ & Hpath).
  cbn [client.Client_WaitForCompletion client.as_Client generation.client] in Hwait.
  pose proof (WaitForCompletion_frame _ _ _ _ _ _ _ _ _ _ Hwait) as (_ & Hdl1 & _).
  pose proof (WaitForCompletion_succeeded_requests _ _ _ _ _ _ _ _ _ Hwait) as Hreq.
  simpl in Hdl1, Hreq.
  exists url. rewrite Hdl, Hdl1. split; [reflexivity |]. split; [| exact Hpath].
  (* the requests of the final state are those the wait left *)
  revert H. unfold generation.ContinueGeneration. unfold time_Now at 1.
  cbn [client.Client_WaitForCompletion client.as_Client generation.client].
  change {| requests := requests st; downloads := downloads st;
            clock_reads := S (clock_reads st); selects := selects st;
            uuids_drawn := uuids_drawn st; disk := disk st |}
    with (snd (time_Now env st)).
  rewrite Hwait. unfold generation.after_wait.
  destruct (String.eqb (types.Status prediction) types.StatusSucceeded); simpl negb;
    cbv iota; [| unfold time_Now; intros H; inversion H].
  rewrite Hout. cbv beta iota. cbn [generation.storage].
  destruct (storage.SaveVideoFromURL env s url storageID "" st1)
    as [[[videoPath fileSize] | e] st2] eqn:Hsave;
    [| intros H; inversion H].
  apply SaveVideoFromURL_ok in Hsave as (_ & Hreq2 & _).
  unfold time_Now at 1.
  match goal with
  | |- context [storage.SaveMetadata env ?s ?i ?m ?x] =>
      pose proof (SaveMetadata_frame env s i m x) as (_ & Hreq3 & _);
      destruct (storage.SaveMetadata env s i m x) as [err2 st3]
  end.
  simpl in Hreq3. unfold time_Now. intros H. inversion H; subst; clear H.
  simpl. rewrite Hreq3, Hreq2. exact Hreq.
Qed.

(** C1, amended: two continues in a row that both return a completed
    result have both asked the provider and have both downloaded the
    output: the second one downloads again, whatever the record already
    says.  Each returns the path fixed by the storage ID and the
    extension of the URL it met, so when the provider names the same
    output URL both times the two paths are the same. *)
Theorem continue_twice env fuel c s dbg ctx predictionID storageID w1 w2
    st r1 st1 r2 st2 :
  let g := {| generation.client := client.as_Client env fuel c;
              generation.storage := s; generation.debug := dbg |} in
  generation.ContinueGeneration env g ctx predictionID storageID w1 st
  = Some (Some r1, None, st1) ->
  generation.ContinueGeneration env g ctx predictionID storageID w2 st1
  = Some (Some r2, None, st2) ->
  exists url1 url2,
    downloads st2 = downloads st ++ [url1; url2] /\
    (length (requests st) < length (requests st1) < length (requests st2))%nat /\
    generation.FilePath r1
    = storage.Join (storage.Join (storage.rootFolder s) storageID)
        ("video" +:+ storage.video_ext url1) /\
    generation.FilePath r2
    = storage.Join (storage.Join (storage.rootFolder s) storageID)
        ("video" +:+ storage.video_ext url2) /\
    (url1 = url2 -> generation.FilePath r1 = generation.FilePath r2).
Proof.
  intros g H1 H2.
  apply continue_completed_effects in H1 as (url1 & Hd1 & Hr1 & Hp1).
  apply continue_completed_effects in H2 as (url2 & Hd2 & Hr2 & Hp2).
  exists url1, url2. repeat split; auto.
  - rewrite Hd2, Hd1, <- app_assoc. reflexivity.
  - intros ->. now rewrite Hp1, Hp2.
Qed.

Lemma continue_twice_witness :
  exists url1 url2,
    downloads scenario.repeated = downloads scenario.waited ++ [url1; url2] /\
    (length (requests scenario.waited) < length (requests scenario.completed)
     < length (requests scenario.repeated))%nat /\
    generation.FilePath scenario.completed_result
    = storage.Join (storage.Join "/videos" "00000000")
        ("video" +:+ storage.video_ext url1) /\
    generation.FilePath scenario.repeated_result
    = storage.Join (storage.Join "/videos" "00000000")
        ("video" +:+ storage.video_ext url2) /\
    (url1 = url2 ->
     generation.FilePath scenario.completed_result
     = generation.FilePath scenario.repeated_result).
Proof.
  apply (continue_twice scenario.env_lifecycle 100 scenario.c0 scenario.s0 false
           scenario.ctx0 "p1" "00000000" (60 * time.Second) (60 * time.Second)
           scenario.waited scenario.completed_result scenario.completed
           scenario.repeated_result scenario.repeated).
  - vm_compute. reflexivity.
  - vm_compute. reflexivity.
Defined.

(** ** The artifact store: writing a record *)

(** [SaveMetadata] replaces the stored record: what [LoadMetadata] then
    returns is the record just given, stamped with [generated_at], and
    nothing of what was stored before. *)
Lemma SaveMetadata_replaces env s storageID metadata st st' :
  storage.SaveMetadata env s storageID metadata st = (None, st') ->
  storage.LoadMetadata s storageID st'
  = Ok (<["generated_at" := VString (Format_RFC3339 env (clock env (clock_reads st)))]>
          metadata).
Proof.
  unfold storage.SaveMetadata, storage.CreateStorageFolder, storage.MkdirAll,
    storage.WriteFile, storage.LoadMetadata, storage.os_ReadFile, time_Now, set_disk.
  destruct (disk st !! storageID) as [[data | files] |] eqn:Hdir; simpl.
  - discriminate.
  - rewrite Hdir. intros H; inversion H; subst; simpl.
    rewrite lookup_insert_eq, lookup_insert_eq. reflexivity.
  - rewrite lookup_insert_eq. intros H; inversion H; subst; simpl.
    rewrite lookup_insert_eq, lookup_insert_eq. reflexivity.
Qed.

(** A field that the new record does not carry is gone after the write. *)
Lemma SaveMetadata_drops env s storageID metadata st st' key :
  storage.SaveMetadata env s storageID metadata st = (None, st') ->
  metadata !! key = None -> key <> "generated_at" ->
  exists stored, storage.LoadMetadata s storageID st' = Ok stored /\
                 stored !! key = None.
Proof.
  intros H Hkey Hne. eexists. split; [eapply SaveMetadata_replaces; eauto |].
  rewrite lookup_insert_ne by congruence. exact Hkey.
Qed.

(** C2 in the lifecycle scenario: after the submission the record holds
    the prompt, the model and the parameters; after the continue that
    completes the job it holds the completion fields, and the prompt, the
    model and the parameters are gone.  Only [prediction_id] is still
    there, because the completion writes it again. *)
Theorem completion_drops_submission_fields :
  scenario.field "prompt" scenario.submitted = Ok (Some (VString "a cat")) /\
  scenario.field "model" scenario.submitted = Ok (Some (VString "wan-t2v-fast")) /\
  scenario.field "prediction_id" scenario.submitted = Ok (Some (VString "p1")) /\
  scenario.record_keys "00000000" scenario.submitted
  = ["operation"; "generated_at"; "status"; "model_id"; "model"; "parameters";
     "prompt"; "prediction_id"] /\
  scenario.field "output_path" scenario.completed
  = Ok (Some (VString "/videos/00000000/video.mp4")) /\
  scenario.field "prompt" scenario.completed = Ok None /\
  scenario.field "model" scenario.completed = Ok None /\
  scenario.field "parameters" scenario.completed = Ok None /\
  scenario.field "prediction_id" scenario.completed = Ok (Some (VString "p1")) /\
  scenario.record_keys "00000000" scenario.completed
  = ["output_url"; "output_path"; "generated_at"; "status"; "completed_at";
     "file_size"; "prediction_id"].
Proof. repeat split; vm_compute; reflexivity. Qed.

(** ** The artifact store: allocating a storage ID *)

Lemma hexdigit_not_dash (n : Z) : Ascii.eqb (storage.hexdigit n) "-" = false.
Proof.
  unfold storage.hexdigit. generalize (Z.to_nat n) as k. intros k.
  do 16 (destruct k as [| k]; [reflexivity |]). destruct k; reflexivity.
Qed.

Lemma RemoveAll_hexbyte (b : Z) (rest : string) :
  strings.RemoveAll "-" (storage.hexbyte b rest)
  = storage.hexbyte b (strings.RemoveAll "-" rest).
Proof.
  unfold storage.hexbyte. cbn [strings.RemoveAll].
  now rewrite !hexdigit_not_dash.
Qed.

Lemma substring_0_0 (s : string) : substring 0 0 s = "".
Proof. destruct s; reflexivity. Qed.

Lemma id_of_bytes (b0 b1 b2 b3 : Z) (rest : string) :
  substring 0 8 (strings.RemoveAll "-"
    (storage.hexbyte b0 (storage.hexbyte b1 (storage.hexbyte b2 (storage.hexbyte b3 rest)))))
  = storage.hexbyte b0 (storage.hexbyte b1 (storage.hexbyte b2 (storage.hexbyte b3 ""))).
Proof.
  rewrite !RemoveAll_hexbyte. unfold storage.hexbyte. cbn [substring].
  now rewrite substring_0_0.
Qed.

(** The text of a UUID starts with the hex form of its four leading
    random bytes: the version and the variant sit further back. *)
Lemma uuid_String_shape (r : Z) :
  exists rest,
    storage.uuid_String (storage.uuid_New r)
    = storage.encodeHex (leading_bytes r) rest.
Proof. eexists. reflexivity. Qed.

(** The storage ID is the hex form of the four leading random bytes. *)
Lemma GenerateStorageID_leading env s st :
  fst (storage.GenerateStorageID env s st)
  = storage.encodeHex (leading_bytes (random env (uuids_drawn st))) "".
Proof.
  unfold storage.GenerateStorageID, rand_Read. cbn [fst].
  destruct (uuid_String_shape (random env (uuids_drawn st))) as [rest ->].
  generalize (random env (uuids_drawn st)) as r. intros r.
  unfold leading_bytes. cbn [seq map storage.encodeHex fold_right].
  apply id_of_bytes.
Qed.

Lemma GenerateStorageID_state env s st :
  snd (storage.GenerateStorageID env s st) = snd (rand_Read env st).
Proof. reflexivity. Qed.

Lemma GenerateStorageID_length env s st :
  String.length (fst (storage.GenerateStorageID env s st)) = 8%nat.
Proof. rewrite GenerateStorageID_leading. reflexivity. Qed.

Lemma hexdigit_inj (a b : Z) :
  0 <= a < 16 -> 0 <= b < 16 -> storage.hexdigit a = storage.hexdigit b -> a = b.
Proof.
  intros Ha Hb. unfold storage.hexdigit.
  remember (Z.to_nat a) as na eqn:Ea. remember (Z.to_nat b) as nb eqn:Eb.
  assert (Hna : (na < 16)%nat) by lia. assert (Hnb : (nb < 16)%nat) by lia.
  do 16 (destruct na as [| na];
         [do 16 (destruct nb as [| nb]; [simpl; intros H; (discriminate H || lia) |]);
          lia |]).
  lia.
Qed.

Lemma hexbyte_inj (a b : Z) (rest rest' : string) :
  0 <= a < 256 -> 0 <= b < 256 ->
  storage.hexbyte a rest = storage.hexbyte b rest' -> a = b /\ rest = rest'.
Proof.
  intros Ha Hb H. unfold storage.hexbyte in H. injection H as Hhi Hlo Hrest.
  apply hexdigit_inj in Hhi;
    [| split; [apply Z.div_pos; lia | apply Z.div_lt_upper_bound; lia] ..].
  apply hexdigit_inj in Hlo; [| apply Z.mod_pos_bound; lia ..].
  split; [| exact Hrest].
  rewrite (Z.div_mod a 16), (Z.div_mod b 16) by lia. lia.
Qed.

Lemma byte_range (x : Z) : 0 <= Z.land x 255 < 256.
Proof.
  change 255 with (Z.ones 8). rewrite Z.land_ones by lia.
  apply Z.mod_pos_bound. lia.
Qed.

(** Two storage IDs are the same exactly when the leading bytes are. *)
Lemma storage_id_inj (r1 r2 : Z) :
  storage.encodeHex (leading_bytes r1) "" = storage.encodeHex (leading_bytes r2) ""
  <-> leading_bytes r1 = leading_bytes r2.
Proof.
  split; [| now intros ->].
  unfold leading_bytes. cbn [seq map storage.encodeHex fold_right]. intros H.
  repeat match type of H with
         | storage.hexbyte _ _ = storage.hexbyte _ _ =>
             apply hexbyte_inj in H as [-> H]; [| apply byte_range ..]
         end.
  reflexivity.
Qed.

(** ** The orchestrator: submitting a job *)

Lemma CreatePrediction_frame env c ctx modelVersion input st :
  let st' := snd (client.CreatePrediction env c ctx modelVersion input st) in
  requests st' = requests st ++ [client.create_request modelVersion input] /\
  downloads st' = downloads st /\ selects st' = selects st /\
  uuids_drawn st' = uuids_drawn st /\ disk st' = disk st.
Proof.
  unfold client.CreatePrediction, http_Do. simpl.
  destruct (api env (length (requests st))) as [e | e | e | resp]; simpl; auto.
  destruct (StatusCode resp =? 402); simpl; auto.
  destruct (negb (StatusCode resp =? 201) && negb (StatusCode resp =? 200)); simpl; auto.
Qed.

Lemma SaveInputImage_frame env s storageID imagePath st :
  let st' := snd (storage.SaveInputImage env s storageID imagePath st) in
  requests st' = requests st /\ downloads st' = downloads st /\
  selects st' = selects st /\ uuids_drawn st' = uuids_drawn st.
Proof.
  unfold storage.SaveInputImage, storage.WriteFile, set_disk.
  repeat (break_goal; simpl in *; try discriminate); auto.
Qed.

Lemma create_request_method modelVersion input :
  Method (client.create_request modelVersion input) = "POST".
Proof. unfold client.create_request. destruct (strings.Contains _ _); reflexivity. Qed.

Lemma GenerateTextToVideo_once env fuel c s dbg ctx params st r st' :
  generation.GenerateTextToVideo env
    {| generation.client := client.as_Client env fuel c;
       generation.storage := s; generation.debug := dbg |} ctx params st = (Ok r, st') ->
  submitted_once env st r st'.
Proof.
  unfold generation.GenerateTextToVideo. unfold time_Now at 1. cbv beta iota.
  destruct (generation.GetModelConfig (generation.Model params)) as [config |];
    [| intros H; inversion H].
  destruct (negb (generation.IsTextToVideoModel (generation.Model params)));
    [intros H; inversion H |].
  cbn [generation.storage generation.client client.Client_CreatePrediction client.as_Client].
  match goal with
  | |- context [storage.GenerateStorageID env s ?x] =>
      pose proof (GenerateStorageID_leading env s x) as Hid;
      pose proof (GenerateStorageID_length env s x) as Hlen;
      pose proof (GenerateStorageID_state env s x) as Hst;
      destruct (storage.GenerateStorageID env s x) as [storageID st_b]
  end.
  cbn [fst snd uuids_drawn] in Hid, Hlen, Hst.
  match goal with
  | |- context [client.CreatePrediction env c ctx ?m ?i ?x] =>
      pose proof (CreatePrediction_frame env c ctx m i x) as (Hreq & Hdl & Hsel & Hu & _);
      destruct (client.CreatePrediction env c ctx m i x) as [res st_c]
  end.
  cbn [snd] in Hreq, Hdl, Hsel, Hu.
  destruct res as [prediction | e]; [| intros H; inversion H].
  match goal with
  | |- context [storage.SaveMetadata env s ?i ?m ?x] =>
      pose proof (SaveMetadata_frame env s i m x) as (Hdl2 & Hreq2 & Hu2 & Hsel2);
      destruct (storage.SaveMetadata env s i m x) as [err st_d]
  end.
  cbn [snd] in Hdl2, Hreq2, Hu2, Hsel2.
  unfold time_Now. intros H. inversion H; subst r st'; clear H.
  subst st_b. unfold rand_Read in *. cbn in Hreq, Hdl, Hsel, Hu.
  unfold submitted_once.
  cbn [generation.ID generation.submission_result requests downloads selects uuids_drawn].
  split; [exact Hid |]. split; [exact Hlen |]. split.
  { eexists. split; [rewrite Hreq2, Hreq; reflexivity | apply create_request_method]. }
  repeat split; congruence.
Qed.

Lemma GenerateImageToVideo_once env fuel c s dbg ctx params st r st' :
  generation.GenerateImageToVideo env
    {| generation.client := client.as_Client env fuel c;
       generation.storage := s; generation.debug := dbg |} ctx params st = (Ok r, st') ->
  submitted_once env st r st'.
Proof.
  unfold generation.GenerateImageToVideo. unfold time_Now at 1. cbv beta iota.
  destruct (generation.GetModelConfig (generation.Model params)) as [config |];
    [| intros H; inversion H].
  destruct (negb (generation.IsImageToVideoModel (generation.Model params)));
    [intros H; inversion H |].
  cbn [generation.storage generation.client client.Client_CreatePrediction client.as_Client].
  destruct (storage.ImageToDataURL env s (generation.ImagePath params)) as [dataURL | e];
    [| intros H; inversion H].
  match goal with
  | |- context [storage.GenerateStorageID env s ?x] =>
      pose proof (GenerateStorageID_leading env s x) as Hid;
      pose proof (GenerateStorageID_length env s x) as Hlen;
      pose proof (GenerateStorageID_state env s x) as Hst;
      destruct (storage.GenerateStorageID env s x) as [storageID st_b]
  end.
  cbn [fst snd uuids_drawn] in Hid, Hlen, Hst.
  match goal with
  | |- context [storage.SaveInputImage env s ?i ?p ?x] =>
      pose proof (SaveInputImage_frame env s i p x) as (Hreq0 & Hdl0 & Hsel0 & Hu0);
      destruct (storage.SaveInputImage env s i p x) as [saved st_i]
  end.
  cbn [snd] in Hreq0, Hdl0, Hsel0, Hu0.
  match goal with
  | |- context [client.CreatePrediction env c ctx ?m ?i ?x] =>
      pose proof (CreatePrediction_frame env c ctx m i x) as (Hreq & Hdl & Hsel & Hu & _);
      destruct (client.CreatePrediction env c ctx m i x) as [res st_c]
  end.
  cbn [snd] in Hreq, Hdl, Hsel, Hu.
  destruct res as [prediction | e]; [| intros H; inversion H].
  match goal with
  | |- context [storage.SaveMetadata env s ?i ?m ?x] =>
      pose proof (SaveMetadata_frame env s i m x) as (Hdl2 & Hreq2 & Hu2 & Hsel2);
      destruct (storage.SaveMetadata env s i m x) as [err st_d]
  end.
  cbn [snd] in Hdl2, Hreq2, Hu2, Hsel2.
  unfold time_Now. intros H. inversion H; subst r st'; clear H.
  subst st_b. unfold rand_Read in *. cbn in Hreq0, Hdl0, Hsel0, Hu0.
  unfold submitted_once.
  cbn [generation.ID generation.submission_result requests downloads selects uuids_drawn].
  split; [exact Hid |]. split; [exact Hlen |]. split.
  { eexists. split; [rewrite Hreq2, Hreq, Hreq0; reflexivity | apply create_request_method]. }
  repeat split; congruence.
Qed.

(** C6 at two UUIDs that differ only after their fourth byte: the two
    submissions that draw them return the same local ID.
    [GenerateStorageID] keeps the first eight hex characters of the UUID
    and compares the result with nothing, so the ID it is documented to
    make unique is not. *)
Lemma two_submissions_collide :
  let g := scenario.g0 scenario.env_collision in
  let first := Submit false scenario.env_collision g scenario.ctx0 scenario.cat scenario.st0 in
  let second := Submit false scenario.env_collision g scenario.ctx0 scenario.cat (snd first) in
  (random scenario.env_collision 0 =? random scenario.env_collision 1) = false /\
  option_map generation.ID (ok_value (fst first)) = Some "00000010" /\
  option_map generation.ID (ok_value (fst second)) = Some "00000010".
Proof. repeat split; vm_compute; reflexivity. Qed.

(** What a submission that succeeds has done, through either tool: it
    returns as local ID the hex form of the four leading bytes of a
    freshly drawn random UUID: eight characters, the same as another
    submission's ID exactly when those four bytes are the same, and never
    compared with the IDs in the store.  It sends one request to the
    provider, the POST that creates the prediction, and never enters the
    polling loop. *)
Theorem submit_allocates env fuel c s dbg ctx image params st r st' :
  let g := {| generation.client := client.as_Client env fuel c;
              generation.storage := s; generation.debug := dbg |} in
  Submit image env g ctx params st = (Ok r, st') ->
  let drawn := random env (uuids_drawn st) in
  generation.ID r = storage.encodeHex (leading_bytes drawn) "" /\
  String.length (generation.ID r) = 8%nat /\
  (forall other,
     storage.encodeHex (leading_bytes drawn) "" = storage.encodeHex (leading_bytes other) ""
     <-> leading_bytes drawn = leading_bytes other) /\
  (exists request, requests st' = requests st ++ [request] /\ Method request = "POST") /\
  selects st' = selects st /\
  downloads st' = downloads st /\
  uuids_drawn st' = S (uuids_drawn st).
Proof.
  intros g H drawn.
  assert (Honce : submitted_once env st r st').
  { unfold Submit in H. destruct image.
    - eapply GenerateImageToVideo_once; exact H.
    - eapply GenerateTextToVideo_once; exact H. }
  destruct Honce as (Hid & Hlen & Hreq & Hsel & Hdl & Hu).
  split; [exact Hid |]. split; [exact Hlen |].
  split; [intros other; apply storage_id_inj |].
  split; [exact Hreq |]. split; [exact Hsel |]. split; [exact Hdl | exact Hu].
Qed.

Lemma submit_allocates_witness :
  generation.ID scenario.submitted_result = "00000000" /\
  String.length (generation.ID scenario.submitted_result) = 8%nat /\
  length (requests scenario.submitted) = 1%nat.
Proof.
  destruct (submit_allocates scenario.env_lifecycle 100 scenario.c0 scenario.s0 false
              scenario.ctx0 false scenario.cat scenario.st0 scenario.submitted_result
              scenario.submitted ltac:(vm_compute; reflexivity))
    as (Hid & Hlen & _ & (request & Hreq & _) & _).
  split; [rewrite Hid; vm_compute; reflexivity |].
  split; [exact Hlen |].
  rewrite Hreq. reflexivity.
Defined.

(** ** The continue_operation tool: resolving the storage ID *)

Lemma elem_of_insert_by_name x y (l : list (string * Entry)) :
  x ∈ storage.insert_by_name y l <-> x = y \/ x ∈ l.
Proof.
  induction l as [| z l IH]; simpl.
  - rewrite list_elem_of_singleton. split; [auto | intros [H | H]; [auto | inversion H]].
  - destruct (String.leb (fst y) (fst z)).
    + rewrite elem_of_cons. reflexivity.
    + rewrite !elem_of_cons, IH. tauto.
Qed.

Lemma elem_of_sort_by_name x (l : list (string * Entry)) :
  x ∈ storage.sort_by_name l <-> x ∈ l.
Proof.
  induction l as [| y l IH]; simpl; [reflexivity |].
  rewrite elem_of_insert_by_name, IH, elem_of_cons. reflexivity.
Qed.

(** [ReadDir] lists exactly the children of the root. *)
Lemma elem_of_ReadDir st name entry :
  (name, entry) ∈ storage.ReadDir st <-> disk st !! name = Some entry.
Proof.
  unfold storage.ReadDir. rewrite elem_of_sort_by_name.
  apply elem_of_map_to_list.
Qed.

(** A folder holds a record for a job exactly when the record loaded from
    it names the job. *)
Lemma holds_prediction_load s st storageID predictionID :
  holds_prediction st storageID predictionID <->
  exists entry metadata,
    disk st !! storageID = Some entry /\ storage.IsDir entry = true /\
    storage.LoadMetadata s storageID st = Ok metadata /\
    as_string (metadata !! "prediction_id") = Some predictionID.
Proof.
  unfold holds_prediction, storage.LoadMetadata, storage.os_ReadFile. split.
  - intros (files & metadata & Hdir & Hfile & Hid).
    exists (Folder files), metadata. rewrite Hdir, Hfile, Hid. auto.
  - intros (entry & metadata & Hdir & Hisdir & Hload & Hid).
    rewrite Hdir in Hload. destruct entry as [data | files]; [discriminate |].
    destruct (files !! "metadata.yaml") as [[doc | b] |] eqn:Hfile.
    + inversion Hload; subst doc. exists files, metadata.
      repeat split; auto.
      destruct (metadata !! "prediction_id") as [[] |]; simpl in Hid;
        try discriminate. now inversion Hid.
    + discriminate.
    + inversion Hload; subst metadata. rewrite lookup_empty in Hid. discriminate.
Qed.

(** What the scan returns is a folder that holds a record for the job. *)
Lemma scan_sound h predictionID st entries storageID :
  handler.scan h predictionID entries st = Some storageID ->
  (forall name entry, (name, entry) ∈ entries -> disk st !! name = Some entry) ->
  holds_prediction st storageID predictionID.
Proof.
  induction entries as [| [name entry] rest IH]; simpl; [discriminate |].
  intros H Hin.
  assert (Hrest : forall n e, (n, e) ∈ rest -> disk st !! n = Some e).
  { intros n e Hne. apply Hin. apply elem_of_cons. now right. }
  destruct (storage.IsDir entry) eqn:Hisdir; simpl in H; [| now apply IH].
  destruct (storage.LoadMetadata (handler.storage h) name st) as [metadata | e] eqn:Hload;
    [| now apply IH].
  destruct (as_string (metadata !! "prediction_id")) as [metaPredID |] eqn:Hid;
    [| now apply IH].
  destruct (String.eqb_spec metaPredID predictionID) as [-> | Hne]; [| now apply IH].
  inversion H; subst name.
  apply (holds_prediction_load (handler.storage h)).
  exists entry, metadata. repeat split; auto. apply Hin. apply elem_of_cons. now left.
Qed.

(** The scan misses no folder that holds a record for the job. *)
Lemma scan_complete h predictionID st entries storageID entry :
  (storageID, entry) ∈ entries ->
  disk st !! storageID = Some entry ->
  holds_prediction st storageID predictionID ->
  exists found, handler.scan h predictionID entries st = Some found.
Proof.
  intros Hin Hdisk Hholds.
  apply (holds_prediction_load (handler.storage h)) in Hholds
    as (entry' & metadata & Hdisk' & Hisdir & Hload & Hid).
  rewrite Hdisk in Hdisk'. inversion Hdisk'; subst entry'. clear Hdisk'.
  induction entries as [| [name e] rest IH]; [inversion Hin |].
  simpl. apply elem_of_cons in Hin as [Heq | Hin].
  - inversion Heq; subst name e. rewrite Hisdir. simpl. rewrite Hload, Hid.
    rewrite String.eqb_refl. eauto.
  - specialize (IH Hin). destruct IH as [found Hfound]. rewrite Hfound.
    destruct (negb (storage.IsDir e)); [eauto |].
    destruct (storage.LoadMetadata (handler.storage h) name st) as [m | err]; [| eauto].
    destruct (as_string (m !! "prediction_id")) as [p |]; [| eauto].
    destruct (String.eqb p predictionID); eauto.
Qed.







(** ** The continue_operation tool: what the caller is told *)

(** A result with the status "processing" is answered with a processing
    response, whatever error came with it: the timeout is not shown to
    the caller as a failure. *)
Lemma continue_response_processing h operationID storageID waitTime r e st :
  generation.Status r = "processing" ->
  handler.continue_response h operationID storageID waitTime (Some r) (Some e) st
  = Some (handler.ProcessingText
            (responses.BuildProcessingResponse "continue_operation" operationID
               (generation.ID r) (time.whole_seconds waitTime))).
Proof. intros H. unfold handler.continue_response. now rewrite H. Qed.

(** The lifecycle scenario end to end: submitted, still processing after
    a budget of four seconds, completed after a budget of sixty. *)
Example lifecycle_outcomes :
  option_map generation.Status (ok_value (fst scenario.submission)) = Some "starting" /\
  scenario.outcome (scenario.continue (4 * time.Second) scenario.submitted)
  = Some (Some ("", "processing"), Some "operation timed out after 4s") /\
  disk scenario.waited = disk scenario.submitted /\
  scenario.outcome (scenario.continue (60 * time.Second) scenario.waited)
  = Some (Some ("/videos/00000000/video.mp4", "completed"), None).
Proof. repeat split; vm_compute; reflexivity. Qed.

(** * Further properties *)

(** ** The continue_operation tool: its arguments *)

(** X1: whatever [wait_time] a continue_operation call carries (none, a
    fraction, a number so large that the product with [time.Second]
    wraps around), the wait budget lies between 5 and 60 seconds, and so
    does the number of whole seconds a processing response reports. *)
Theorem wait_budget_bounds env args :
  5 * time.Second <= handler.wait_time env args <= 60 * time.Second /\
  5 <= time.whole_seconds (handler.wait_time env args) <= 60.
Proof.
  pose proof (wait_time_range env args) as [Hlo Hhi]. split; [split; assumption |].
  unfold time.whole_seconds, time.Second in *.
  rewrite Z.quot_div_nonneg by lia. split.
  - apply Z.div_le_lower_bound; lia.
  - apply Z.div_le_upper_bound; lia.
Qed.

(** X2: a numeric [wait_time] whose whole seconds, in nanoseconds, fit an
    int64 is cut to whole seconds (towards zero) and then clamped: the
    budget is that many seconds, but at least 5 and at most 60. *)
Theorem wait_budget_clamp env args (wt : Q) :
  args !! "wait_time" = Some (VFloat wt) ->
  - 9223372036 <= Z.quot (Qnum wt) (Z.pos (Qden wt)) <= 9223372036 ->
  handler.wait_time env args
  = Z.max (5 * time.Second)
      (Z.min (60 * time.Second) (Z.quot (Qnum wt) (Z.pos (Qden wt)) * time.Second)).
Proof.
  intros Harg [Hlo Hhi]. unfold handler.wait_time. rewrite Harg.
  cbn [as_float64]. cbv beta iota.
  rewrite Duration_of_float64_small by lia.
  set (t := Qnum wt ÷ Z.pos (Qden wt)) in *.
  unfold time.mul. rewrite wrap64_small by (unfold time.Second; lia).
  rewrite Z.gtb_ltb.
  destruct (Z.ltb_spec (t * time.Second) (5 * time.Second)).
  - destruct (Z.ltb_spec (60 * time.Second) (5 * time.Second));
      unfold time.Second in *; lia.
  - destruct (Z.ltb_spec (60 * time.Second) (t * time.Second));
      unfold time.Second in *; lia.
Qed.

Lemma wait_budget_clamp_witness :
  handler.wait_time scenario.env_lifecycle (<["wait_time" := VFloat (127 # 10)]> ∅)
  = 12 * time.Second.
Proof.
  rewrite (wait_budget_clamp scenario.env_lifecycle
             (<["wait_time" := VFloat (127 # 10)]> ∅) (127 # 10)).
  - reflexivity.
  - reflexivity.
  - vm_compute. split; discriminate.
Defined.

(** X3: the operation ID of a continue_operation call is never empty.  It
    is the [prediction_id] when that is a non-empty string, and the
    [operation_id] only when [prediction_id] is missing, empty or not a
    string.  A call with neither is answered with an invalid_parameters
    error in the state as it was: nothing is sent, drawn or written. *)
Theorem operation_id_precedence env h ctx args st :
  (forall id,
     handler.operation_id args = Some id <->
     id <> "" /\
     (as_string (args !! "prediction_id") = Some id \/
      (as_string (args !! "operation_id") = Some id /\
       (as_string (args !! "prediction_id") = None \/
        as_string (args !! "prediction_id") = Some "")))) /\
  (handler.operation_id args = None ->
   handler.handleContinueOperation env h ctx args st
   = Some (handler.errorResponse "continue_operation" "invalid_parameters"
             "prediction_id or operation_id is required" None, st)).
Proof.
  split.
  - intros id. unfold handler.operation_id.
    destruct (as_string (args !! "prediction_id")) as [predID |];
      [destruct (String.eqb_spec predID "") as [-> | Hp] |];
      destruct (as_string (args !! "operation_id")) as [opID |];
      try destruct (String.eqb_spec opID "") as [-> | Ho]; simpl; split;
      try (intros H; inversion H; subst; clear H; split; [assumption | auto]);
      try discriminate;
      try (intros [Hne [H | [H [H' | H']]]];
           try discriminate; try (inversion H; subst; try contradiction; reflexivity);
           try (inversion H'; subst; contradiction)).
  - intros H. unfold handler.handleContinueOperation. now rewrite H.
Qed.

(** ** The model tables *)

Lemma ModelAliases_full_id alias id :
  models.ModelAliases alias = Some id -> models.ModelAliases id = None.
Proof.
  unfold models.ModelAliases at 1.
  repeat (destruct (String.eqb alias _);
          [intros H; inversion H; subst id; reflexivity |]).
  discriminate.
Qed.

(** X4: [GetModelID] agrees with the model table: for every alias that
    has a configuration it returns the ID of that configuration.  A name
    that is no alias is returned as it is, and a full ID is no alias, so
    resolving twice is resolving once. *)
Theorem GetModelID_consistent alias :
  (forall config, generation.GetModelConfig alias = Some config ->
                  models.GetModelID alias = generation.cfg_ID config) /\
  (models.ModelAliases alias = None -> models.GetModelID alias = alias) /\
  models.GetModelID (models.GetModelID alias) = models.GetModelID alias.
Proof.
  split; [| split].
  - intros config. unfold generation.GetModelConfig, generation.ModelConfigs,
      models.GetModelID, models.ModelAliases.
    repeat (destruct (String.eqb alias _);
            [intros H; inversion H; subst config; reflexivity |]).
    discriminate.
  - intros H. unfold models.GetModelID. now rewrite H.
  - unfold models.GetModelID at 2 3.
    destruct (models.ModelAliases alias) as [id |] eqn:Halias.
    + unfold models.GetModelID. now rewrite (ModelAliases_full_id _ _ Halias).
    + unfold models.GetModelID. now rewrite Halias.
Qed.

(** X5: a model has a configuration exactly when it supports one of the
    two kinds of generation, so the "unknown model" check and the two
    capability checks never disagree; and the model each tool falls back
    on supports that tool's kind. *)
Theorem model_capabilities alias :
  (generation.GetModelConfig alias <> None <->
   generation.IsTextToVideoModel alias || generation.IsImageToVideoModel alias = true) /\
  generation.IsTextToVideoModel "wan-t2v-fast" = true /\
  generation.IsImageToVideoModel "wan-i2v-fast" = true.
Proof.
  split; [| split; reflexivity].
  unfold generation.GetModelConfig, generation.IsTextToVideoModel,
    generation.IsImageToVideoModel, generation.ModelConfigs.
  repeat (destruct (String.eqb alias _); [split; [reflexivity | discriminate] |]).
  split; [congruence | discriminate].
Qed.

(** ** The inputs sent to the provider *)

(** X6: the input of a text-to-video job always carries the prompt and a
    resolution: the one asked for, or else the model's default.  It
    carries a duration for kling-master only (the one asked for when
    positive, or else 5), and never an image. *)
Theorem buildTextToVideoInput_fields params config :
  let input := generation.buildTextToVideoInput params config in
  input !! "prompt" = Some (VString (generation.Prompt params)) /\
  input !! "resolution"
  = Some (VString (if String.eqb (generation.Resolution params) ""
                   then generation.cfg_DefaultRes config
                   else generation.Resolution params)) /\
  input !! "duration"
  = (if String.eqb (generation.Model params) "kling-master"
     then Some (VInt (if generation.Duration params >? 0
                      then generation.Duration params else 5))
     else None) /\
  input !! "image" = None /\ input !! "start_image" = None.
Proof.
  destruct params as [prompt model res ar fn np dur ip nf fps gf ss].
  unfold generation.buildTextToVideoInput.
  cbn [generation.Prompt generation.Model generation.Resolution generation.AspectRatio
       generation.NegativePrompt generation.Duration].
  destruct (String.eqb res ""); destruct (String.eqb ar "");
    destruct (String.eqb np ""); destruct (dur >? 0);
    (destruct (String.eqb_spec model "wan-t2v-fast") as [-> | ?];
     [| destruct (String.eqb_spec model "veo3") as [-> | ?];
        [| destruct (String.eqb_spec model "kling-master") as [-> | ?]]]);
    cbn [negb String.eqb Ascii.eqb Bool.eqb]; cbv zeta; repeat split;
    by simplify_map_eq.
Qed.

(** X7: the input of an image-to-video job always carries the prompt, a
    resolution and the image as a data URL, under exactly one key:
    [start_image] for kling-master, [image] for every other model. *)
Theorem buildImageToVideoInput_fields params config dataURL :
  let input := generation.buildImageToVideoInput params config dataURL in
  input !! "prompt" = Some (VString (generation.Prompt params)) /\
  input !! "resolution"
  = Some (VString (if String.eqb (generation.Resolution params) ""
                   then generation.cfg_DefaultRes config
                   else generation.Resolution params)) /\
  (if String.eqb (generation.Model params) "kling-master"
   then input !! "start_image" = Some (VString dataURL) /\ input !! "image" = None
   else input !! "image" = Some (VString dataURL) /\ input !! "start_image" = None).
Proof.
  destruct params as [prompt model res ar fn np dur ip nf fps gf ss].
  unfold generation.buildImageToVideoInput.
  cbn [generation.Prompt generation.Model generation.Resolution generation.AspectRatio
       generation.NegativePrompt generation.Duration].
  destruct (String.eqb res "");
    destruct (String.eqb np ""); destruct (dur >? 0);
    (destruct (String.eqb_spec model "wan-i2v-fast") as [-> | ?];
     [| destruct (String.eqb_spec model "veo3") as [-> | ?];
        [| destruct (String.eqb_spec model "kling-master") as [-> | ?]]]);
    cbn [negb String.eqb Ascii.eqb Bool.eqb]; cbv zeta; repeat split;
    by simplify_map_eq.
Qed.

(** ** The generate tools: their arguments *)

(** What the end of an extraction leaves as it was, and what it sets. *)
Lemma extract_rest_ok env args p params :
  generate.extract_rest env args p = (params, None) ->
  generation.Prompt params = generation.Prompt p /\
  generation.Model params = generation.Model p /\
  generation.Resolution params = generation.Resolution p /\
  generation.AspectRatio params = generation.AspectRatio p /\
  generation.ImagePath params = generation.ImagePath p /\
  (generation.Duration params = generation.Duration p \/
   5 <= generation.Duration params <= 10) /\
  (forall f, as_float64 (args !! "duration") = Some f ->
             generation.Duration params = time.Duration_of_float64 env f /\
             5 <= time.Duration_of_float64 env f <= 10).
Proof.
  unfold generate.extract_rest, generate.set_string.
  destruct (as_float64 (args !! "duration")) as [f |].
  - rewrite Z.gtb_ltb.
    destruct (Z.ltb_spec (time.Duration_of_float64 env f) 5) as [Hlo | Hlo];
      [discriminate |].
    destruct (Z.ltb_spec 10 (time.Duration_of_float64 env f)) as [Hhi | Hhi];
      [discriminate |].
    cbn [orb].
    destruct (as_string (args !! "negative_prompt"));
      destruct (as_string (args !! "filename"));
      intros H; inversion H; subst params; clear H; cbn;
      do 5 (split; [reflexivity |]);
      (split; [right; lia |]);
      intros f' Hf; inversion Hf; subst f'; (split; [reflexivity | lia]).
  - destruct (as_string (args !! "negative_prompt"));
      destruct (as_string (args !! "filename"));
      intros H; inversion H; subst params; clear H; cbn;
      do 5 (split; [reflexivity |]);
      (split; [left; reflexivity | discriminate]).
Qed.

Lemma extract_rest_accepts env args p :
  (forall f, as_float64 (args !! "duration") = Some f ->
             5 <= time.Duration_of_float64 env f <= 10) ->
  snd (generate.extract_rest env args p) = None.
Proof.
  intros Hd. unfold generate.extract_rest.
  destruct (as_float64 (args !! "duration")) as [f |]; [| reflexivity].
  specialize (Hd f eq_refl). rewrite Z.gtb_ltb.
  destruct (Z.ltb_spec (time.Duration_of_float64 env f) 5); [lia |].
  destruct (Z.ltb_spec 10 (time.Duration_of_float64 env f)); [lia |].
  reflexivity.
Qed.

Lemma set_nonempty_keeps v set p :
  (forall s q, generation.Prompt (set s q) = generation.Prompt q /\
               generation.Model (set s q) = generation.Model q /\
               generation.ImagePath (set s q) = generation.ImagePath q /\
               generation.Duration (set s q) = generation.Duration q) ->
  generation.Prompt (generate.set_nonempty v set p) = generation.Prompt p /\
  generation.Model (generate.set_nonempty v set p) = generation.Model p /\
  generation.ImagePath (generate.set_nonempty v set p) = generation.ImagePath p /\
  generation.Duration (generate.set_nonempty v set p) = generation.Duration p.
Proof.
  intros Hset. unfold generate.set_nonempty.
  destruct v as [s |]; [| auto]. destruct (negb (String.eqb s "")); auto.
Qed.

(** The model of parameters that were extracted supports the tool's kind
    of generation. *)
Lemma extractTextToVideoParams_model env args params :
  generate.extractTextToVideoParams env args = (params, None) ->
  generation.IsTextToVideoModel (generation.Model params) = true.
Proof.
  unfold generate.extractTextToVideoParams.
  destruct (as_string (args !! "prompt")) as [prompt |]; [| discriminate].
  destruct (String.eqb prompt ""); [discriminate |].
  cbn [generate.set_Model generate.set_Prompt generation.Model].
  set (model := generate.model_or (as_string (args !! "model")) "wan-t2v-fast").
  destruct (generation.IsTextToVideoModel model) eqn:Hmodel; cbn [negb]; [| discriminate].
  intros Hrest. apply extract_rest_ok in Hrest as (_ & Hm & _). rewrite Hm.
  unfold generate.set_nonempty.
  destruct (as_string (args !! "aspect_ratio")) as [a |];
    [destruct (negb (String.eqb a "")) |];
    (destruct (as_string (args !! "resolution")) as [r |];
     [destruct (negb (String.eqb r "")) |]); exact Hmodel.
Qed.

(** X8: [extractTextToVideoParams] accepts a call exactly when its prompt
    is a non-empty string, its model (the one named, or else
    wan-t2v-fast) supports text-to-video, and its duration, if it is a
    number, converts to an integer from 5 to 10.  The parameters it then
    returns carry that prompt and that model, a duration that is either
    unset or from 5 to 10, and no image path. *)
Theorem extractTextToVideoParams_valid env args :
  (snd (generate.extractTextToVideoParams env args) = None <->
   (exists prompt, as_string (args !! "prompt") = Some prompt /\ prompt <> "") /\
   generation.IsTextToVideoModel
     (generate.model_or (as_string (args !! "model")) "wan-t2v-fast") = true /\
   (forall f, as_float64 (args !! "duration") = Some f ->
              5 <= time.Duration_of_float64 env f <= 10)) /\
  (forall params,
     generate.extractTextToVideoParams env args = (params, None) ->
     as_string (args !! "prompt") = Some (generation.Prompt params) /\
     generation.Prompt params <> "" /\
     generation.Model params
     = generate.model_or (as_string (args !! "model")) "wan-t2v-fast" /\
     generation.IsTextToVideoModel (generation.Model params) = true /\
     (generation.Duration params = 0 \/ 5 <= generation.Duration params <= 10) /\
     generation.ImagePath params = "").
Proof.
  unfold generate.extractTextToVideoParams.
  destruct (as_string (args !! "prompt")) as [prompt |].
  2: { split; [split; [discriminate | intros [[p [Hp _]] _]; discriminate] |].
       intros params H; inversion H. }
  destruct (String.eqb_spec prompt "") as [-> | Hprompt].
  { split; [split; [discriminate | intros [[p [Hp Hne]] _]; inversion Hp; subst p;
                                   contradiction] |].
    intros params H; inversion H. }
  cbn [generate.set_Model generate.set_Prompt generation.Model].
  set (model := generate.model_or (as_string (args !! "model")) "wan-t2v-fast").
  destruct (generation.IsTextToVideoModel model) eqn:Hmodel; cbn [negb].
  2: { split; [split; [discriminate | intros (_ & H & _); discriminate] |].
       intros params H; inversion H. }
  match goal with
  | |- context [generate.extract_rest env args ?p] => set (p0 := p)
  end.
  assert (Hkeep : generation.Prompt p0 = prompt /\ generation.Model p0 = model /\
                  generation.ImagePath p0 = "" /\ generation.Duration p0 = 0).
  { subst p0.
    match goal with
    | |- context [generate.set_nonempty ?v generate.set_AspectRatio ?q] =>
        destruct (set_nonempty_keeps v generate.set_AspectRatio q) as (H1 & H2 & H3 & H4);
        [intros; cbn; auto |];
        rewrite H1, H2, H3, H4
    end.
    match goal with
    | |- context [generate.set_nonempty ?v generate.set_Resolution ?q] =>
        destruct (set_nonempty_keeps v generate.set_Resolution q) as (H1' & H2' & H3' & H4');
        [intros; cbn; auto |];
        rewrite H1', H2', H3', H4'
    end.
    cbn. auto. }
  destruct Hkeep as (Kp & Km & Ki & Kd).
  split.
  - split.
    + intros Hnone.
      split; [exists prompt; auto |]. split; [reflexivity |].
      intros f Hf.
      destruct (generate.extract_rest env args p0) as [params err] eqn:Hrest.
      cbn in Hnone. subst err.
      apply extract_rest_ok in Hrest as (_ & _ & _ & _ & _ & _ & Hd).
      apply (Hd f Hf).
    + intros (_ & _ & Hd). now apply extract_rest_accepts.
  - intros params Hrest.
    apply extract_rest_ok in Hrest as (Hp & Hm & _ & _ & Hi & Hd & _).
    rewrite Hp, Hm, Hi, Kp, Km, Ki. rewrite Kd in Hd.
    repeat split; auto.
Qed.

(** X9: [extractImageToVideoParams] accepts a call exactly when its image
    path and its prompt are non-empty strings, its model (the one named,
    or else wan-i2v-fast) supports image-to-video, and its duration, if
    it is a number, converts to an integer from 5 to 10.  The parameters
    it then returns carry that path, that prompt and that model, and
    never an aspect ratio: [aspect_ratio] is not read. *)
Theorem extractImageToVideoParams_valid env args :
  (snd (generate.extractImageToVideoParams env args) = None <->
   (exists imagePath, as_string (args !! "image_path") = Some imagePath /\ imagePath <> "") /\
   (exists prompt, as_string (args !! "prompt") = Some prompt /\ prompt <> "") /\
   generation.IsImageToVideoModel
     (generate.model_or (as_string (args !! "model")) "wan-i2v-fast") = true /\
   (forall f, as_float64 (args !! "duration") = Some f ->
              5 <= time.Duration_of_float64 env f <= 10)) /\
  (forall params,
     generate.extractImageToVideoParams env args = (params, None) ->
     as_string (args !! "image_path") = Some (generation.ImagePath params) /\
     generation.ImagePath params <> "" /\
     as_string (args !! "prompt") = Some (generation.Prompt params) /\
     generation.Prompt params <> "" /\
     generation.Model params
     = generate.model_or (as_string (args !! "model")) "wan-i2v-fast" /\
     generation.IsImageToVideoModel (generation.Model params) = true /\
     (generation.Duration params = 0 \/ 5 <= generation.Duration params <= 10) /\
     generation.AspectRatio params = "").
Proof.
  unfold generate.extractImageToVideoParams.
  destruct (as_string (args !! "image_path")) as [imagePath |].
  2: { split; [split; [discriminate | intros [[p [Hp _]] _]; discriminate] |].
       intros params H; inversion H. }
  destruct (String.eqb_spec imagePath "") as [-> | Hpath].
  { split; [split; [discriminate | intros [[p [Hp Hne]] _]; inversion Hp; subst p;
                                   contradiction] |].
    intros params H; inversion H. }
  destruct (as_string (args !! "prompt")) as [prompt |].
  2: { split; [split; [discriminate | intros (_ & [p [Hp _]] & _); discriminate] |].
       intros params H; inversion H. }
  destruct (String.eqb_spec prompt "") as [-> | Hprompt].
  { split; [split; [discriminate | intros (_ & [p [Hp Hne]] & _); inversion Hp; subst p;
                                   contradiction] |].
    intros params H; inversion H. }
  cbn [generate.set_Model generate.set_Prompt generate.set_ImagePath generation.Model].
  set (model := generate.model_or (as_string (args !! "model")) "wan-i2v-fast").
  destruct (generation.IsImageToVideoModel model) eqn:Hmodel; cbn [negb].
  2: { split; [split; [discriminate | intros (_ & _ & H & _); discriminate] |].
       intros params H; inversion H. }
  match goal with
  | |- context [generate.extract_rest env args ?p] => set (p0 := p)
  end.
  assert (Hkeep : generation.Prompt p0 = prompt /\ generation.Model p0 = model /\
                  generation.ImagePath p0 = imagePath /\ generation.Duration p0 = 0 /\
                  generation.AspectRatio p0 = "").
  { subst p0. unfold generate.set_nonempty.
    destruct (as_string (args !! "resolution")) as [r |];
      [destruct (negb (String.eqb r "")) |]; cbn; auto. }
  destruct Hkeep as (Kp & Km & Ki & Kd & Ka).
  split.
  - split.
    + intros Hnone.
      split; [exists imagePath; auto |]. split; [exists prompt; auto |].
      split; [reflexivity |].
      intros f Hf.
      destruct (generate.extract_rest env args p0) as [params err] eqn:Hrest.
      cbn in Hnone. subst err.
      apply extract_rest_ok in Hrest as (_ & _ & _ & _ & _ & _ & Hd).
      apply (Hd f Hf).
    + intros (_ & _ & _ & Hd). now apply extract_rest_accepts.
  - intros params Hrest.
    apply extract_rest_ok in Hrest as (Hp & Hm & _ & Ha & Hi & Hd & _).
    rewrite Hp, Hm, Hi, Ha, Kp, Km, Ki, Ka. rewrite Kd in Hd.
    repeat split; auto.
Qed.

(** ** The artifact store: records and files *)

(** X10: [LoadMetadata] fails in exactly two situations: the storage ID
    names a plain file of the root instead of a folder, or the folder's
    metadata file does not hold a YAML document.  The error it returns
    then wraps the library's error.  In every other situation it returns
    a record. *)
Theorem LoadMetadata_errors s storageID st :
  ((exists e, storage.LoadMetadata s storageID st = Err e) <->
   (exists data, disk st !! storageID = Some (RegularFile data)) \/
   (exists files b, disk st !! storageID = Some (Folder files) /\
                    files !! "metadata.yaml" = Some (Bytes b))) /\
  (forall e, storage.LoadMetadata s storageID st = Err e -> Unwrap e <> None).
Proof.
  unfold storage.LoadMetadata, storage.os_ReadFile.
  destruct (disk st !! storageID) as [[data | files] |].
  - split; [split; eauto | intros e H; inversion H; subst; simpl; discriminate].
  - destruct (files !! "metadata.yaml") as [[doc | b] |] eqn:Hf.
    + split; [| discriminate].
      split; [intros [e H]; discriminate |].
      intros [[data H] | (files' & b & H & Hb)]; [discriminate |].
      inversion H; subst files'. congruence.
    + split; [split; eauto 6 | intros e H; inversion H; subst; simpl; discriminate].
    + split; [| discriminate].
      split; [intros [e H]; discriminate |].
      intros [[data H] | (files' & b & H & Hb)]; [discriminate |].
      inversion H; subst files'. congruence.
  - split; [| discriminate].
    split; [intros [e H]; discriminate |].
    intros [[data H] | (files' & b & H & Hb)]; discriminate.
Qed.

(** Saving a record changes the disk in one folder, and in it one
    file. *)
Lemma SaveMetadata_files env s storageID metadata st id name :
  id <> storageID \/ name <> "metadata.yaml" ->
  file_at (snd (storage.SaveMetadata env s storageID metadata st)) id name
  = file_at st id name.
Proof.
  intros Hne.
  unfold storage.SaveMetadata, storage.CreateStorageFolder, storage.MkdirAll,
    storage.WriteFile, time_Now, set_disk, file_at.
  destruct (disk st !! storageID) as [[data | files] |] eqn:Hdir; simpl.
  - reflexivity.
  - rewrite Hdir. simpl.
    destruct (decide (id = storageID)) as [-> | Hid].
    + rewrite lookup_insert_eq, Hdir.
      destruct Hne as [Hne | Hne]; [contradiction |].
      now rewrite lookup_insert_ne by congruence.
    + now rewrite lookup_insert_ne by congruence.
  - rewrite lookup_insert_eq. simpl.
    destruct (decide (id = storageID)) as [-> | Hid].
    + rewrite lookup_insert_eq, Hdir.
      destruct Hne as [Hne | Hne]; [contradiction |].
      rewrite lookup_insert_ne by congruence. apply lookup_empty.
    + rewrite !lookup_insert_ne by congruence. reflexivity.
Qed.

(** Saving a record into a folder that exists succeeds. *)
Lemma SaveMetadata_succeeds env s storageID metadata st files :
  disk st !! storageID = Some (Folder files) ->
  fst (storage.SaveMetadata env s storageID metadata st) = None.
Proof.
  intros Hdir.
  unfold storage.SaveMetadata, storage.CreateStorageFolder, storage.MkdirAll,
    storage.WriteFile, time_Now, set_disk.
  rewrite Hdir. simpl. rewrite Hdir. reflexivity.
Qed.

(** X11: [SaveMetadata] fails exactly when the storage ID names a plain
    file, and then changes nothing.  Otherwise the record read back is
    the record given, stamped with [generated_at].  Either way no other
    file is touched: every file of every folder other than this folder's
    metadata file is as it was, so a video saved earlier stays. *)
Theorem SaveMetadata_outcome env s storageID metadata st :
  let err := fst (storage.SaveMetadata env s storageID metadata st) in
  let st' := snd (storage.SaveMetadata env s storageID metadata st) in
  (err <> None <-> exists data, disk st !! storageID = Some (RegularFile data)) /\
  (err <> None -> st' = st) /\
  (err = None ->
   storage.LoadMetadata s storageID st'
   = Ok (<["generated_at" := VString (Format_RFC3339 env (clock env (clock_reads st)))]>
           metadata)) /\
  (forall id name,
     id <> storageID \/ name <> "metadata.yaml" ->
     file_at st' id name = file_at st id name).
Proof.
  intros err st'.
  split; [| split; [| split]].
  - subst err. unfold storage.SaveMetadata, storage.CreateStorageFolder, storage.MkdirAll,
      storage.WriteFile, time_Now, set_disk.
    destruct (disk st !! storageID) as [[data | files] |] eqn:Hdir; simpl.
    + split; [eauto | discriminate].
    + rewrite Hdir. simpl. split; [congruence | intros [data H]; discriminate].
    + rewrite lookup_insert_eq. simpl. split; [congruence | intros [data H]; discriminate].
  - subst err st'. unfold storage.SaveMetadata, storage.CreateStorageFolder,
      storage.MkdirAll, storage.WriteFile, time_Now, set_disk.
    destruct (disk st !! storageID) as [[data | files] |] eqn:Hdir; simpl.
    + reflexivity.
    + rewrite Hdir. simpl. congruence.
    + rewrite lookup_insert_eq. simpl. congruence.
  - subst err st'. intros Herr. apply (SaveMetadata_replaces env s storageID metadata st).
    destruct (storage.SaveMetadata env s storageID metadata st) as [e st1].
    simpl in *. now subst e.
  - subst st'. intros id name Hne. now apply SaveMetadata_files.
Qed.

Lemma SaveMetadata_outcome_witness :
  file_at (snd (storage.SaveMetadata scenario.env_lifecycle scenario.s0 "00000000"
                  (<["status" := VString "completed"]> ∅) (snd cases.downloaded)))
    "00000000" "video.mp4"
  = Some (Bytes "VIDEO").
Proof.
  rewrite (proj2 (proj2 (proj2
             (SaveMetadata_outcome scenario.env_lifecycle scenario.s0 "00000000"
                (<["status" := VString "completed"]> ∅) (snd cases.downloaded))))
             "00000000" "video.mp4").
  - vm_compute. reflexivity.
  - right. discriminate.
Defined.

Lemma video_name_not_metadata url :
  "video" +:+ storage.video_ext url <> "metadata.yaml".
Proof.
  unfold storage.video_ext.
  destruct (strings.Contains url ".webm"); [discriminate |].
  destruct (strings.Contains url ".gif"); discriminate.
Qed.

(** A download changes the disk in one folder, and in it one file. *)
Lemma SaveVideoFromURL_disk env s url storageID st :
  let st' := snd (storage.SaveVideoFromURL env s url storageID "" st) in
  forall id name,
    id <> storageID \/ name <> "video" +:+ storage.video_ext url ->
    file_at st' id name = file_at st id name.
Proof.
  intros st' id name Hne. subst st'.
  unfold storage.SaveVideoFromURL, storage.CreateStorageFolder, storage.MkdirAll,
    storage.WriteFile, http_Get, set_disk, file_at.
  rewrite video_filename_default.
  destruct (disk st !! storageID) as [[data | files] |] eqn:Hdir; simpl.
  - reflexivity.
  - destruct (cdn env (length (downloads st))) as [e | status body ce]; simpl;
      [reflexivity |].
    destruct (negb (status =? 200)); simpl; [reflexivity |].
    rewrite Hdir.
    assert (Hgoal :
      match <[storageID := Folder (<["video" +:+ storage.video_ext url := Bytes body]> files)]>
              (disk st) !! id with
      | Some (Folder files0) => files0 !! name
      | _ => None
      end
      = match disk st !! id with
        | Some (Folder files0) => files0 !! name
        | _ => None
        end).
    { destruct (decide (id = storageID)) as [-> | Hid].
      - rewrite lookup_insert_eq, Hdir.
        destruct Hne as [Hne | Hne]; [contradiction |].
        now rewrite lookup_insert_ne by congruence.
      - now rewrite lookup_insert_ne by congruence. }
    destruct ce; simpl; exact Hgoal.
  - assert (Hempty :
      match <[storageID := Folder ∅]> (disk st) !! id with
      | Some (Folder files0) => files0 !! name
      | _ => None
      end
      = match disk st !! id with
        | Some (Folder files0) => files0 !! name
        | _ => None
        end).
    { destruct (decide (id = storageID)) as [-> | Hid].
      - rewrite lookup_insert_eq, Hdir. apply lookup_empty.
      - now rewrite lookup_insert_ne by congruence. }
    destruct (cdn env (length (downloads st))) as [e | status body ce]; simpl;
      [exact Hempty |].
    destruct (negb (status =? 200)); simpl; [exact Hempty |].
    rewrite lookup_insert_eq.
    assert (Hgoal :
      match <[storageID := Folder (<["video" +:+ storage.video_ext url := Bytes body]> ∅)]>
              (<[storageID := Folder ∅]> (disk st)) !! id with
      | Some (Folder files0) => files0 !! name
      | _ => None
      end
      = match disk st !! id with
        | Some (Folder files0) => files0 !! name
        | _ => None
        end).
    { destruct (decide (id = storageID)) as [-> | Hid].
      - rewrite lookup_insert_eq, Hdir.
        destruct Hne as [Hne | Hne]; [contradiction |].
        rewrite lookup_insert_ne by congruence. apply lookup_empty.
      - now rewrite !lookup_insert_ne by congruence. }
    destruct ce; simpl; exact Hgoal.
Qed.

(** What [LoadMetadata] returns is decided by the metadata file and by
    whether the storage ID names a plain file. *)
Lemma LoadMetadata_ext s id st st' :
  file_at st' id "metadata.yaml" = file_at st id "metadata.yaml" ->
  (forall data, disk st' !! id = Some (RegularFile data) <->
                disk st !! id = Some (RegularFile data)) ->
  storage.LoadMetadata s id st' = storage.LoadMetadata s id st.
Proof.
  unfold file_at, storage.LoadMetadata, storage.os_ReadFile. intros Hfile Hplain.
  destruct (disk st !! id) as [[data | files] |] eqn:Hd;
    destruct (disk st' !! id) as [[data' | files'] |] eqn:Hd'.
  all: try reflexivity.
  all: try (pose proof (proj2 (Hplain _) eq_refl); congruence).
  all: try (pose proof (proj1 (Hplain _) eq_refl); congruence).
  all: try (rewrite Hfile; reflexivity).
  all: rewrite <- Hfile; reflexivity.
Qed.

(** A download creates the folder when it is missing and writes at most
    the video: it turns no plain file into a folder and no folder into a
    plain file. *)
Lemma SaveVideoFromURL_plain env s url storageID filename st id data :
  disk (snd (storage.SaveVideoFromURL env s url storageID filename st)) !! id
  = Some (RegularFile data)
  <-> disk st !! id = Some (RegularFile data).
Proof.
  unfold storage.SaveVideoFromURL, storage.CreateStorageFolder, storage.MkdirAll,
    storage.WriteFile, http_Get, set_disk.
  destruct (disk st !! storageID) as [[d | files] |] eqn:Hdir; simpl.
  - reflexivity.
  - destruct (cdn env (length (downloads st))) as [e | status body ce]; simpl;
      [reflexivity |].
    destruct (negb (status =? 200)); simpl; [reflexivity |].
    rewrite Hdir.
    assert (Hgoal : forall files',
      <[storageID := Folder files']> (disk st) !! id = Some (RegularFile data)
      <-> disk st !! id = Some (RegularFile data)).
    { intros files'. destruct (decide (id = storageID)) as [-> | Hid].
      - rewrite lookup_insert_eq, Hdir. split; discriminate.
      - now rewrite lookup_insert_ne by congruence. }
    destruct ce; simpl; apply Hgoal.
  - assert (Hgoal : forall files',
      <[storageID := Folder files']> (disk st) !! id = Some (RegularFile data)
      <-> disk st !! id = Some (RegularFile data)).
    { intros files'. destruct (decide (id = storageID)) as [-> | Hid].
      - rewrite lookup_insert_eq, Hdir. split; discriminate.
      - now rewrite lookup_insert_ne by congruence. }
    destruct (cdn env (length (downloads st))) as [e | status body ce]; simpl;
      [apply Hgoal |].
    destruct (negb (status =? 200)); simpl; [apply Hgoal |].
    rewrite lookup_insert_eq.
    destruct ce; simpl; rewrite insert_insert_eq; apply Hgoal.
Qed.

(** A download into the default file leaves every record as it was. *)
Lemma SaveVideoFromURL_records env s url storageID st id :
  storage.LoadMetadata s id (snd (storage.SaveVideoFromURL env s url storageID "" st))
  = storage.LoadMetadata s id st.
Proof.
  apply LoadMetadata_ext.
  - apply SaveVideoFromURL_disk. right.
    intros H. symmetry in H. revert H. apply video_name_not_metadata.
  - intros data. apply SaveVideoFromURL_plain.
Qed.

(** X12: a download into the default file never touches a record,
    whether it succeeds or fails: for every storage ID, [LoadMetadata]
    returns after it what it returned before it.  The only file it may
    write is the video of its own folder. *)
Theorem download_keeps_records env s url storageID st :
  let st' := snd (storage.SaveVideoFromURL env s url storageID "" st) in
  (forall id, storage.LoadMetadata s id st' = storage.LoadMetadata s id st) /\
  (forall id name,
     id <> storageID \/ name <> "video" +:+ storage.video_ext url ->
     file_at st' id name = file_at st id name).
Proof.
  intros st'. split; [| apply SaveVideoFromURL_disk].
  intros id. apply SaveVideoFromURL_records.
Qed.

(** X13: a download that succeeds has stored what it reports: the host
    answered 200 and the copy went through, the size returned is the
    length of the body, the file holds that body, and the path returned
    is that file's path under the storage folder. *)
Theorem download_stores_body env s url storageID st path size st' :
  storage.SaveVideoFromURL env s url storageID "" st = (Ok (path, size), st') ->
  exists body,
    cdn env (length (downloads st)) = GetResponded 200 body None /\
    size = Z.of_nat (String.length body) /\
    file_at st' storageID ("video" +:+ storage.video_ext url) = Some (Bytes body) /\
    path = storage.Join (storage.GetStoragePath s storageID)
             ("video" +:+ storage.video_ext url).
Proof.
  unfold storage.SaveVideoFromURL, storage.CreateStorageFolder, storage.MkdirAll,
    storage.WriteFile, http_Get, set_disk, file_at, storage.GetStoragePath.
  rewrite video_filename_default.
  destruct (disk st !! storageID) as [[data | files] |] eqn:Hdir; simpl.
  - discriminate.
  - destruct (cdn env (length (downloads st))) as [e | status body ce]; simpl;
      [discriminate |].
    destruct (Z.eqb_spec status 200) as [-> | Hs]; simpl; [| discriminate].
    rewrite Hdir. destruct ce; simpl; [discriminate |].
    intros H; inversion H; subst; clear H. exists body. simpl.
    rewrite !lookup_insert_eq. auto.
  - destruct (cdn env (length (downloads st))) as [e | status body ce]; simpl;
      [discriminate |].
    destruct (Z.eqb_spec status 200) as [-> | Hs]; simpl; [| discriminate].
    rewrite lookup_insert_eq. destruct ce; simpl; [discriminate |].
    intros H; inversion H; subst; clear H. exists body. simpl.
    rewrite !lookup_insert_eq. auto.
Qed.

Lemma download_stores_body_witness :
  exists body,
    cdn scenario.env_lifecycle 0 = GetResponded 200 body None /\
    5 = Z.of_nat (String.length body) /\
    file_at (snd cases.downloaded) "00000000" "video.mp4" = Some (Bytes body) /\
    "/videos/00000000/video.mp4"
    = storage.Join (storage.GetStoragePath scenario.s0 "00000000") "video.mp4".
Proof.
  apply (download_stores_body scenario.env_lifecycle scenario.s0 "https://cdn/out.mp4"
           "00000000" scenario.st0 "/videos/00000000/video.mp4" 5 (snd cases.downloaded)).
  vm_compute. reflexivity.
Defined.

(** X14: a download that fails for a storage ID without a folder still
    leaves a folder behind: [SaveVideoFromURL] creates it before it
    asks the host.  The folder is empty, unless the host answered 200
    and the copy broke off, in which case it holds what was copied. *)
Theorem failed_download_leaves_folder env s url storageID st e st' :
  storage.SaveVideoFromURL env s url storageID "" st = (Err e, st') ->
  disk st !! storageID = None ->
  exists files,
    disk st' = <[storageID := Folder files]> (disk st) /\
    downloads st' = downloads st ++ [url] /\
    (files = ∅ \/
     exists body copy_error,
       cdn env (length (downloads st)) = GetResponded 200 body (Some copy_error) /\
       files = {[ "video" +:+ storage.video_ext url := Bytes body ]}).
Proof.
  unfold storage.SaveVideoFromURL, storage.CreateStorageFolder, storage.MkdirAll,
    storage.WriteFile, http_Get, set_disk.
  rewrite video_filename_default.
  intros H Hdir. rewrite Hdir in H. simpl in H.
  destruct (cdn env (length (downloads st))) as [e0 | status body ce]; simpl in H.
  { inversion H; subst; clear H. exists ∅. simpl. auto. }
  destruct (Z.eqb_spec status 200) as [-> | Hs]; simpl in H.
  2: { inversion H; subst; clear H. exists ∅. simpl. auto. }
  rewrite lookup_insert_eq in H. destruct ce as [ce |]; simpl in H; [| discriminate].
  inversion H; subst; clear H.
  exists {[ "video" +:+ storage.video_ext url := Bytes body ]}. simpl.
  rewrite insert_insert_eq. split; [reflexivity |]. split; [reflexivity |].
  right. eauto.
Qed.

Lemma failed_download_leaves_folder_witness :
  exists files,
    disk (snd cases.refused) = <["00000000" := Folder files]> (disk scenario.st0) /\
    downloads (snd cases.refused) = downloads scenario.st0 ++ ["https://cdn/out.mp4"] /\
    (files = ∅ \/
     exists body copy_error,
       cdn cases.env_404 (length (downloads scenario.st0))
       = GetResponded 200 body (Some copy_error) /\
       files = {[ "video" +:+ storage.video_ext "https://cdn/out.mp4" := Bytes body ]}).
Proof.
  apply (failed_download_leaves_folder cases.env_404 scenario.s0 "https://cdn/out.mp4"
           "00000000" scenario.st0
           (errorString "failed to download video: status 404") (snd cases.refused)).
  - vm_compute. reflexivity.
  - reflexivity.
Defined.

(** ** The artifact store: images and storage IDs *)

(** X15: whatever the file is, the data URL of an image declares an
    image type: it is "data:", a MIME type that starts with "image/",
    ";base64," and the encoding of the bytes read.  For the extensions
    .jpg, .jpeg, .png, .webp and .gif (in any case) the type follows the
    extension.  For every other extension it is the type detected from
    the content when that is an image type, and content that is detected
    as something else is declared as a JPEG. *)
Theorem ImageToDataURL_shape env s imagePath url :
  storage.ImageToDataURL env s imagePath = Ok url ->
  exists data mimeType,
    ReadFile env imagePath = Ok data /\
    String.prefix "image/" mimeType = true /\
    url = "data:" +:+ mimeType +:+ ";base64," +:+ base64_EncodeToString env data /\
    let ext := ToLower env (filepath_Ext env imagePath) in
    let detected := DetectContentType env data in
    let other :=
      ext <> ".jpg" /\ ext <> ".jpeg" /\ ext <> ".png" /\ ext <> ".webp" /\
      ext <> ".gif" in
    (ext = ".jpg" \/ ext = ".jpeg" -> mimeType = "image/jpeg") /\
    (ext = ".png" -> mimeType = "image/png") /\
    (ext = ".webp" -> mimeType = "image/webp") /\
    (ext = ".gif" -> mimeType = "image/gif") /\
    (other -> String.prefix "image/" detected = true -> mimeType = detected) /\
    (other -> String.prefix "image/" detected = false -> mimeType = "image/jpeg").
Proof.
  unfold storage.ImageToDataURL.
  destruct (ReadFile env imagePath) as [data | e]; [| discriminate].
  cbv zeta. generalize (ToLower env (filepath_Ext env imagePath)) as ext.
  intros ext H. inversion H; subst url; clear H.
  exists data.
  assert (Hshape : forall mimeType (P : Prop),
             String.prefix "image/" mimeType = true -> P ->
             Ok data = Ok data /\
             String.prefix "image/" mimeType = true /\
             "data:" +:+ mimeType +:+ ";base64," +:+ base64_EncodeToString env data
             = "data:" +:+ mimeType +:+ ";base64," +:+ base64_EncodeToString env data /\
             P) by auto.
  destruct (String.eqb_spec ext ".jpg") as [-> | Hjpg]; cbn [orb].
  { exists "image/jpeg". apply Hshape; [reflexivity |].
    repeat split; intros; try reflexivity; try discriminate; tauto. }
  destruct (String.eqb_spec ext ".jpeg") as [-> | Hjpeg]; cbn [orb].
  { exists "image/jpeg". apply Hshape; [reflexivity |].
    repeat split; intros; try reflexivity; try discriminate; tauto. }
  destruct (String.eqb_spec ext ".png") as [-> | Hpng].
  { exists "image/png". apply Hshape; [reflexivity |].
    repeat split; intros; try reflexivity; try discriminate; try tauto;
      try (match goal with H : _ \/ _ |- _ => destruct H; discriminate end). }
  destruct (String.eqb_spec ext ".webp") as [-> | Hwebp].
  { exists "image/webp". apply Hshape; [reflexivity |].
    repeat split; intros; try reflexivity; try discriminate; try tauto;
      try (match goal with H : _ \/ _ |- _ => destruct H; discriminate end). }
  destruct (String.eqb_spec ext ".gif") as [-> | Hgif].
  { exists "image/gif". apply Hshape; [reflexivity |].
    repeat split; intros; try reflexivity; try discriminate; try tauto;
      try (match goal with H : _ \/ _ |- _ => destruct H; discriminate end). }
  destruct (String.prefix "image/" (DetectContentType env data)) eqn:Hp.
  - exists (DetectContentType env data). apply Hshape; [exact Hp |].
    repeat split; intros; try reflexivity; try discriminate; try tauto.
  - exists "image/jpeg". apply Hshape; [reflexivity |].
    repeat split; intros; try reflexivity; try discriminate; try tauto.
Qed.

Lemma ImageToDataURL_shape_witness :
  exists data mimeType,
    ReadFile cases.env_image "/tmp/cat.png" = Ok data /\
    String.prefix "image/" mimeType = true /\
    "data:image/png;base64,PNG"
    = "data:" +:+ mimeType +:+ ";base64," +:+ base64_EncodeToString cases.env_image data /\
    mimeType = "image/png".
Proof.
  pose proof (ImageToDataURL_shape cases.env_image scenario.s0 "/tmp/cat.png"
                "data:image/png;base64,PNG" eq_refl) as H.
  cbv zeta in H. destruct H as (data & mimeType & Hread & Hprefix & Hurl & _ & Hpng & _).
  exists data, mimeType.
  split; [exact Hread |]. split; [exact Hprefix |]. split; [exact Hurl |].
  apply Hpng. reflexivity.
Defined.

Lemma hexdigit_is_hex (n : Z) : is_hex (storage.hexdigit n) = true.
Proof.
  unfold storage.hexdigit. generalize (Z.to_nat n) as k. intros k.
  do 16 (destruct k as [| k]; [reflexivity |]). destruct k; reflexivity.
Qed.

(** X16: a storage ID is made of eight lower-case hex digits, whatever
    the random source hands out, so it is a single path component: it
    holds no separator and no dot.  Allocating it draws one UUID and
    leaves the disk as it was: the ID is not reserved. *)
Theorem GenerateStorageID_hex env s st :
  let id := fst (storage.GenerateStorageID env s st) in
  let st' := snd (storage.GenerateStorageID env s st) in
  forallb is_hex (fmt.chars id) = true /\
  String.length id = 8%nat /\
  strings.Contains id "/" = false /\ strings.Contains id "." = false /\
  uuids_drawn st' = S (uuids_drawn st) /\ disk st' = disk st.
Proof.
  intros id st'. subst id st'.
  rewrite GenerateStorageID_leading, GenerateStorageID_state.
  generalize (random env (uuids_drawn st)) as r. intros r.
  unfold leading_bytes. cbn [seq map storage.encodeHex fold_right].
  set (b0 := Z.land _ 255). set (b1 := Z.land _ 255).
  set (b2 := Z.land _ 255). set (b3 := Z.land _ 255).
  clearbody b0 b1 b2 b3.
  assert (Hsep : forall c : ascii, is_hex c = true -> "/"%char <> c /\ "."%char <> c).
  { intros c. unfold is_hex. cbn [fmt.chars list_ascii_of_string existsb].
    intros H. repeat (apply orb_true_iff in H as [H | H];
                      [apply Ascii.eqb_eq in H; subst c; split; discriminate |]).
    discriminate. }
  unfold storage.hexbyte.
  split.
  { cbn [fmt.chars list_ascii_of_string forallb].
    rewrite !hexdigit_is_hex. reflexivity. }
  split; [reflexivity |].
  unfold strings.Contains. cbn [String.index String.prefix].
  repeat match goal with
         | |- context [ascii_dec ?a (storage.hexdigit ?n)] =>
             destruct (ascii_dec a (storage.hexdigit n)) as [E | _];
             [exfalso; destruct (Hsep _ (hexdigit_is_hex n)) as [N1 N2];
              (exact (N1 E) || exact (N2 E)) |]
         end.
  repeat split; reflexivity.
Qed.

(** ** The remote job client: replies and outcomes *)

(** X17: the client takes a reply as a success only by its status code:
    200 or 201 for a submission, 200 alone for a poll, and in both cases
    only when the body decodes as a prediction, which it then returns
    unchanged.  Every other reply is an error. *)
Theorem accepted_replies env c ctx st :
  (forall modelVersion input p,
     fst (client.CreatePrediction env c ctx modelVersion input st) = Ok p ->
     exists resp,
       api env (length (requests st)) = Responded resp /\
       (StatusCode resp = 200 \/ StatusCode resp = 201) /\
       BodyPrediction resp = Ok p) /\
  (forall predictionID p,
     fst (client.GetPrediction env c ctx predictionID st) = Ok p ->
     exists resp,
       api env (length (requests st)) = Responded resp /\
       StatusCode resp = 200 /\
       BodyPrediction resp = Ok p).
Proof.
  split.
  - intros modelVersion input p. unfold client.CreatePrediction, http_Do. simpl.
    destruct (api env (length (requests st))) as [e | e | e | resp]; simpl;
      try discriminate.
    destruct (Z.eqb_spec (StatusCode resp) 402) as [H402 | H402]; simpl; [discriminate |].
    unfold client.decode_prediction.
    destruct (Z.eqb_spec (StatusCode resp) 201) as [H201 | H201]; simpl.
    + destruct (BodyPrediction resp) as [p' | err] eqn:Hbody; simpl; [| discriminate].
      intros H; inversion H; subst p'. exists resp. auto.
    + destruct (Z.eqb_spec (StatusCode resp) 200) as [H200 | H200]; simpl; [| discriminate].
      destruct (BodyPrediction resp) as [p' | err] eqn:Hbody; simpl; [| discriminate].
      intros H; inversion H; subst p'. exists resp. auto.
  - intros predictionID p. unfold client.GetPrediction, http_Do. simpl.
    destruct (api env (length (requests st))) as [e | e | e | resp]; simpl;
      try discriminate.
    unfold client.decode_prediction.
    destruct (Z.eqb_spec (StatusCode resp) 200) as [H200 | H200]; simpl; [| discriminate].
    destruct (BodyPrediction resp) as [p' | err] eqn:Hbody; simpl; [| discriminate].
    intros H; inversion H; subst p'. exists resp. auto.
Qed.

Lemma poll_outcome env c ctx predictionID timeout deadline fuel :
  forall st p err st',
    client.poll env c ctx predictionID timeout deadline fuel st = Some (p, err, st') ->
    wait_outcome env timeout p err.
Proof.
  induction fuel as [| fuel IH]; intros st p err st' H; [discriminate |].
  simpl in H. unfold select_case in H.
  destruct (select env (selects st)) as [e |].
  { inversion H; subst. exact I. }
  unfold time_Now in H; simpl in H.
  match type of H with
  | context [client.GetPrediction env c ctx predictionID ?s] =>
      destruct (client.GetPrediction env c ctx predictionID s) as [r stg]
  end.
  destruct (clock env (clock_reads st) >? deadline).
  { inversion H; subst. destruct r; simpl; auto. }
  destruct r as [pr | e]; [| inversion H; subst; exact I].
  destruct (String.eqb_spec (types.Status pr) types.StatusSucceeded) as [Hs |].
  { inversion H; subst. exact Hs. }
  destruct (String.eqb_spec (types.Status pr) types.StatusFailed) as [Hf |].
  { inversion H; subst. simpl. auto. }
  destruct (String.eqb_spec (types.Status pr) types.StatusCanceled) as [Hc |].
  { inversion H; subst. simpl. auto. }
  eapply IH; eauto.
Qed.

(** X18: a wait that returns always returns a prediction or an error,
    never neither, so the orchestrator's dereference of the prediction is
    safe.  No error means the prediction has succeeded.  An error that
    comes with a prediction is the timeout error, or the failure error of
    a failed job, or the fixed error of a canceled one. *)
Theorem wait_outcomes env fuel c ctx predictionID timeout st p err st' :
  client.WaitForCompletion env fuel c ctx predictionID timeout st = Some (p, err, st') ->
  match p, err with
  | Some prediction, None => types.Status prediction = types.StatusSucceeded
  | None, None => False
  | Some prediction, Some e =>
      e = client.timeout_error env timeout \/
      (types.Status prediction = types.StatusFailed /\
       e = fmt.Errorf0 (client.failure_message env prediction)) \/
      (types.Status prediction = types.StatusCanceled /\
       e = errorString "prediction was canceled")
  | None, Some _ => True
  end.
Proof.
  unfold client.WaitForCompletion.
  destruct (client.wait_deadline env ctx timeout st) as [deadline st0].
  apply poll_outcome.
Qed.

Lemma wait_outcomes_witness :
  client.timeout_error scenario.env_lifecycle (4 * time.Second)
  = client.timeout_error scenario.env_lifecycle (4 * time.Second) \/
  (types.Status (scenario.prediction "p1" "processing" VNil VNil) = types.StatusFailed /\
   client.timeout_error scenario.env_lifecycle (4 * time.Second)
   = fmt.Errorf0 (client.failure_message scenario.env_lifecycle
                    (scenario.prediction "p1" "processing" VNil VNil))) \/
  (types.Status (scenario.prediction "p1" "processing" VNil VNil) = types.StatusCanceled /\
   client.timeout_error scenario.env_lifecycle (4 * time.Second)
   = errorString "prediction was canceled").
Proof.
  apply (wait_outcomes scenario.env_lifecycle 100 scenario.c0 scenario.ctx0 "p1"
           (4 * time.Second) scenario.started
           (Some (scenario.prediction "p1" "processing" VNil VNil))
           (Some (client.timeout_error scenario.env_lifecycle (4 * time.Second)))
           scenario.timed_out).
  vm_compute. reflexivity.
Defined.

Lemma GetPrediction_request env c ctx predictionID st :
  requests (snd (client.GetPrediction env c ctx predictionID st))
  = requests st ++ [poll_request predictionID].
Proof. apply GetPrediction_frame. Qed.

Lemma poll_requests env c ctx predictionID timeout deadline fuel :
  forall st p err st',
    client.poll env c ctx predictionID timeout deadline fuel st = Some (p, err, st') ->
    exists n, (n <= fuel)%nat /\
              requests st' = requests st ++ repeat (poll_request predictionID) n.
Proof.
  induction fuel as [| fuel IH]; intros st p err st' H; [discriminate |].
  simpl in H. unfold select_case in H.
  destruct (select env (selects st)) as [e |].
  { inversion H; subst. exists 0%nat. simpl. rewrite app_nil_r. split; [lia | reflexivity]. }
  unfold time_Now in H; simpl in H.
  match type of H with
  | context [client.GetPrediction env c ctx predictionID ?s] =>
      pose proof (GetPrediction_request env c ctx predictionID s) as Hreq;
      destruct (client.GetPrediction env c ctx predictionID s) as [r stg]
  end.
  simpl in Hreq.
  assert (Hone : exists n, (n <= S fuel)%nat /\
                   requests stg = requests st ++ repeat (poll_request predictionID) n).
  { exists 1%nat. split; [lia | exact Hreq]. }
  destruct (clock env (clock_reads st) >? deadline).
  { inversion H; subst. exact Hone. }
  destruct r as [pr | e]; [| inversion H; subst; exact Hone].
  destruct (String.eqb (types.Status pr) types.StatusSucceeded);
    [inversion H; subst; exact Hone |].
  destruct (String.eqb (types.Status pr) types.StatusFailed);
    [inversion H; subst; exact Hone |].
  destruct (String.eqb (types.Status pr) types.StatusCanceled);
    [inversion H; subst; exact Hone |].
  apply IH in H as (n & Hn & Hreqs). exists (S n). split; [lia |].
  rewrite Hreqs, Hreq, <- app_assoc. reflexivity.
Qed.

(** X19: all a wait does to the outside is poll: the requests it adds are
    GET requests for this one prediction, at most one per round of the
    loop.  It downloads nothing, draws no storage ID and leaves the disk
    as it was, however it ends. *)
Theorem wait_only_polls env fuel c ctx predictionID timeout st p err st' :
  client.WaitForCompletion env fuel c ctx predictionID timeout st = Some (p, err, st') ->
  (exists n, (n <= fuel)%nat /\
             requests st' = requests st ++ repeat (poll_request predictionID) n) /\
  downloads st' = downloads st /\
  uuids_drawn st' = uuids_drawn st /\
  disk st' = disk st.
Proof.
  intros H.
  pose proof (WaitForCompletion_frame _ _ _ _ _ _ _ _ _ _ H) as (Hd & Hdl & Hu).
  split; [| auto].
  revert H. unfold client.WaitForCompletion.
  pose proof (wait_deadline_frame env ctx timeout st) as (_ & _ & _ & Hreq).
  destruct (client.wait_deadline env ctx timeout st) as [deadline st0].
  simpl in Hreq. intros H. apply poll_requests in H. now rewrite <- Hreq.
Qed.

Lemma wait_only_polls_witness :
  (exists n, (n <= 100)%nat /\
             requests scenario.timed_out
             = requests scenario.started ++ repeat (poll_request "p1") n) /\
  downloads scenario.timed_out = downloads scenario.started /\
  uuids_drawn scenario.timed_out = uuids_drawn scenario.started /\
  disk scenario.timed_out = disk scenario.started.
Proof.
  apply (wait_only_polls scenario.env_lifecycle 100 scenario.c0 scenario.ctx0 "p1"
           (4 * time.Second) scenario.started
           (Some (scenario.prediction "p1" "processing" VNil VNil))
           (Some (client.timeout_error scenario.env_lifecycle (4 * time.Second)))
           scenario.timed_out).
  vm_compute. reflexivity.
Defined.

(** The loop ends when the context is done, with the context's error. *)
Lemma poll_cancelled env c ctx predictionID timeout deadline k :
  forall fuel st st1 e,
    running_rounds env c ctx predictionID deadline k st = Some st1 ->
    select env (selects st1) = CtxDone e ->
    (k < fuel)%nat ->
    client.poll env c ctx predictionID timeout deadline fuel st
    = Some (None, Some e, snd (select_case env st1)).
Proof.
  induction k as [| k IH]; intros fuel st st1 e Hrun Hsel Hfuel.
  - simpl in Hrun. inversion Hrun; subst st1.
    destruct fuel as [| fuel]; [lia |].
    simpl. unfold select_case. rewrite Hsel. reflexivity.
  - simpl in Hrun.
    destruct (running_round env c ctx predictionID deadline st) as [st2 |] eqn:Hround;
      [| discriminate].
    destruct fuel as [| fuel]; [lia |].
    rewrite (poll_running_round _ _ _ _ _ _ _ _ _ Hround).
    apply (IH fuel st2 st1); auto. lia.
Qed.

(** [ContinueGeneration] around the Replicate client, as the wait and
    what follows it. *)
Lemma ContinueGeneration_unfold env fuel c s dbg ctx predictionID storageID waitTime st :
  generation.ContinueGeneration env (generator_of env fuel c s dbg) ctx predictionID
    storageID waitTime st
  = match client.WaitForCompletion env fuel c ctx predictionID waitTime
            (snd (time_Now env st)) with
    | None => None
    | Some (prediction, err, st1) =>
        Some (generation.after_wait env (generator_of env fuel c s dbg) predictionID
                storageID (clock env (clock_reads st)) prediction err st1)
    end.
Proof. reflexivity. Qed.

(** X20: when the caller's context is done while the job is still
    running, the wait stops at once with the context's error and no
    prediction, [ContinueGeneration] passes that error on without a
    result, and the continue_operation tool answers operation_failed with
    the error's text.  Nothing is downloaded and the disk is as it
    was. *)
Theorem wait_cancelled env fuel c s dbg ctx predictionID storageID timeout st k st1 e :
  let started := snd (time_Now env st) in
  let deadline := fst (client.wait_deadline env ctx timeout started) in
  let polling := snd (client.wait_deadline env ctx timeout started) in
  running_rounds env c ctx predictionID deadline k polling = Some st1 ->
  select env (selects st1) = CtxDone e ->
  (k < fuel)%nat ->
  let st' := snd (select_case env st1) in
  client.WaitForCompletion env fuel c ctx predictionID timeout started
  = Some (None, Some e, st') /\
  generation.ContinueGeneration env (generator_of env fuel c s dbg) ctx predictionID
    storageID timeout st = Some (None, Some e, st') /\
  downloads st' = downloads st /\ disk st' = disk st /\
  forall h,
    handler.continue_response h predictionID storageID timeout None (Some e) st'
    = Some (handler.errorResponse "continue_operation" "operation_failed" (Error_string e)
              (Some (handler.prediction_details predictionID))).
Proof.
  intros started deadline polling Hrun Hsel Hfuel st'.
  assert (Hwait :
    client.WaitForCompletion env fuel c ctx predictionID timeout started
    = Some (None, Some e, st')).
  { unfold client.WaitForCompletion.
    rewrite (surjective_pairing (client.wait_deadline env ctx timeout started)).
    fold deadline polling.
    apply (poll_cancelled env c ctx predictionID timeout deadline k fuel polling st1 e
             Hrun Hsel Hfuel). }
  split; [exact Hwait |].
  split; [rewrite ContinueGeneration_unfold; fold started; rewrite Hwait; reflexivity |].
  apply WaitForCompletion_frame in Hwait as (Hd & Hdl & _).
  split; [exact Hdl |]. split; [exact Hd |].
  intros h. reflexivity.
Qed.

Lemma wait_cancelled_witness :
  generation.ContinueGeneration cases.env_cancelled
    (generator_of cases.env_cancelled 100 scenario.c0 scenario.s0 false) scenario.ctx0
    "p1" "00000000" (30 * time.Second) scenario.st0
  = Some (None, Some (errorString "context canceled"),
          snd (select_case cases.env_cancelled
                 (snd (client.wait_deadline cases.env_cancelled scenario.ctx0
                         (30 * time.Second)
                         (snd (time_Now cases.env_cancelled scenario.st0)))))).
Proof.
  refine (proj1 (proj2 (wait_cancelled cases.env_cancelled 100 scenario.c0 scenario.s0
                   false scenario.ctx0 "p1" "00000000" (30 * time.Second) scenario.st0 0
                   (snd (client.wait_deadline cases.env_cancelled scenario.ctx0
                           (30 * time.Second)
                           (snd (time_Now cases.env_cancelled scenario.st0))))
                   (errorString "context canceled") _ _ _))).
  - reflexivity.
  - reflexivity.
  - lia.
Defined.

(** X21: what the caller is told when the wait budget ends depends on the
    status the provider reports at that moment, and on nothing else.
    [ContinueGeneration] returns a result with that status together with
    the timeout error, without a download.  The tool answers with a
    processing response only when the status is "processing"; for every
    other status, "starting" and "succeeded" included, it answers
    operation_failed with the timeout message. *)
Theorem budget_end_answer env fuel c s dbg ctx predictionID storageID timeout
    st k st1 prediction st2 h :
  let started := snd (time_Now env st) in
  let deadline := fst (client.wait_deadline env ctx timeout started) in
  let polling := snd (client.wait_deadline env ctx timeout started) in
  running_rounds env c ctx predictionID deadline k polling = Some st1 ->
  select env (selects st1) = Tick ->
  clock env (clock_reads st1) > deadline ->
  client.GetPrediction env c ctx predictionID
    (snd (time_Now env (snd (select_case env st1)))) = (Ok prediction, st2) ->
  (k < fuel)%nat ->
  exists r st3,
    generation.ContinueGeneration env (generator_of env fuel c s dbg) ctx predictionID
      storageID timeout st
    = Some (Some r, Some (client.timeout_error env timeout), st3) /\
    generation.Status r = types.Status prediction /\
    generation.FilePath r = "" /\
    downloads st3 = downloads st /\ disk st3 = disk st /\
    handler.continue_response h predictionID storageID timeout (Some r)
      (Some (client.timeout_error env timeout)) st3
    = Some (if String.eqb (types.Status prediction) "processing"
            then handler.ProcessingText
                   (responses.BuildProcessingResponse "continue_operation" predictionID
                      storageID (time.whole_seconds timeout))
            else handler.errorResponse "continue_operation" "operation_failed"
                   ("operation timed out after " +:+ Duration_String env timeout)
                   (Some (handler.prediction_details predictionID))).
Proof.
  intros started deadline polling Hrun Hsel Hclock Hpoll Hfuel.
  assert (Hwait :
    client.WaitForCompletion env fuel c ctx predictionID timeout started
    = Some (Some prediction, Some (client.timeout_error env timeout), st2)).
  { unfold client.WaitForCompletion.
    rewrite (surjective_pairing (client.wait_deadline env ctx timeout started)).
    fold deadline polling.
    rewrite (poll_timeout env c ctx predictionID timeout deadline k fuel polling st1
               Hrun Hsel Hclock Hfuel).
    rewrite Hpoll. reflexivity. }
  rewrite ContinueGeneration_unfold. fold started. rewrite Hwait.
  cbn [generation.after_wait]. unfold time_Now.
  eexists _, _. split; [reflexivity |].
  apply WaitForCompletion_frame in Hwait as (Hd & Hdl & _).
  cbn [generation.Status generation.status_result generation.FilePath generation.ID
       downloads disk].
  split; [reflexivity |]. split; [reflexivity |].
  split; [exact Hdl |]. split; [exact Hd |].
  unfold handler.continue_response.
  cbn [generation.Status generation.status_result generation.ID].
  destruct (String.eqb (types.Status prediction) "processing"); reflexivity.
Qed.

Lemma budget_end_answer_witness :
  exists r st3,
    scenario.continue (4 * time.Second) scenario.submitted
    = Some (Some r, Some (client.timeout_error scenario.env_lifecycle (4 * time.Second)),
            st3) /\
    generation.Status r = "processing".
Proof.
  destruct (budget_end_answer scenario.env_lifecycle 100 scenario.c0 scenario.s0 false
              scenario.ctx0 "p1" "00000000" (4 * time.Second) scenario.submitted 2
              scenario.last_round (scenario.prediction "p1" "processing" VNil VNil)
              scenario.timed_out (scenario.h0 scenario.env_lifecycle)
              ltac:(vm_compute; reflexivity) ltac:(vm_compute; reflexivity)
              ltac:(vm_compute; reflexivity) ltac:(vm_compute; reflexivity)
              ltac:(lia))
    as (r & st3 & Hc & Hs & _).
  exists r, st3. split; [exact Hc | exact Hs].
Defined.

(** ** The orchestrator: submissions that fail *)

Lemma IsTextToVideoModel_config alias :
  generation.IsTextToVideoModel alias = true ->
  exists config, generation.GetModelConfig alias = Some config.
Proof.
  unfold generation.IsTextToVideoModel, generation.GetModelConfig.
  destruct (generation.ModelConfigs alias) as [config |]; [eauto | discriminate].
Qed.

(** A text-to-video submission whose model passes the checks fails only
    when the provider's client does, after the storage ID is drawn and
    before anything is written. *)
Lemma GenerateTextToVideo_failed env fuel c s dbg ctx params st e st' :
  generation.IsTextToVideoModel (generation.Model params) = true ->
  generation.GenerateTextToVideo env (generator_of env fuel c s dbg) ctx params st
  = (Err e, st') ->
  exists inner request,
    e = wrapError ("failed to create prediction: " +:+ Error_string inner) inner /\
    requests st' = requests st ++ [request] /\ Method request = "POST" /\
    uuids_drawn st' = S (uuids_drawn st) /\
    downloads st' = downloads st /\ disk st' = disk st.
Proof.
  intros Hmodel. destruct (IsTextToVideoModel_config _ Hmodel) as [config Hconfig].
  unfold generation.GenerateTextToVideo. unfold time_Now at 1. cbv beta iota.
  rewrite Hconfig, Hmodel. cbn [negb].
  cbn [generator_of generation.storage generation.client client.Client_CreatePrediction
       client.as_Client].
  match goal with
  | |- context [storage.GenerateStorageID env s ?x] =>
      pose proof (GenerateStorageID_state env s x) as Hst;
      destruct (storage.GenerateStorageID env s x) as [storageID st_b]
  end.
  cbn [snd] in Hst.
  match goal with
  | |- context [client.CreatePrediction env c ctx ?m ?i ?x] =>
      pose proof (CreatePrediction_frame env c ctx m i x) as (Hreq & Hdl & _ & Hu & Hd);
      destruct (client.CreatePrediction env c ctx m i x) as [res st_c]
  end.
  cbn [snd] in Hreq, Hdl, Hu, Hd.
  destruct res as [prediction | inner].
  { destruct (storage.SaveMetadata env s storageID _ st_c). unfold time_Now.
    intros H; inversion H. }
  intros H; inversion H; subst e st'; clear H.
  subst st_b. unfold rand_Read in *. cbn in Hreq, Hdl, Hu, Hd.
  exists inner, (client.create_request (generation.cfg_ID config)
                   (generation.buildTextToVideoInput params config)).
  split; [reflexivity |]. split; [exact Hreq |].
  split; [apply create_request_method |]. auto.
Qed.

(** X22: a submission for a model that does not support the tool's kind
    of generation, or that is not known at all, is rejected before
    anything happens: whatever the client, the call has only read the
    clock.  The error names the model and wraps nothing. *)
Theorem submit_rejects_model env g ctx (image : bool) params st :
  (if image then generation.IsImageToVideoModel (generation.Model params)
   else generation.IsTextToVideoModel (generation.Model params)) = false ->
  exists e,
    Submit image env g ctx params st = (Err e, snd (time_Now env st)) /\
    Unwrap e = None /\
    Error_string e
    = match generation.GetModelConfig (generation.Model params) with
      | None => "unknown model: " +:+ generation.Model params
      | Some _ =>
          "model " +:+ generation.Model params +:+ " does not support "
          +:+ (if image then "image-to-video" else "text-to-video")
      end.
Proof.
  intros Hmodel. unfold Submit. destruct image.
  - unfold generation.GenerateImageToVideo. unfold time_Now at 1. cbv beta iota.
    destruct (generation.GetModelConfig (generation.Model params)) as [config |].
    + rewrite Hmodel. cbn [negb]. eexists. split; [reflexivity |].
      split; reflexivity.
    + eexists. split; [reflexivity |]. split; reflexivity.
  - unfold generation.GenerateTextToVideo. unfold time_Now at 1. cbv beta iota.
    destruct (generation.GetModelConfig (generation.Model params)) as [config |].
    + rewrite Hmodel. cbn [negb]. eexists. split; [reflexivity |].
      split; reflexivity.
    + eexists. split; [reflexivity |]. split; reflexivity.
Qed.

Lemma submit_rejects_model_witness :
  exists e,
    Submit false scenario.env_lifecycle (scenario.g0 scenario.env_lifecycle) scenario.ctx0
      (generate.set_Model "wan-i2v-fast" scenario.cat) scenario.st0
    = (Err e, snd (time_Now scenario.env_lifecycle scenario.st0)) /\
    Unwrap e = None /\
    Error_string e = "model wan-i2v-fast does not support text-to-video".
Proof.
  apply (submit_rejects_model scenario.env_lifecycle (scenario.g0 scenario.env_lifecycle)
           scenario.ctx0 false (generate.set_Model "wan-i2v-fast" scenario.cat)
           scenario.st0).
  reflexivity.
Defined.

(** X23: the generate_video_from_text tool ends in one of three ways.
    Arguments that fail the extraction are answered invalid_parameters in
    the state as it was.  Arguments that pass it always reach the
    provider, because the model the extraction accepted passes the
    orchestrator's checks too: one storage ID is drawn and one POST is
    sent, and then either the client's error is answered as
    generation_failed with nothing written, or the call is answered
    with a processing response that carries an eight-character storage
    ID and a wait of 30 seconds. *)
Theorem text_tool_outcomes env fuel c s dbg hs ctx args st answer st' :
  generate.handleGenerateVideoFromText env
    {| handler.generator := generator_of env fuel c s dbg; handler.storage := hs |}
    ctx args st = (answer, st') ->
  (exists e,
     snd (generate.extractTextToVideoParams env args) = Some e /\
     answer = generate.answered
                (handler.errorResponse "generate_video_from_text" "invalid_parameters"
                   (Error_string e) None) /\
     st' = st) \/
  (snd (generate.extractTextToVideoParams env args) = None /\
   (exists request, requests st' = requests st ++ [request] /\ Method request = "POST") /\
   uuids_drawn st' = S (uuids_drawn st) /\
   downloads st' = downloads st /\
   ((exists e,
       answer = generate.answered
                  (handler.errorResponse "generate_video_from_text" "generation_failed"
                     ("failed to create prediction: " +:+ Error_string e) None) /\
       disk st' = disk st) \/
    (exists predictionID storageID,
       answer = generate.processingResponse "generate_video_from_text" predictionID
                  storageID 30 /\
       String.length storageID = 8%nat))).
Proof.
  unfold generate.handleGenerateVideoFromText. cbn [handler.generator].
  destruct (generate.extractTextToVideoParams env args) as [params [e |]] eqn:Hextract.
  { intros H; inversion H; subst. left. exists e. auto. }
  pose proof (extractTextToVideoParams_model _ _ _ Hextract) as Hmodel.
  destruct (generation.GenerateTextToVideo env (generator_of env fuel c s dbg) ctx params st)
    as [[r | e] st1] eqn:Hgen; intros H; inversion H; subst answer st'; clear H; right;
    (split; [reflexivity |]).
  - apply GenerateTextToVideo_once in Hgen as (_ & Hlen & Hreq & _ & Hdl & Hu).
    split; [exact Hreq |]. split; [exact Hu |]. split; [exact Hdl |].
    right. eauto.
  - apply GenerateTextToVideo_failed in Hgen as (inner & request & -> & Hreq & Hm & Hu & Hdl & Hd);
      [| exact Hmodel].
    split; [eauto |]. split; [exact Hu |]. split; [exact Hdl |].
    left. exists inner. split; [reflexivity | exact Hd].
Qed.

Lemma text_tool_outcomes_witness :
  (exists e,
     snd (generate.extractTextToVideoParams scenario.env_lifecycle
            (<["prompt" := VString "a cat"]> ∅)) = Some e /\
     fst cases.text_call
     = generate.answered
         (handler.errorResponse "generate_video_from_text" "invalid_parameters"
            (Error_string e) None) /\
     snd cases.text_call = scenario.st0) \/
  (snd (generate.extractTextToVideoParams scenario.env_lifecycle
          (<["prompt" := VString "a cat"]> ∅)) = None /\
   (exists request,
      requests (snd cases.text_call) = requests scenario.st0 ++ [request] /\
      Method request = "POST") /\
   uuids_drawn (snd cases.text_call) = S (uuids_drawn scenario.st0) /\
   downloads (snd cases.text_call) = downloads scenario.st0 /\
   ((exists e,
       fst cases.text_call
       = generate.answered
           (handler.errorResponse "generate_video_from_text" "generation_failed"
              ("failed to create prediction: " +:+ Error_string e) None) /\
       disk (snd cases.text_call) = disk scenario.st0) \/
    (exists predictionID storageID,
       fst cases.text_call
       = generate.processingResponse "generate_video_from_text" predictionID
           storageID 30 /\
       String.length storageID = 8%nat))).
Proof.
  apply (text_tool_outcomes scenario.env_lifecycle 100 scenario.c0 scenario.s0 false
           scenario.s0 scenario.ctx0 (<["prompt" := VString "a cat"]> ∅) scenario.st0
           (fst cases.text_call) (snd cases.text_call)).
  vm_compute. reflexivity.
Defined.

(** ** The orchestrator: the input image *)

Lemma SaveInputImage_absent env s storageID imagePath st :
  disk st !! storageID = None ->
  exists e, storage.SaveInputImage env s storageID imagePath st = (Err e, st).
Proof.
  intros Hdir. unfold storage.SaveInputImage, storage.WriteFile.
  destruct (ReadFile env imagePath) as [data | e]; [| eauto].
  rewrite Hdir. eauto.
Qed.

(** X24: an image-to-video submission tries to copy the input image into
    the storage folder before that folder exists.  With a storage ID
    that is new to the disk the copy fails, the failure is passed over,
    and what the submission leaves on disk is the folder with the record
    alone: the record names the input image, and no copy of it is
    kept. *)
Theorem input_image_not_kept env fuel c s dbg ctx params st r st' :
  generation.GenerateImageToVideo env (generator_of env fuel c s dbg) ctx params st
  = (Ok r, st') ->
  disk st !! generation.ID r = None ->
  exists metadata,
    disk st'
    = <[generation.ID r := Folder (<["metadata.yaml" := Document metadata]> ∅)]> (disk st) /\
    metadata !! "input_image" = Some (VString (generation.ImagePath params)) /\
    metadata !! "prediction_id" = Some (VString (generation.PredictionID r)).
Proof.
  unfold generation.GenerateImageToVideo. unfold time_Now at 1. cbv beta iota.
  destruct (generation.GetModelConfig (generation.Model params)) as [config |];
    [| intros H; inversion H].
  destruct (negb (generation.IsImageToVideoModel (generation.Model params)));
    [intros H; inversion H |].
  cbn [generator_of generation.storage generation.client client.Client_CreatePrediction
       client.as_Client].
  destruct (storage.ImageToDataURL env s (generation.ImagePath params)) as [dataURL | e];
    [| intros H; inversion H].
  match goal with
  | |- context [storage.GenerateStorageID env s ?x] =>
      pose proof (GenerateStorageID_state env s x) as Hst;
      destruct (storage.GenerateStorageID env s x) as [storageID st_b]
  end.
  cbn [snd] in Hst.
  destruct (storage.SaveInputImage env s storageID (generation.ImagePath params) st_b)
    as [saved st_i] eqn:Himg.
  match goal with
  | |- context [client.CreatePrediction env c ctx ?m ?i ?x] =>
      pose proof (CreatePrediction_frame env c ctx m i x) as (_ & _ & _ & _ & Hd);
      destruct (client.CreatePrediction env c ctx m i x) as [res st_c]
  end.
  cbn [snd] in Hd.
  destruct res as [prediction | e]; [| intros H; inversion H].
  match goal with
  | |- context [storage.SaveMetadata env s storageID ?m st_c] =>
      destruct (storage.SaveMetadata env s storageID m st_c) as [err st_d] eqn:Hsave
  end.
  unfold time_Now. intros H. inversion H; clear H; try subst r; try subst st'.
  cbn [generation.ID generation.PredictionID generation.submission_result disk].
  intros Hfresh.
  assert (Hb : disk st_b = disk st) by (subst st_b; reflexivity).
  destruct (SaveInputImage_absent env s storageID (generation.ImagePath params) st_b)
    as [e He]; [now rewrite Hb |].
  rewrite He in Himg. inversion Himg; subst saved st_i; clear Himg.
  rewrite Hb in Hd.
  revert Hsave. unfold storage.SaveMetadata, storage.CreateStorageFolder,
    storage.MkdirAll, storage.WriteFile, time_Now, set_disk.
  rewrite Hd, Hfresh. simpl. rewrite lookup_insert_eq. simpl.
  intros Hsave. inversion Hsave; subst err st_d; clear Hsave. simpl.
  eexists. split; [rewrite insert_insert_eq; reflexivity |].
  unfold generation.submission_metadata.
  split; by simplify_map_eq.
Qed.

Lemma input_image_not_kept_witness :
  exists metadata,
    disk (snd cases.image_submission)
    = <[generation.ID cases.image_result :=
          Folder (<["metadata.yaml" := Document metadata]> ∅)]> (disk scenario.st0) /\
    metadata !! "input_image" = Some (VString (generation.ImagePath cases.moving_cat)) /\
    metadata !! "prediction_id"
    = Some (VString (generation.PredictionID cases.image_result)).
Proof.
  apply (input_image_not_kept cases.env_image 100 scenario.c0 scenario.s0 false
           scenario.ctx0 cases.moving_cat scenario.st0 cases.image_result
           (snd cases.image_submission)).
  - vm_compute. reflexivity.
  - vm_compute. reflexivity.
Defined.

(** ** The orchestrator: what a continue leaves on disk *)

Lemma LoadMetadata_disk s id st st' :
  disk st' = disk st -> storage.LoadMetadata s id st' = storage.LoadMetadata s id st.
Proof.
  intros H. unfold storage.LoadMetadata, storage.os_ReadFile. now rewrite H.
Qed.

(** What follows the wait rewrites no record when it ends in an error. *)
Lemma after_wait_error env g predictionID storageID startTime prediction err st r e st' :
  generation.after_wait env g predictionID storageID startTime prediction err st
  = (r, Some e, st') ->
  forall id, storage.LoadMetadata (generation.storage g) id st'
             = storage.LoadMetadata (generation.storage g) id st.
Proof.
  unfold generation.after_wait. intros H id.
  destruct err as [e0 |].
  { destruct prediction; unfold time_Now in H; inversion H; subst;
      apply LoadMetadata_disk; reflexivity. }
  destruct prediction as [prediction |]; [| inversion H].
  destruct (negb (String.eqb (types.Status prediction) types.StatusSucceeded)).
  { unfold time_Now in H. inversion H; subst. apply LoadMetadata_disk. reflexivity. }
  destruct (types.Output prediction) as [| | | | url | |];
    try (inversion H; subst; reflexivity).
  pose proof (SaveVideoFromURL_records env (generation.storage g) url storageID st id)
    as Hrec.
  destruct (storage.SaveVideoFromURL env (generation.storage g) url storageID "" st)
    as [[[videoPath fileSize] | e1] st2].
  - unfold time_Now at 1 in H.
    match type of H with
    | context [storage.SaveMetadata env ?s ?i ?m ?x] =>
        destruct (storage.SaveMetadata env s i m x) as [err2 st3]
    end.
    unfold time_Now in H. inversion H.
  - inversion H; subst. exact Hrec.
Qed.

(** X25: a continue that ends in an error rewrites no record: for every
    storage ID, [LoadMetadata] returns after it what it returned before
    it.  That holds for a timeout, for a job that failed or was
    canceled, for an output that is not a URL and for a download that
    failed; the status of a dead job is returned to the caller and not
    written down. *)
Theorem failed_continue_keeps_records env fuel c s dbg ctx predictionID storageID
    waitTime st r e st' :
  generation.ContinueGeneration env (generator_of env fuel c s dbg) ctx predictionID
    storageID waitTime st = Some (r, Some e, st') ->
  forall id, storage.LoadMetadata s id st' = storage.LoadMetadata s id st.
Proof.
  rewrite ContinueGeneration_unfold.
  destruct (client.WaitForCompletion env fuel c ctx predictionID waitTime
              (snd (time_Now env st))) as [[[prediction err] st1] |] eqn:Hwait;
    [| discriminate].
  intros H id. inversion H as [Hafter]; clear H.
  apply WaitForCompletion_frame in Hwait as (Hd & _).
  pose proof (after_wait_error _ _ _ _ _ _ _ _ _ _ _ Hafter id) as Hrec.
  cbn [generator_of generation.storage] in Hrec. rewrite Hrec.
  apply LoadMetadata_disk. exact Hd.
Qed.

Lemma failed_continue_keeps_records_witness :
  storage.LoadMetadata scenario.s0 "00000000" scenario.waited
  = storage.LoadMetadata scenario.s0 "00000000" scenario.submitted.
Proof.
  refine (failed_continue_keeps_records scenario.env_lifecycle 100 scenario.c0
            scenario.s0 false scenario.ctx0 "p1" "00000000" (4 * time.Second)
            scenario.submitted (Some cases.waited_result)
            (client.timeout_error scenario.env_lifecycle (4 * time.Second))
            scenario.waited _ "00000000").
  vm_compute. reflexivity.
Defined.

(** What a continue that completes has done, step by step. *)
Lemma continue_completed_steps env fuel c s dbg ctx predictionID storageID waitTime
    st r st' :
  generation.ContinueGeneration env (generator_of env fuel c s dbg) ctx predictionID
    storageID waitTime st = Some (Some r, None, st') ->
  exists url videoPath fileSize st1 st2,
    storage.SaveVideoFromURL env s url storageID "" st1 = (Ok (videoPath, fileSize), st2) /\
    disk st1 = disk st /\
    st' = snd (time_Now env
                 (snd (storage.SaveMetadata env s storageID
                         (generation.completion_metadata predictionID url videoPath fileSize
                            (Format_RFC3339 env (clock env (clock_reads st2))))
                         (snd (time_Now env st2))))) /\
    r = {| generation.ID := storageID; generation.FilePath := videoPath;
           generation.r_Model := ""; generation.ModelName := "";
           generation.PredictionID := predictionID; generation.Parameters := ∅;
           generation.Metrics :=
             generation.metrics
               (time.Seconds
                  (clock env
                     (clock_reads
                        (snd (storage.SaveMetadata env s storageID
                                (generation.completion_metadata predictionID url videoPath
                                   fileSize
                                   (Format_RFC3339 env (clock env (clock_reads st2))))
                                (snd (time_Now env st2)))))
                   - clock env (clock_reads st)))
               fileSize;
           generation.Status := "completed" |}.
Proof.
  rewrite ContinueGeneration_unfold.
  destruct (client.WaitForCompletion env fuel c ctx predictionID waitTime
              (snd (time_Now env st))) as [[[prediction err] st1] |] eqn:Hwait;
    [| discriminate].
  apply WaitForCompletion_frame in Hwait as (Hd & _).
  unfold generation.after_wait.
  destruct err as [e |].
  { destruct prediction; unfold time_Now; intros H; inversion H. }
  destruct prediction as [prediction |]; [| intros H; inversion H].
  destruct (negb (String.eqb (types.Status prediction) types.StatusSucceeded)).
  { unfold time_Now; intros H; inversion H. }
  destruct (types.Output prediction) as [| | | | url | |];
    try (intros H; inversion H; fail).
  cbn [generator_of generation.storage].
  destruct (storage.SaveVideoFromURL env s url storageID "" st1)
    as [[[videoPath fileSize] | e1] st2] eqn:Hsave; [| intros H; inversion H].
  unfold time_Now at 1.
  match goal with
  | |- context [storage.SaveMetadata env s storageID ?m ?x] =>
      destruct (storage.SaveMetadata env s storageID m x) as [err2 st3] eqn:Hmeta
  end.
  unfold time_Now at 1. intros H. inversion H; subst r st'; clear H.
  exists url, videoPath, fileSize, st1, st2.
  split; [exact Hsave |]. split; [exact Hd |].
  change {| requests := requests st2; downloads := downloads st2;
            clock_reads := S (clock_reads st2); selects := selects st2;
            uuids_drawn := uuids_drawn st2; disk := disk st2 |}
    with (snd (time_Now env st2)) in Hmeta.
  rewrite Hmeta. split; reflexivity.
Qed.

(** A download that succeeds leaves a folder with the video in it. *)
Lemma SaveVideoFromURL_stored env s url storageID st path size st' :
  storage.SaveVideoFromURL env s url storageID "" st = (Ok (path, size), st') ->
  exists body files,
    size = Z.of_nat (String.length body) /\
    disk st' !! storageID = Some (Folder files) /\
    files !! ("video" +:+ storage.video_ext url) = Some (Bytes body).
Proof.
  unfold storage.SaveVideoFromURL, storage.CreateStorageFolder, storage.MkdirAll,
    storage.WriteFile, http_Get, set_disk.
  rewrite video_filename_default.
  destruct (disk st !! storageID) as [[data | files] |] eqn:Hdir; simpl.
  - discriminate.
  - destruct (cdn env (length (downloads st))) as [e | status body ce]; simpl;
      [discriminate |].
    destruct (negb (status =? 200)); simpl; [discriminate |].
    rewrite Hdir. destruct ce; simpl; [discriminate |].
    intros H; inversion H; subst; clear H. eexists body, _. simpl.
    rewrite lookup_insert_eq. split; [reflexivity |]. split; [reflexivity |].
    apply lookup_insert_eq.
  - destruct (cdn env (length (downloads st))) as [e | status body ce]; simpl;
      [discriminate |].
    destruct (negb (status =? 200)); simpl; [discriminate |].
    rewrite lookup_insert_eq. destruct ce; simpl; [discriminate |].
    intros H; inversion H; subst; clear H. eexists body, _. simpl.
    rewrite lookup_insert_eq. split; [reflexivity |]. split; [reflexivity |].
    apply lookup_insert_eq.
Qed.

(** X26: a continue that completes leaves on disk what it returns: the
    record under its storage ID has the status "completed", names the
    remote job, and carries the path and the size of the result; the
    video file holds as many bytes as that size; and the result carries
    the storage ID and the job ID it was called with. *)
Theorem completed_continue_record env fuel c s dbg ctx predictionID storageID
    waitTime st r st' :
  generation.ContinueGeneration env (generator_of env fuel c s dbg) ctx predictionID
    storageID waitTime st = Some (Some r, None, st') ->
  exists metadata url body,
    storage.LoadMetadata s storageID st' = Ok metadata /\
    metadata !! "status" = Some (VString "completed") /\
    metadata !! "prediction_id" = Some (VString predictionID) /\
    metadata !! "output_url" = Some (VString url) /\
    metadata !! "output_path" = Some (VString (generation.FilePath r)) /\
    metadata !! "file_size"
    = Some (VInt (generation.FileSize (generation.Metrics r))) /\
    file_at st' storageID ("video" +:+ storage.video_ext url) = Some (Bytes body) /\
    generation.FileSize (generation.Metrics r) = Z.of_nat (String.length body) /\
    generation.ID r = storageID /\ generation.PredictionID r = predictionID.
Proof.
  intros H.
  apply continue_completed_steps in H
    as (url & videoPath & fileSize & st1 & st2 & Hsave & Hd & -> & ->).
  apply SaveVideoFromURL_stored in Hsave as (body & files & Hsize & Hfolder & Hfile).
  set (metadata := generation.completion_metadata predictionID url videoPath fileSize
                     (Format_RFC3339 env (clock env (clock_reads st2)))).
  set (saved := storage.SaveMetadata env s storageID metadata (snd (time_Now env st2))).
  assert (Hok : fst saved = None).
  { apply (SaveMetadata_succeeds env s storageID metadata _ files). exact Hfolder. }
  assert (Hmeta : storage.SaveMetadata env s storageID metadata (snd (time_Now env st2))
                  = (None, snd saved)).
  { fold saved. rewrite <- Hok. apply surjective_pairing. }
  pose proof (SaveMetadata_replaces _ _ _ _ _ _ Hmeta) as Hload.
  eexists _, url, body.
  split; [rewrite (LoadMetadata_disk s storageID (snd saved)) by reflexivity; exact Hload |].
  cbn [generation.FilePath generation.Metrics generation.FileSize generation.metrics
       generation.ID generation.PredictionID].
  subst metadata. unfold generation.completion_metadata.
  do 5 (split; [by simplify_map_eq |]).
  split.
  { change (file_at (snd (time_Now env (snd saved))) storageID
              ("video" +:+ storage.video_ext url))
      with (file_at (snd saved) storageID ("video" +:+ storage.video_ext url)).
    subst saved. rewrite SaveMetadata_files by (right; apply video_name_not_metadata).
    unfold file_at. cbn [time_Now snd disk]. rewrite Hfolder. exact Hfile. }
  split; [exact Hsize |]. split; reflexivity.
Qed.

Lemma completed_continue_record_witness :
  exists metadata url body,
    storage.LoadMetadata scenario.s0 "00000000" scenario.completed = Ok metadata /\
    metadata !! "status" = Some (VString "completed") /\
    metadata !! "prediction_id" = Some (VString "p1") /\
    metadata !! "output_url" = Some (VString url) /\
    metadata !! "output_path"
    = Some (VString (generation.FilePath scenario.completed_result)) /\
    metadata !! "file_size"
    = Some (VInt (generation.FileSize (generation.Metrics scenario.completed_result))) /\
    file_at scenario.completed "00000000" ("video" +:+ storage.video_ext url)
    = Some (Bytes body) /\
    generation.FileSize (generation.Metrics scenario.completed_result)
    = Z.of_nat (String.length body) /\
    generation.ID scenario.completed_result = "00000000" /\
    generation.PredictionID scenario.completed_result = "p1".
Proof.
  apply (completed_continue_record scenario.env_lifecycle 100 scenario.c0 scenario.s0
           false scenario.ctx0 "p1" "00000000" (60 * time.Second) scenario.waited
           scenario.completed_result scenario.completed).
  vm_compute. reflexivity.
Defined.

(** ** The continue_operation tool: which folder a job resolves to *)

Lemma leb_le (a b : string) :
  String.leb a b = true <-> OrderedTypeEx.String_as_OT.lt a b \/ a = b.
Proof.
  unfold String.leb. split.
  - destruct (String.compare a b) eqn:Hc; [| | discriminate]; intros _.
    + right. now apply String.compare_eq_iff.
    + left. now apply OrderedTypeEx.String_as_OT.cmp_lt.
  - intros [Hlt | ->].
    + apply OrderedTypeEx.String_as_OT.cmp_lt in Hlt.
      unfold OrderedTypeEx.String_as_OT.cmp in Hlt. now rewrite Hlt.
    + assert (Hc : String.compare b b = Eq)
        by (now apply OrderedTypeEx.String_as_OT.cmp_eq).
      now rewrite Hc.
Qed.

Lemma leb_refl (a : string) : String.leb a a = true.
Proof. apply leb_le. now right. Qed.

Lemma leb_trans (a b c : string) :
  String.leb a b = true -> String.leb b c = true -> String.leb a c = true.
Proof.
  rewrite !leb_le. intros [Hab | ->] [Hbc | ->]; auto.
  left. eapply OrderedTypeEx.String_as_OT.lt_trans; eauto.
Qed.

Lemma insert_by_name_sorted x l :
  Sorted.StronglySorted (fun a b => String.leb (fst a) (fst b) = true) l ->
  Sorted.StronglySorted (fun a b => String.leb (fst a) (fst b) = true)
    (storage.insert_by_name x l).
Proof.
  induction l as [| y l IH]; intros Hs; simpl.
  - constructor; constructor.
  - apply Sorted.StronglySorted_inv in Hs as [Hl Hy].
    destruct (String.leb (fst x) (fst y)) eqn:Hxy.
    + constructor; [constructor; assumption |].
      constructor; [exact Hxy |].
      eapply Forall_impl; [exact Hy |]. intros z Hz. simpl in Hz.
      eapply leb_trans; eauto.
    + constructor; [apply IH; exact Hl |].
      apply Forall_forall. intros z Hz.
      apply elem_of_insert_by_name in Hz as [-> | Hz].
      * destruct (String.leb_total (fst x) (fst y)) as [H | H]; [congruence | exact H].
      * rewrite Forall_forall in Hy. now apply Hy.
Qed.

(** [ReadDir] lists the root in name order. *)
Lemma ReadDir_sorted st :
  Sorted.StronglySorted (fun a b => String.leb (fst a) (fst b) = true) (storage.ReadDir st).
Proof.
  unfold storage.ReadDir, storage.sort_by_name.
  induction (map_to_list (disk st)) as [| x l IH]; simpl.
  - constructor.
  - now apply insert_by_name_sorted.
Qed.

(** On a list in name order the scan returns the first match. *)
Lemma scan_first h predictionID st entries found :
  Sorted.StronglySorted (fun a b => String.leb (fst a) (fst b) = true) entries ->
  (forall name entry, (name, entry) ∈ entries -> disk st !! name = Some entry) ->
  handler.scan h predictionID entries st = Some found ->
  forall other entry,
    (other, entry) ∈ entries ->
    holds_prediction st other predictionID ->
    String.leb found other = true.
Proof.
  induction entries as [| [name e] rest IH]; simpl; [discriminate |].
  intros Hs Hin Hscan other entry Hmem Hholds.
  apply Sorted.StronglySorted_inv in Hs as [Hrest Hhead].
  assert (Hin' : forall n x, (n, x) ∈ rest -> disk st !! n = Some x).
  { intros n x Hnx. apply Hin. apply elem_of_cons. now right. }
  assert (Htail : handler.scan h predictionID rest st = Some found ->
                  (other, entry) ∈ rest -> String.leb found other = true).
  { intros Hscan' Hmem'. eapply IH; eauto. }
  assert (Hhit : found = name -> String.leb found other = true).
  { intros ->. apply elem_of_cons in Hmem as [Heq | Hmem].
    - inversion Heq; subst. apply leb_refl.
    - rewrite Forall_forall in Hhead. apply (Hhead _ Hmem). }
  apply (holds_prediction_load (handler.storage h)) in Hholds
    as (entry' & metadata & Hdisk & Hisdir & Hload & Hid).
  assert (Hskip : handler.scan h predictionID rest st = Some found ->
                  (other, entry) = (name, e) ->
                  storage.IsDir e = true /\
                  storage.LoadMetadata (handler.storage h) name st = Ok metadata).
  { intros _ Heq. inversion Heq; subst other entry.
    rewrite (Hin name e) in Hdisk by (apply elem_of_cons; now left).
    inversion Hdisk; subst entry'. auto. }
  apply elem_of_cons in Hmem as Hcases.
  destruct (storage.IsDir e) eqn:He; simpl in Hscan.
  2: { destruct Hcases as [Heq | Hmem']; [| now apply Htail].
       destruct (Hskip Hscan Heq) as [Habs _]. discriminate. }
  destruct (storage.LoadMetadata (handler.storage h) name st) as [m | err] eqn:Hm.
  2: { destruct Hcases as [Heq | Hmem']; [| now apply Htail].
       destruct (Hskip Hscan Heq) as [_ Habs]. discriminate. }
  destruct (as_string (m !! "prediction_id")) as [metaPredID |] eqn:Hp.
  2: { destruct Hcases as [Heq | Hmem']; [| now apply Htail].
       destruct (Hskip Hscan Heq) as [_ Habs]. inversion Habs; subst m. congruence. }
  destruct (String.eqb_spec metaPredID predictionID) as [-> | Hne].
  { inversion Hscan. now apply Hhit. }
  destruct Hcases as [Heq | Hmem']; [| now apply Htail].
  destruct (Hskip Hscan Heq) as [_ Habs]. inversion Habs; subst m. congruence.
Qed.

(** X27: [findStorageIDForPrediction] returns a folder only when that
    folder holds a record for the job, and then the one that comes first
    in name order among all the folders that do; it fails only when no
    folder holds such a record.  Plain files and folders whose record
    cannot be read are passed over. *)
Theorem find_first_by_name h predictionID st :
  match handler.findStorageIDForPrediction h predictionID st with
  | Ok found =>
      holds_prediction st found predictionID /\
      forall other, holds_prediction st other predictionID ->
                    String.leb found other = true
  | Err _ => forall storageID, ~ holds_prediction st storageID predictionID
  end.
Proof.
  unfold handler.findStorageIDForPrediction.
  destruct (handler.scan h predictionID (storage.ReadDir st) st) as [found |] eqn:Hscan.
  - split.
    + eapply scan_sound; [exact Hscan |]. intros n e. apply elem_of_ReadDir.
    + intros other Hholds.
      pose proof Hholds as (files & metadata & Hdir & _).
      eapply (scan_first h predictionID st (storage.ReadDir st) found
                (ReadDir_sorted st)); eauto.
      * intros n e. apply elem_of_ReadDir.
      * apply elem_of_ReadDir. exact Hdir.
  - intros storageID Hholds.
    pose proof Hholds as (files & metadata & Hdir & _).
    destruct (scan_complete h predictionID st (storage.ReadDir st) storageID (Folder files))
      as [found Hfound]; auto.
    + now apply elem_of_ReadDir.
    + congruence.
Qed.

(** ** The continue_operation tool: its answers *)

Lemma resolve_storage_id_frame env h operationID st :
  let st' := snd (handler.resolve_storage_id env h operationID st) in
  disk st' = disk st /\ downloads st' = downloads st /\ requests st' = requests st.
Proof.
  unfold handler.resolve_storage_id, handler.generateStorageID.
  destruct (handler.findStorageIDForPrediction h operationID st) as [storageID | e].
  - destruct (String.eqb storageID ""); simpl; auto.
  - simpl. auto.
Qed.

(** A result with another status than "completed" comes without a
    download and without a write. *)
Lemma after_wait_not_completed env g predictionID storageID startTime prediction err st
    r err' st' :
  generation.after_wait env g predictionID storageID startTime prediction err st
  = (Some r, err', st') ->
  generation.Status r <> "completed" ->
  disk st' = disk st /\ downloads st' = downloads st /\ generation.ID r = storageID.
Proof.
  unfold generation.after_wait. intros H Hstatus.
  destruct err as [e0 |].
  { destruct prediction; unfold time_Now in H; inversion H; subst; auto. }
  destruct prediction as [prediction |]; [| inversion H].
  destruct (negb (String.eqb (types.Status prediction) types.StatusSucceeded)).
  { unfold time_Now in H. inversion H; subst. auto. }
  destruct (types.Output prediction) as [| | | | url | |]; try (inversion H; fail).
  destruct (storage.SaveVideoFromURL env (generation.storage g) url storageID "" st)
    as [[[videoPath fileSize] | e1] st2]; [| inversion H].
  unfold time_Now at 1 in H.
  match type of H with
  | context [storage.SaveMetadata env ?s ?i ?m ?x] =>
      destruct (storage.SaveMetadata env s i m x) as [err2 st3]
  end.
  unfold time_Now in H. inversion H; subst r. exfalso. apply Hstatus. reflexivity.
Qed.

(** X28: a processing answer of the continue_operation tool means that
    nothing was downloaded and nothing written: the disk is as it was
    before the call.  The answer names the operation ID of the call and
    tells the caller to wait the budget of the call, a number of whole
    seconds from 5 to 60. *)
Theorem processing_answer env fuel c s dbg hs ctx args st r st' :
  handler.handleContinueOperation env
    {| handler.generator := generator_of env fuel c s dbg; handler.storage := hs |}
    ctx args st = Some (handler.ProcessingText r, st') ->
  handler.operation_id args = Some (types.pr_PredictionID r) /\
  types.pr_Status r = "processing" /\
  types.pr_Operation r = "continue_operation" /\
  types.pr_WaitTime r = time.whole_seconds (handler.wait_time env args) /\
  5 <= types.pr_WaitTime r <= 60 /\
  downloads st' = downloads st /\ disk st' = disk st.
Proof.
  unfold handler.handleContinueOperation.
  destruct (handler.operation_id args) as [operationID |]; [| intros H; inversion H].
  pose proof (resolve_storage_id_frame env
                {| handler.generator := generator_of env fuel c s dbg;
                   handler.storage := hs |} operationID st) as (Hd0 & Hdl0 & _).
  destruct (handler.resolve_storage_id env _ operationID st) as [storageID st0].
  cbn [snd] in Hd0, Hdl0. cbn [handler.generator].
  rewrite ContinueGeneration_unfold.
  destruct (client.WaitForCompletion env fuel c ctx operationID (handler.wait_time env args)
              (snd (time_Now env st0))) as [[[prediction err] st1] |] eqn:Hwait;
    [| discriminate].
  apply WaitForCompletion_frame in Hwait as (Hd1 & Hdl1 & _).
  cbn [time_Now snd disk downloads] in Hd1, Hdl1.
  destruct (generation.after_wait env (generator_of env fuel c s dbg) operationID storageID
              (clock env (clock_reads st0)) prediction err st1)
    as [[result err'] st2] eqn:Hafter.
  assert (Hproc : forall r0, result = Some r0 -> generation.Status r0 = "processing" ->
                             disk st2 = disk st /\ downloads st2 = downloads st).
  { intros r0 -> Hs.
    apply after_wait_not_completed in Hafter as (Hd2 & Hdl2 & _);
      [| rewrite Hs; discriminate].
    split; congruence. }
  pose proof (wait_time_range env args) as Hrange.
  assert (Hsec : 5 <= time.whole_seconds (handler.wait_time env args) <= 60).
  { unfold time.whole_seconds, time.Second in *.
    rewrite Z.quot_div_nonneg by lia. split.
    - apply Z.div_le_lower_bound; lia.
    - apply Z.div_le_upper_bound; lia. }
  unfold handler.continue_response.
  destruct err' as [e |]; destruct result as [r0 |];
    try destruct (String.eqb_spec (generation.Status r0) "processing") as [Hs | Hs];
    try destruct (String.eqb (generation.Status r0) "completed");
    intros H; inversion H; subst r st'; clear H;
    cbn [types.pr_PredictionID types.pr_Status types.pr_Operation types.pr_WaitTime
         responses.BuildProcessingResponse];
    destruct (Hproc r0 eq_refl Hs) as [Hd Hdl]; auto 10.
Qed.

Lemma processing_answer_witness :
  handler.operation_id (<["prediction_id" := VString "p1"]> (<["wait_time" := VFloat (5 # 1)]> ∅))
  = Some (types.pr_PredictionID cases.processing_response) /\
  types.pr_Status cases.processing_response = "processing" /\
  types.pr_Operation cases.processing_response = "continue_operation" /\
  types.pr_WaitTime cases.processing_response
  = time.whole_seconds
      (handler.wait_time scenario.env_lifecycle
         (<["prediction_id" := VString "p1"]> (<["wait_time" := VFloat (5 # 1)]> ∅))) /\
  5 <= types.pr_WaitTime cases.processing_response <= 60 /\
  downloads (scenario.state_after cases.processing_call) = downloads scenario.submitted /\
  disk (scenario.state_after cases.processing_call) = disk scenario.submitted.
Proof.
  apply (processing_answer scenario.env_lifecycle 100 scenario.c0 scenario.s0 false
           scenario.s0 scenario.ctx0
           (<["prediction_id" := VString "p1"]> (<["wait_time" := VFloat (5 # 1)]> ∅))
           scenario.submitted cases.processing_response
           (scenario.state_after cases.processing_call)).
  vm_compute. reflexivity.
Defined.

(** The record a completed continue leaves, and the result it returns. *)
Lemma completion_record_written env fuel c s dbg ctx predictionID storageID waitTime
    st r st' :
  generation.ContinueGeneration env (generator_of env fuel c s dbg) ctx predictionID
    storageID waitTime st = Some (Some r, None, st') ->
  exists url fileSize generated completed,
    storage.LoadMetadata s storageID st'
    = Ok (<["generated_at" := VString generated]>
            (generation.completion_metadata predictionID url (generation.FilePath r)
               fileSize completed)) /\
    generation.FileSize (generation.Metrics r) = fileSize /\
    generation.ModelName r = "" /\ generation.ID r = storageID /\
    generation.PredictionID r = predictionID /\ generation.Status r = "completed".
Proof.
  intros H.
  apply continue_completed_steps in H
    as (url & videoPath & fileSize & st1 & st2 & Hsave & Hd & -> & ->).
  apply SaveVideoFromURL_stored in Hsave as (body & files & Hsize & Hfolder & Hfile).
  set (metadata := generation.completion_metadata predictionID url videoPath fileSize
                     (Format_RFC3339 env (clock env (clock_reads st2)))).
  set (saved := storage.SaveMetadata env s storageID metadata (snd (time_Now env st2))).
  assert (Hok : fst saved = None).
  { apply (SaveMetadata_succeeds env s storageID metadata _ files). exact Hfolder. }
  assert (Hmeta : storage.SaveMetadata env s storageID metadata (snd (time_Now env st2))
                  = (None, snd saved)).
  { fold saved. rewrite <- Hok. apply surjective_pairing. }
  pose proof (SaveMetadata_replaces _ _ _ _ _ _ Hmeta) as Hload.
  eexists url, fileSize, _, _.
  split; [rewrite (LoadMetadata_disk s storageID (snd saved)) by reflexivity; exact Hload |].
  repeat split; reflexivity.
Qed.

(** X29: the completed answer of the continue_operation tool is built
    from the record the continue has just written, which holds the
    completion fields alone.  So the answer names the storage ID, the job
    and the path of the downloaded file, and reports the file size and
    the generation time, while its model entry and its parameters are
    empty, whatever the job was submitted with. *)
Theorem completed_answer env fuel c s dbg ctx args st r st' :
  handler.handleContinueOperation env
    {| handler.generator := generator_of env fuel c s dbg; handler.storage := s |}
    ctx args st = Some (handler.SuccessText r, st') ->
  exists operationID storageID path size seconds,
    handler.operation_id args = Some operationID /\
    r = responses.BuildSuccessResponse "continue_operation" storageID
          (<["output" := path]> ∅) ∅ ∅
          (<["file_size" := VInt size]> (<["generation_time" := VFloat seconds]> ∅))
          operationID /\
    exists metadata,
      storage.LoadMetadata s storageID st' = Ok metadata /\
      metadata !! "output_path" = Some (VString path) /\
      metadata !! "file_size" = Some (VInt size).
Proof.
  unfold handler.handleContinueOperation.
  destruct (handler.operation_id args) as [operationID |]; [| intros H; inversion H].
  destruct (handler.resolve_storage_id env _ operationID st) as [storageID st0].
  cbn [handler.generator].
  destruct (generation.ContinueGeneration env (generator_of env fuel c s dbg) ctx operationID
              storageID (handler.wait_time env args) st0)
    as [[[result err] st2] |] eqn:Hcontinue; [| discriminate].
  unfold handler.continue_response.
  destruct err as [e |].
  { destruct result as [r0 |];
      [destruct (String.eqb (generation.Status r0) "processing") |];
      intros H; inversion H. }
  destruct result as [r0 |]; [| discriminate].
  destruct (String.eqb (generation.Status r0) "processing"); [intros H; inversion H |].
  destruct (String.eqb (generation.Status r0) "completed"); [| intros H; inversion H].
  apply completion_record_written in Hcontinue
    as (url & fileSize & generated & completed & Hload & Hsize & Hname & Hid & Hpid & _).
  unfold handler.completed_response. cbn [handler.storage]. rewrite Hload.
  set (metadata := <["generated_at" := VString generated]>
                     (generation.completion_metadata operationID url
                        (generation.FilePath r0) fileSize completed)).
  assert (Habsent : forall key,
             key <> "generated_at" -> key <> "completed_at" -> key <> "file_size" ->
             key <> "output_path" -> key <> "output_url" -> key <> "status" ->
             key <> "prediction_id" -> metadata !! key = None).
  { intros key ? ? ? ? ? ? ?. subst metadata. unfold generation.completion_metadata.
    by simplify_map_eq. }
  intros H. inversion H; subst r st'; clear H.
  exists operationID, storageID, (generation.FilePath r0), fileSize,
    (generation.GenerationTime (generation.Metrics r0)).
  split; [reflexivity |]. split.
  - unfold handler.completed_paths, handler.completed_model, handler.completed_parameters,
      handler.completed_metrics, handler.copy_string.
    rewrite !Habsent by discriminate. cbn [as_map as_string as_float64].
    rewrite Hname, Hid, Hpid, Hsize. reflexivity.
  - exists metadata. split; [exact Hload |].
    subst metadata. unfold generation.completion_metadata.
    split; by simplify_map_eq.
Qed.

Lemma completed_answer_witness :
  exists operationID storageID path size seconds,
    handler.operation_id
      (<["prediction_id" := VString "p1"]> (<["wait_time" := VFloat (60 # 1)]> ∅))
    = Some operationID /\
    cases.completed_response
    = responses.BuildSuccessResponse "continue_operation" storageID
        (<["output" := path]> ∅) ∅ ∅
        (<["file_size" := VInt size]> (<["generation_time" := VFloat seconds]> ∅))
        operationID /\
    exists metadata,
      storage.LoadMetadata scenario.s0 storageID (scenario.state_after cases.completed_call)
      = Ok metadata /\
      metadata !! "output_path" = Some (VString path) /\
      metadata !! "file_size" = Some (VInt size).
Proof.
  apply (completed_answer scenario.env_lifecycle 100 scenario.c0 scenario.s0 false
           scenario.ctx0
           (<["prediction_id" := VString "p1"]> (<["wait_time" := VFloat (60 # 1)]> ∅))
           scenario.waited cases.completed_response
           (scenario.state_after cases.completed_call)).
  vm_compute. reflexivity.
Defined.
